(** * MIG-Flash cartridge dumper: block I/O session and GUI controller

    A shallow embedding of [src/mig/mig_flash.py] (header codec, raw block
    device, [MIGFlash] session) and [src/mig/mig_gui_interface.py]
    ([MIGController]), with the properties of the specification stated
    and proved over it.

    Conventions
    - Python [int] is [Z]; [bytes] is [list byte].
    - A method that may raise is a computation in the state-and-exception
      monad [M S]: it maps the state before the call to an outcome
      ([Ok v] or [Raise e]) and the state after it.  As in Python, what a
      method has assigned before it raises stays assigned.
    - Dictionaries are [gmap]s. *)

From Stdlib Require Import ZArith Strings.Byte Bool Lia.
From stdpp Require Import base strings list gmap.

Local Open Scope Z_scope.
Local Open Scope string_scope.

(** ** Exceptions and outcomes *)

Inductive exn : Type :=
| ValueError (msg : string)
| ConnectionError (msg : string)
| RuntimeError (msg : string)
| InterruptedError (msg : string)
| OSError (msg : string)
| AttributeError (msg : string)
| IndexError (msg : string)
| StructError (msg : string).

Inductive Res (A : Type) : Type :=
| Ok (v : A)
| Raise (e : exn).
Arguments Ok {A} v.
Arguments Raise {A} e.

Definition is_ok {A} (r : Res A) : bool :=
  match r with Ok _ => true | Raise _ => false end.

(** [except InterruptedError] also catches nothing else here: the only
    subclass relation among the classes above that the code relies on. *)
Definition is_interrupted (e : exn) : bool :=
  match e with InterruptedError _ => true | _ => false end.

(** ** The state-and-exception monad *)

Definition M (S A : Type) : Type := S -> Res A * S.

Definition ret {S A} (v : A) : M S A := fun s => (Ok v, s).
Definition raise {S A} (e : exn) : M S A := fun s => (Raise e, s).
Definition bind {S A B} (m : M S A) (k : A -> M S B) : M S B :=
  fun s => match m s with
           | (Ok v, s') => k v s'
           | (Raise e, s') => (Raise e, s')
           end.
Definition get_st {S} : M S S := fun s => (Ok s, s).
Definition gets {S A} (f : S -> A) : M S A := fun s => (Ok (f s), s).
Definition modify {S} (f : S -> S) : M S unit := fun s => (Ok tt, f s).

(** [try: m except: h] with a handler that sees the exception. *)
Definition try_except {S A} (m : M S A) (h : exn -> M S A) : M S A :=
  fun s => match m s with
           | (Ok v, s') => (Ok v, s')
           | (Raise e, s') => h e s'
           end.

(** Run a computation on a component of the state. *)
Definition zoom {S T A} (prj : S -> T) (upd : T -> S -> S) (m : M T A) : M S A :=
  fun s => let (r, t') := m (prj s) in (r, upd t' s).

Declare Scope py_scope.
Delimit Scope py_scope with py.
Notation "'let*' x ':=' e 'in' k" := (bind e (fun x => k))
  (at level 10, x name, e at level 100, k at level 200) : py_scope.
Notation "'let*' ' p ':=' e 'in' k" := (bind e (fun x => match x with p => k end))
  (at level 10, p pattern, e at level 100, k at level 200) : py_scope.
Notation "e1 ';;' e2" := (bind e1 (fun _ => e2))
  (at level 100, e2 at level 200, right associativity) : py_scope.
Local Open Scope py_scope.

Definition when {S} (b : bool) (m : M S unit) : M S unit :=
  if b then m else ret tt.

(** ** Bytes *)

Abbreviation bytes := (list byte).

#[global] Instance byte_eq_dec : EqDecision byte.
Proof.
  intros a b. destruct (Byte.eqb a b) eqn:E.
  - left. now apply Byte.byte_dec_bl.
  - right. now apply Byte.eqb_false.
Defined.

Definition byte_to_Z (b : byte) : Z := Z.of_N (Byte.to_N b).

(** [data[a:b]] for constant [0 <= a <= b]. *)
Definition slice (a b : nat) (data : bytes) : bytes := take (b - a) (drop a data).

(** [data[i]] for a constant [i >= 0]. *)
Definition index (data : bytes) (i : nat) : Res Z :=
  match data !! i with
  | Some b => Ok (byte_to_Z b)
  | None => Raise (IndexError "index out of range")
  end.

(** Little-endian value of a byte string. *)
Fixpoint le_decode (bs : bytes) : Z :=
  match bs with
  | [] => 0
  | b :: rest => byte_to_Z b + 256 * le_decode rest
  end.

(** [struct.unpack('<I', bs)[0]] with [n = 4], [struct.unpack('<Q', bs)[0]]
    with [n = 8]: the buffer must have exactly [n] bytes. *)
Definition unpack_le (n : nat) (bs : bytes) : Res Z :=
  if decide (length bs = n) then Ok (le_decode bs)
  else Raise (StructError "unpack requires a buffer of the right size").

Definition HEAD : bytes := ["H"; "E"; "A"; "D"]%byte.

(** ** Constants: memory map *)

Definition SECTOR_SIZE : Z := 512.

Module MemoryMap.
Definition GPT_PARTITION_OFFSET : Z := 0x00000400.
Definition FIRMWARE_OFFSET : Z := 0x209A4000.
Definition FIRMWARE_VERSION_LEN : Z := 16.
Definition XCI_HEADER_OFFSET : Z := 0x00100000.
Definition XCI_HEADER_SIZE : Z := 0x00000200.
Definition XCI_DATA_OFFSET : Z := 0x00200000.
End MemoryMap.

(** ** Data structures *)

Record CartridgeInfo : Type := mkCartridgeInfo {
  inserted : bool;
  authenticated : bool;
  title_id : string;
  title_name : string;
  version : string;
  size : Z;
  trimmed_size : Z
}.

Record XCIHeader : Type := mkXCIHeader {
  signature : bytes;
  magic : bytes;
  secure_area_start : Z;
  backup_area_start : Z;
  title_key_dec_index : Z;
  game_card_size : Z;
  game_card_header_version : Z;
  game_card_flags : Z;
  package_id : Z;
  valid_data_end : Z;
  iv : bytes;
  hfs0_partition_offset : Z;
  hfs0_header_size : Z;
  sha256_hash : bytes;
  init_data_hash : bytes;
  secure_mode_flag : Z;
  title_key_flag : Z;
  key_flag : Z;
  normal_area_end : Z
}.

(** The error monad of the pure parser. *)
Definition rbind {A B} (r : Res A) (k : A -> Res B) : Res B :=
  match r with Ok v => k v | Raise e => Raise e end.
Notation "'let?' x ':=' e 'in' k" := (rbind e (fun x => k))
  (at level 10, x name, e at level 100, k at level 200) : py_scope.

(** [XCIHeader.from_bytes] *)
Definition from_bytes (data : bytes) : Res XCIHeader :=
  if decide (length data < 0x200)%nat then Raise (ValueError "XCI header too short")
  else
    let? secure_area_start := unpack_le 4 (slice 0x104 0x108 data) in
    let? backup_area_start := unpack_le 4 (slice 0x108 0x10C data) in
    let? title_key_dec_index := index data 0x10C in
    let? game_card_size := index data 0x10D in
    let? game_card_header_version := index data 0x10E in
    let? game_card_flags := index data 0x10F in
    let? package_id := unpack_le 8 (slice 0x110 0x118 data) in
    let? valid_data_end := unpack_le 8 (slice 0x118 0x120 data) in
    let? hfs0_partition_offset := unpack_le 8 (slice 0x130 0x138 data) in
    let? hfs0_header_size := unpack_le 8 (slice 0x138 0x140 data) in
    let? secure_mode_flag := index data 0x180 in
    let? title_key_flag := index data 0x181 in
    let? key_flag := index data 0x182 in
    let? normal_area_end := unpack_le 4 (slice 0x183 0x187 data) in
    Ok {| signature := slice 0x000 0x100 data;
          magic := slice 0x100 0x104 data;
          secure_area_start := secure_area_start;
          backup_area_start := backup_area_start;
          title_key_dec_index := title_key_dec_index;
          game_card_size := game_card_size;
          game_card_header_version := game_card_header_version;
          game_card_flags := game_card_flags;
          package_id := package_id;
          valid_data_end := valid_data_end;
          iv := slice 0x120 0x130 data;
          hfs0_partition_offset := hfs0_partition_offset;
          hfs0_header_size := hfs0_header_size;
          sha256_hash := slice 0x140 0x160 data;
          init_data_hash := slice 0x160 0x180 data;
          secure_mode_flag := secure_mode_flag;
          title_key_flag := title_key_flag;
          key_flag := key_flag;
          normal_area_end := normal_area_end |}.

(** [XCIHeader.is_valid] *)
Definition is_valid (h : XCIHeader) : bool := bool_decide (magic h = HEAD).

Definition GiB : Z := 1024 * 1024 * 1024.

(** The [sizes] dictionary of [XCIHeader.cart_size_bytes]. *)
Definition sizes : gmap Z Z :=
  <[0xFA := 1 * GiB]> (<[0xF8 := 2 * GiB]> (<[0xF0 := 4 * GiB]>
  (<[0xE0 := 8 * GiB]> (<[0xE1 := 16 * GiB]> (<[0xE2 := 32 * GiB]> ∅))))).

(** [XCIHeader.cart_size_bytes]: [sizes.get(self.game_card_size, 0)] *)
Definition cart_size_bytes (h : XCIHeader) : Z :=
  default 0 (sizes !! game_card_size h).

(** ** Events and states of the GUI interface

    [MIGEventData] keeps the fields the properties below speak about; the
    floating-point fields ([progress], [speed_kbps], [eta_seconds]) and the
    untyped [data] payload are left out, and a formatted message is kept as
    the values it is formatted from. *)

Inductive MIGEvent : Type :=
| DEVICE_CONNECTED | DEVICE_DISCONNECTED | CART_INSERTED | CART_REMOVED
| AUTH_STARTED | AUTH_SUCCESS | AUTH_FAILED
| DUMP_STARTED | DUMP_PROGRESS | DUMP_COMPLETE | DUMP_ERROR | ERROR.

Inductive MIGState : Type :=
| ST_DISCONNECTED | ST_CONNECTING | ST_CONNECTED | ST_NO_CART | ST_CART_DETECTED
| ST_AUTHENTICATING | ST_AUTHENTICATED | ST_DUMPING | ST_ERROR.

Inductive Msg : Type :=
| Text (s : string)
| DumpingGB (dump_size : Z)
| Percent (done total : Z)
| DumpCompleteMsg (filename : string)
| StrOfExn (e : exn).

Record MIGEventData : Type := mkEvent {
  event : MIGEvent;
  state : MIGState;
  message : Msg;
  bytes_done : Z;
  bytes_total : Z;
  error : option exn
}.

(** A thread is known by the closure it runs. *)
Inductive Job : Type :=
| JobConnect (device_path : option string)
| JobAuthenticate
| JobDump (filename : string) (trimmed : bool)
| JobMonitor.

(** ** The world outside the objects *)

Inductive Platform : Type := Windows | Darwin | Linux.

(** Calls that release an OS resource. *)
Inductive OsCall : Type :=
| FSCTL_UNLOCK_VOLUME (path : string)
| CloseHandle (path : string)
| FileClose (path : string).

(** What other threads do between two progress checks of a running dump. *)
Inductive Interference : Type := NoCall | AbortDumpCalled.

Record World : Type := mkWorld {
  w_platform : Platform;             (* platform.system() *)
  w_fs : gmap string bytes;          (* files written by the dump *)
  w_os : list OsCall;                (* release calls made so far, oldest first *)
  w_events : list MIGEventData;      (* what the event subscriber has received *)
  w_threads : list Job;              (* started threads, newest first *)
  w_clock : list Z;                  (* coming readings of time.time(), in ms *)
  w_sched : list Interference        (* coming interference, one entry per check *)
}.

Definition set_fs (f : gmap string bytes -> gmap string bytes) (w : World) : World :=
  mkWorld (w_platform w) (f (w_fs w)) (w_os w) (w_events w) (w_threads w) (w_clock w) (w_sched w).
Definition log_os (c : OsCall) (w : World) : World :=
  mkWorld (w_platform w) (w_fs w) (w_os w ++ [c])%list (w_events w) (w_threads w) (w_clock w) (w_sched w).
Definition deliver (e : MIGEventData) (w : World) : World :=
  mkWorld (w_platform w) (w_fs w) (w_os w) (w_events w ++ [e])%list (w_threads w) (w_clock w) (w_sched w).
Definition start_thread (j : Job) (w : World) : World :=
  mkWorld (w_platform w) (w_fs w) (w_os w) (w_events w) (j :: w_threads w) (w_clock w) (w_sched w).
Definition set_clock (c : list Z) (w : World) : World :=
  mkWorld (w_platform w) (w_fs w) (w_os w) (w_events w) (w_threads w) c (w_sched w).
Definition set_sched (s : list Interference) (w : World) : World :=
  mkWorld (w_platform w) (w_fs w) (w_os w) (w_events w) (w_threads w) (w_clock w) s.

Definition is_windows (w : World) : bool :=
  match w_platform w with Windows => true | _ => false end.

(** The medium behind a device path: its size, its bytes, and which
    transfers fail.  A read past the end is short, as for a raw file. *)
Record Medium : Type := mkMedium {
  med_size : Z;
  med_byte : Z -> byte;
  med_fault : Z -> Z -> bool;     (* a read of [n] bytes at [pos] raises OSError *)
  med_close_fault : bool          (* releasing the handle raises OSError *)
}.

(** The [n] bytes of the medium from position [pos] on. *)
Fixpoint med_bytes (med : Medium) (pos : Z) (n : nat) : bytes :=
  match n with
  | O => []
  | S n' => med_byte med pos :: med_bytes med (pos + 1) n'
  end.

(** What a read of [size] bytes at [pos] returns when it does not fail:
    a negative [size] reads to the end of the medium, and a read that
    reaches the end is short. *)
Definition read_data (med : Medium) (pos size : Z) : bytes :=
  let avail := med_size med - pos in
  let n := if decide (size < 0) then avail else Z.min size avail in
  med_bytes med pos (Z.to_nat n).

(** An open OS handle: the medium and the file position. *)
Record Handle : Type := mkHandle {
  h_medium : Medium;
  h_pos : Z
}.

(** ** BlockDevice *)

Module BlockDevice.

Record t : Type := mk {
  device_path : string;
  handle : option Handle;
  _opened : bool
}.

Definition St : Type := World * t.

Definition no_handle : exn :=
  AttributeError "'NoneType' object has no attribute".

(** [seek]: [handle.seek(offset)] / [SetFilePointer] *)
Definition seek (offset : Z) : M St unit := fun '(w, bd) =>
  match handle bd with
  | None => (Raise no_handle, (w, bd))
  | Some h =>
      if decide (offset < 0) then (Raise (OSError "Invalid argument"), (w, bd))
      else (Ok tt, (w, mk (device_path bd) (Some (mkHandle (h_medium h) offset)) (_opened bd)))
  end.

(** [read]: [handle.read(size)] / [ReadFile]; a negative size reads to
    the end of the medium. *)
Definition read (size : Z) : M St bytes := fun '(w, bd) =>
  match handle bd with
  | None => (Raise no_handle, (w, bd))
  | Some h =>
      let med := h_medium h in
      if med_fault med (h_pos h) size then (Raise (OSError "Input/output error"), (w, bd))
      else
        let data := read_data med (h_pos h) size in
        (Ok data,
         (w, mk (device_path bd) (Some (mkHandle med (h_pos h + Z.of_nat (length data))))
                (_opened bd)))
  end.

(** [read_at] *)
Definition read_at (offset size : Z) : M St bytes :=
  seek offset ;; read size.

(** [DeviceIoControl(handle, FSCTL_UNLOCK_VOLUME, ...)] *)
Definition unlock_volume : M St unit := fun '(w, bd) =>
  match handle bd with
  | None => (Raise no_handle, (w, bd))
  | Some _ => (Ok tt, (log_os (FSCTL_UNLOCK_VOLUME (device_path bd)) w, bd))
  end.

(** [CloseHandle(handle)] on Windows, [handle.close()] elsewhere. *)
Definition release_handle (call : string -> OsCall) : M St unit := fun '(w, bd) =>
  match handle bd with
  | None => (Raise no_handle, (w, bd))
  | Some h =>
      let w' := log_os (call (device_path bd)) w in
      if med_close_fault (h_medium h) then (Raise (OSError "close failed"), (w', bd))
      else (Ok tt, (w', bd))
  end.

(** [close] *)
Definition close : M St unit :=
  let* opened := gets (fun s : St => _opened s.2) in
  if negb opened then ret tt
  else
    let* win := gets (fun s : St => is_windows s.1) in
    (if win then
       try_except unlock_volume (fun _ => ret tt) ;;
       release_handle CloseHandle
     else
       release_handle FileClose) ;;
    modify (fun s : St => (s.1, mk (device_path s.2) None false)).

End BlockDevice.

Record MIGDeviceInfo : Type := mkMIGDeviceInfo {
  path : string;
  label : string;
  is_removable : bool;
  firmware_version : string;
  raw_device : string
}.

(** ** Files: [open(filename, 'wb')] and [f.write(data)] *)

Definition f_open_wb (filename : string) : M World unit :=
  modify (set_fs (insert filename [])).

Definition f_write (filename : string) (data : bytes) : M World unit :=
  modify (set_fs (fun fs => <[filename := (default [] (fs !! filename) ++ data)%list]> fs)).

(** ** MIGFlash *)

Module MIGFlash.
Import MemoryMap.

Record t : Type := mk {
  device : option BlockDevice.t;
  device_info : option MIGDeviceInfo;
  _connected : bool;
  _firmware_version : option string;
  _cart_info : option CartridgeInfo;
  _xci_header : option XCIHeader
}.

Definition St : Type := World * t.

Definition set_device (d : option BlockDevice.t) (m : t) : t :=
  mk d (device_info m) (_connected m) (_firmware_version m) (_cart_info m) (_xci_header m).
Definition set_cart_info (ci : option CartridgeInfo) (m : t) : t :=
  mk (device m) (device_info m) (_connected m) (_firmware_version m) ci (_xci_header m).
Definition set_xci_header (h : option XCIHeader) (m : t) : t :=
  mk (device m) (device_info m) (_connected m) (_firmware_version m) (_cart_info m) h.

(** A method call on [self.device]; on [None] the attribute lookup
    raises. *)
Definition on_device {A} (m : M BlockDevice.St A) : M St A := fun '(w, mig) =>
  match device mig with
  | None => (Raise BlockDevice.no_handle, (w, mig))
  | Some bd => let '(r, (w', bd')) := m (w, bd) in (r, (w', set_device (Some bd') mig))
  end.

(** [disconnect] *)
Definition disconnect : M St unit :=
  let* dev := gets (fun s : St => device s.2) in
  match dev with
  | Some _ => try_except (on_device BlockDevice.close) (fun _ => ret tt)
  | None => ret tt
  end ;;
  modify (fun s : St => (s.1, mk None (device_info s.2) false None None None)).

(** [is_connected] *)
Definition is_connected (m : t) : bool := _connected m.

(** [cart_inserted] *)
Definition cart_inserted : M St bool :=
  let* connected := gets (fun s : St => _connected s.2) in
  if negb connected then ret false
  else
    try_except
      (let* data := on_device (BlockDevice.read_at XCI_HEADER_OFFSET 4) in
       ret (bool_decide (data = HEAD)))
      (fun _ => ret false).

(** [cart_authenticated] *)
Definition cart_authenticated (m : t) : bool :=
  match _cart_info m with
  | Some ci => authenticated ci
  | None => false
  end.

Definition lift_res {A} (r : Res A) : M St A := fun s => (r, s).

(** [authenticate] *)
Definition authenticate : M St bool :=
  let* connected := gets (fun s : St => _connected s.2) in
  if negb connected then raise (ConnectionError "Not connected")
  else
    let* present := cart_inserted in
    if negb present then raise (RuntimeError "No cartridge inserted")
    else
      try_except
        (let* header_data := on_device (BlockDevice.read_at XCI_HEADER_OFFSET XCI_HEADER_SIZE) in
         let* h := lift_res (from_bytes header_data) in
         modify (fun s : St => (s.1, set_xci_header (Some h) s.2)) ;;
         if is_valid h then
           modify (fun s : St =>
             (s.1, set_cart_info
                     (Some {| inserted := true;
                              authenticated := true;
                              title_id := "";
                              title_name := "";
                              version := "";
                              size := cart_size_bytes h;
                              trimmed_size := valid_data_end h * 0x200 |}) s.2)) ;;
           ret true
         else ret false)
        (fun _ => ret false).

Definition authentication_required : exn := RuntimeError "Authentication required".

(** [get_xci_header] *)
Definition get_xci_header : M St (option XCIHeader) :=
  let* authed := gets (fun s : St => cart_authenticated s.2) in
  (if negb authed then
     let* ok := authenticate in
     if negb ok then raise authentication_required else ret tt
   else ret tt) ;;
  gets (fun s : St => _xci_header s.2).

(** [get_xci_size] *)
Definition get_xci_size : M St (Z * Z) :=
  let* header := get_xci_header in
  match header with
  | Some h => ret (cart_size_bytes h, valid_data_end h * 0x200)
  | None => ret (0, 0)
  end.

(** [read_xci] *)
Definition read_xci (offset length : Z) : M St bytes :=
  let* authed := gets (fun s : St => cart_authenticated s.2) in
  if negb authed then raise authentication_required
  else on_device (BlockDevice.read_at (XCI_DATA_OFFSET + offset) length).

Definition chunk_size : Z := 1024 * 1024.

(** The state of a dump: the world, the session, and whatever the
    progress callback closes over. *)
Definition DumpSt (C : Type) : Type := World * t * C.

Definition in_session {C A} (m : M St A) : M (DumpSt C) A :=
  zoom (fun s : DumpSt C => s.1) (fun wt s => (wt, s.2)) m.
Definition in_world {C A} (m : M World A) : M (DumpSt C) A :=
  zoom (fun s : DumpSt C => s.1.1) (fun w s => (w, s.1.2, s.2)) m.
Definition in_callback {C A} (m : M (World * C) A) : M (DumpSt C) A :=
  zoom (fun s : DumpSt C => (s.1.1, s.2)) (fun wc s => (wc.1, s.1.2, wc.2)) m.

(** The [while offset < dump_size] loop of [dump_xci].  [fuel] bounds the
    number of iterations; [None] means the loop was still running when
    the fuel ran out. *)
Fixpoint dump_loop {C} (fuel : nat) (filename : string) (dump_size : Z)
    (progress_callback : option (Z -> Z -> M (World * C) unit))
    (offset : Z) : M (DumpSt C) (option unit) :=
  match fuel with
  | O => ret None
  | S fuel' =>
      if decide (offset < dump_size) then
        let remaining := dump_size - offset in
        let read_size := Z.min chunk_size remaining in
        let* data := in_session (read_xci offset read_size) in
        in_world (f_write filename data) ;;
        let offset := offset + Z.of_nat (length data) in
        match progress_callback with
        | Some cb => in_callback (cb offset dump_size)
        | None => ret tt
        end ;;
        dump_loop fuel' filename dump_size progress_callback offset
      else ret (Some tt)
  end.

(** [dump_xci] *)
Definition dump_xci {C} (fuel : nat) (filename : string) (trimmed : bool)
    (progress_callback : option (Z -> Z -> M (World * C) unit))
    : M (DumpSt C) (option bool) :=
  let* authed := gets (fun s : DumpSt C => cart_authenticated s.1.2) in
  (if negb authed then
     let* ok := in_session authenticate in
     if negb ok then raise authentication_required else ret tt
   else ret tt) ;;
  let* '(total_size, trimmed_size) := in_session get_xci_size in
  let dump_size := if trimmed then trimmed_size else total_size in
  in_world (f_open_wb filename) ;;
  let* r := dump_loop fuel filename dump_size progress_callback 0 in
  match r with
  | Some _ => ret (Some true)
  | None => ret None
  end.

End MIGFlash.

(** ** MIGController

    One call is followed from its first statement to its last.  What other
    threads do meanwhile enters in two places only: the interference list
    of the world, consumed by the progress callback of a dump (the abort
    flag is the only shared variable a dump reads, once per progress
    check), and the snapshots of the session handed to the monitor (one
    per poll).  The lock [_lock] is free when a call starts and is free
    again when it ends, so it is not represented.  The subscriber set by
    [set_event_callback] records what it receives and does not raise. *)

Module MIGController.

Record t : Type := mk {
  _mig : option MIGFlash.t;
  _state : MIGState;
  _event_callback : bool;            (* a subscriber is set *)
  _worker_thread : option Job;
  _abort_flag : bool;
  _monitor_thread : option Job;
  _monitoring : bool;
  _device_info : option MIGDeviceInfo;
  _cart_info : option CartridgeInfo;
  _xci_header : option XCIHeader
}.

Definition St : Type := World * t.

Definition set_mig (m : option MIGFlash.t) (c : t) : t :=
  mk m (_state c) (_event_callback c) (_worker_thread c) (_abort_flag c)
     (_monitor_thread c) (_monitoring c) (_device_info c) (_cart_info c) (_xci_header c).
Definition set_state (s : MIGState) (c : t) : t :=
  mk (_mig c) s (_event_callback c) (_worker_thread c) (_abort_flag c)
     (_monitor_thread c) (_monitoring c) (_device_info c) (_cart_info c) (_xci_header c).
Definition set_worker_thread (j : option Job) (c : t) : t :=
  mk (_mig c) (_state c) (_event_callback c) j (_abort_flag c)
     (_monitor_thread c) (_monitoring c) (_device_info c) (_cart_info c) (_xci_header c).
Definition set_abort_flag (b : bool) (c : t) : t :=
  mk (_mig c) (_state c) (_event_callback c) (_worker_thread c) b
     (_monitor_thread c) (_monitoring c) (_device_info c) (_cart_info c) (_xci_header c).
Definition set_monitor (j : option Job) (b : bool) (c : t) : t :=
  mk (_mig c) (_state c) (_event_callback c) (_worker_thread c) (_abort_flag c)
     j b (_device_info c) (_cart_info c) (_xci_header c).
Definition set_cart (ci : option CartridgeInfo) (h : option XCIHeader) (c : t) : t :=
  mk (_mig c) (_state c) (_event_callback c) (_worker_thread c) (_abort_flag c)
     (_monitor_thread c) (_monitoring c) (_device_info c) ci h.

(** [is_connected] *)
Definition is_connected (c : t) : bool :=
  match _mig c with
  | Some m => MIGFlash.is_connected m
  | None => false
  end.

(** [_emit_event]; [done], [total] and [err] are the keyword arguments
    [bytes_done], [bytes_total] and [error]. *)
Definition _emit_event (ev : MIGEvent) (msg : Msg) (done total : Z) (err : option exn)
    : M St unit := fun '(w, c) =>
  if _event_callback c
  then (Ok tt, (deliver (mkEvent ev (_state c) msg done total err) w, c))
  else (Ok tt, (w, c)).

(** [_set_state] *)
Definition _set_state (s : MIGState) : M St unit :=
  modify (fun st : St => (st.1, set_state s st.2)).

(** A method call on [self._mig]. *)
Definition on_mig {A} (m : M MIGFlash.St A) : M St A := fun '(w, c) =>
  match _mig c with
  | None => (Raise (AttributeError "'NoneType' object has no attribute"), (w, c))
  | Some mig => let '(r, (w', mig')) := m (w, mig) in (r, (w', set_mig (Some mig') c))
  end.

(** Start [threading.Thread(target=worker, daemon=True)] and keep it in
    [_worker_thread]. *)
Definition spawn_worker (j : Job) : M St unit :=
  modify (fun st : St => (start_thread j st.1, set_worker_thread (Some j) st.2)).

(** [connect_async]: the two statements after the closure. *)
Definition connect_async (device_path : option string) : M St unit :=
  spawn_worker (JobConnect device_path).

(** [authenticate] (synchronous) *)
Definition authenticate : M St bool :=
  let* mig := gets (fun st : St => _mig st.2) in
  match mig with
  | None => raise (RuntimeError "Not connected")
  | Some _ =>
      let* success := on_mig MIGFlash.authenticate in
      (if success : bool then
         modify (fun st : St =>
           (st.1, set_state ST_AUTHENTICATED
                    (set_cart (mig ← _mig st.2; MIGFlash._cart_info mig)
                              (mig ← _mig st.2; MIGFlash._xci_header mig) st.2)))
       else _set_state ST_ERROR) ;;
      ret success
  end.

(** The closure [worker] of [authenticate_async]. *)
Definition authenticate_worker : M St unit :=
  _set_state ST_AUTHENTICATING ;;
  _emit_event AUTH_STARTED (Text "Authenticating...") 0 0 None ;;
  try_except
    (let* ok := authenticate in
     if ok : bool then
       _emit_event AUTH_SUCCESS (Text "Authentication successful") 0 0 None
     else
       _emit_event AUTH_FAILED (Text "Authentication failed") 0 0 None)
    (fun e =>
       _set_state ST_ERROR ;;
       _emit_event AUTH_FAILED (StrOfExn e) 0 0 (Some e)).

(** [authenticate_async] *)
Definition authenticate_async : M St unit :=
  spawn_worker JobAuthenticate.

(** [abort_dump] *)
Definition abort_dump : M St unit :=
  modify (fun st : St => (st.1, set_abort_flag true st.2)).

(** The variables [worker] of [dump_xci_async] shares with its closure
    [on_progress]. *)
Record DumpLocals : Type := mkDumpLocals {
  start_time : Z;
  last_update : Z
}.

Definition WorkerSt : Type := World * (t * DumpLocals).

Definition in_ctl {A} (m : M St A) : M WorkerSt A :=
  zoom (fun s : WorkerSt => (s.1, s.2.1)) (fun wc s => (wc.1, (wc.2, s.2.2))) m.

(** [time.time()], in milliseconds. *)
Definition time_time : M World Z := fun w =>
  match w_clock w with
  | [] => (Ok 0, w)
  | now :: rest => (Ok now, set_clock rest w)
  end.

(** What other threads did since the previous progress check. *)
Definition interference : M St unit := fun '(w, c) =>
  match w_sched w with
  | [] => (Ok tt, (w, c))
  | NoCall :: rest => (Ok tt, (set_sched rest w, c))
  | AbortDumpCalled :: rest => abort_dump (set_sched rest w, c)
  end.

(** [dump_xci] (synchronous); the callback may use the controller and
    the variables of the closure it comes from, and does not assign
    [_mig]. *)
Definition dump_xci (fuel : nat) (filename : string) (trimmed : bool)
    (progress_callback : option (Z -> Z -> M WorkerSt unit))
    : M WorkerSt (option bool) := fun '(w, (c, l)) =>
  match _mig c with
  | None => (Raise (RuntimeError "Not connected"), (w, (c, l)))
  | Some mig =>
      let '(r, (w', mig', (c', l'))) :=
        MIGFlash.dump_xci fuel filename trimmed progress_callback (w, mig, (c, l)) in
      (r, (w', (set_mig (Some mig') c', l')))
  end.

(** The closure [on_progress] of [dump_xci_async]. *)
Definition on_progress (done total : Z) : M WorkerSt unit :=
  in_ctl interference ;;
  let* aborted := gets (fun s : WorkerSt => _abort_flag s.2.1) in
  if aborted : bool then raise (InterruptedError "Dump aborted")
  else
    let* now := zoom (fun s : WorkerSt => s.1) (fun w s => (w, s.2)) time_time in
    let* last := gets (fun s : WorkerSt => last_update s.2.2) in
    if decide (now - last < 100) then ret tt
    else
      modify (fun s : WorkerSt => (s.1, (s.2.1, mkDumpLocals (start_time s.2.2) now))) ;;
      in_ctl (_emit_event DUMP_PROGRESS (Percent done total) done total None).

(** The closure [worker] of [dump_xci_async]; [None] when the fuel of
    the copy loop ran out. *)
Definition dump_worker (fuel : nat) (filename : string) (trimmed : bool)
    : M St (option unit) :=
  modify (fun st : St => (st.1, set_abort_flag false st.2)) ;;
  _set_state ST_DUMPING ;;
  let* '(total_size, trimmed_size) := on_mig MIGFlash.get_xci_size in
  let dump_size := if trimmed then trimmed_size else total_size in
  _emit_event DUMP_STARTED (DumpingGB dump_size) 0 dump_size None ;;
  let* start := zoom (fun s : St => s.1) (fun w s => (w, s.2)) time_time in
  zoom (fun s : St => (s.1, (s.2, mkDumpLocals start start)))
       (fun ws _ => (ws.1, ws.2.1))
    (try_except
       (let* success := dump_xci fuel filename trimmed (Some on_progress) in
        match success with
        | None => ret None
        | Some true =>
            in_ctl (_set_state ST_AUTHENTICATED) ;;
            in_ctl (_emit_event DUMP_COMPLETE (DumpCompleteMsg filename)
                                dump_size dump_size None) ;;
            ret (Some tt)
        | Some false =>
            in_ctl (_emit_event DUMP_ERROR (Text "Dump failed") 0 0 None) ;;
            ret (Some tt)
        end)
       (fun e =>
          if is_interrupted e then
            in_ctl (_set_state ST_AUTHENTICATED) ;;
            in_ctl (_emit_event DUMP_ERROR (Text "Dump aborted by user") 0 0 None) ;;
            ret (Some tt)
          else
            in_ctl (_set_state ST_ERROR) ;;
            in_ctl (_emit_event DUMP_ERROR (StrOfExn e) 0 0 (Some e)) ;;
            ret (Some tt))).

(** [dump_xci_async]: the two statements after the closure. *)
Definition dump_xci_async (filename : string) (trimmed : bool) : M St unit :=
  spawn_worker (JobDump filename trimmed).

(** The variables of the closure [monitor] of [start_monitoring]. *)
Record MonitorLocals : Type := mkMonitorLocals {
  was_connected : bool;
  had_cart : bool
}.

(** The statements of [monitor] before its loop. *)
Definition monitor_init : M St MonitorLocals :=
  let* was := gets (fun st : St => is_connected st.2) in
  let* mig := gets (fun st : St => _mig st.2) in
  match was, mig with
  | true, Some _ =>
      let* had := on_mig MIGFlash.cart_inserted in
      ret (mkMonitorLocals was had)
  | _, _ => ret (mkMonitorLocals was false)
  end.

(** One turn of the loop of [monitor], after the sleep.  [snapshot] is
    the session as the other threads and the hardware have left it. *)
Definition monitor_poll (snapshot : option MIGFlash.t) (l : MonitorLocals)
    : M St MonitorLocals :=
  modify (fun st : St => (st.1, set_mig snapshot st.2)) ;;
  try_except
    (let* connected := gets (fun st : St => is_connected st.2) in
     if was_connected l && negb connected then
       _set_state ST_DISCONNECTED ;;
       _emit_event DEVICE_DISCONNECTED (Text "Device disconnected") 0 0 None ;;
       ret (mkMonitorLocals false false)
     else if negb connected then ret l
     else
       let* has_cart := on_mig MIGFlash.cart_inserted in
       (if negb (had_cart l) && has_cart then
          _set_state ST_CART_DETECTED ;;
          _emit_event CART_INSERTED (Text "Cartridge inserted") 0 0 None
        else if had_cart l && negb has_cart then
          _set_state ST_NO_CART ;;
          modify (fun st : St => (st.1, set_cart None None st.2)) ;;
          _emit_event CART_REMOVED (Text "Cartridge removed") 0 0 None
        else ret tt) ;;
       ret (mkMonitorLocals connected has_cart))
    (fun _ => ret l).

Fixpoint monitor_loop (polls : list (option MIGFlash.t)) (l : MonitorLocals)
    : M St unit :=
  match polls with
  | [] => ret tt
  | snapshot :: rest => let* l' := monitor_poll snapshot l in monitor_loop rest l'
  end.

(** The closure [monitor], run for as many polls as there are
    snapshots; [stop_monitoring] is called after the last one. *)
Definition monitor (polls : list (option MIGFlash.t)) : M St unit :=
  let* l := monitor_init in monitor_loop polls l.

(** [start_monitoring] *)
Definition start_monitoring : M St unit :=
  let* monitoring := gets (fun st : St => _monitoring st.2) in
  if monitoring : bool then ret tt
  else
    modify (fun st : St => (start_thread JobMonitor st.1, set_monitor (Some JobMonitor) true st.2)).

End MIGController.

(** * The rest of the two modules

    Opening a device needs to know what the operating system can open:
    [devices] maps a device path to the medium behind it, as it is when
    the device is opened.  [found] is what [find_mig_devices] returns.
    Both are arguments of the calls that use them. *)

(** [str(e)] *)
Definition str_exn (e : exn) : string :=
  match e with
  | ValueError msg | ConnectionError msg | RuntimeError msg | InterruptedError msg
  | OSError msg | AttributeError msg | IndexError msg | StructError msg => msg
  end.

(** [try: m finally: f]; an exception of [f] replaces the one of [m]. *)
Definition finally {S A} (m : M S A) (f : M S unit) : M S A :=
  fun s => match m s with
           | (r, s') =>
               match f s' with
               | (Ok _, s'') => (r, s'')
               | (Raise e, s'') => (Raise e, s'')
               end
           end.

(** [GPT_MSDATA_GUID] *)
Definition GPT_MSDATA_GUID : bytes :=
  [xa2; xa0; xd0; xeb; xe5; xb9; x33; x44; x87; xc0; x68; xb6; xb7; x26; x99; xc7].

(** The medium after [data] has been stored at [pos]. *)
Definition med_store (med : Medium) (pos : Z) (data : bytes) : Medium :=
  mkMedium (med_size med)
    (fun a => if decide (pos <= a < pos + Z.of_nat (length data))
              then default (med_byte med a) (data !! Z.to_nat (a - pos))
              else med_byte med a)
    (med_fault med) (med_close_fault med).

Module BlockDeviceRW.
Import BlockDevice.

(** [BlockDevice(device_path)] *)
Definition new (path : string) : t := mk path None false.

(** [CreateFile(...)] on Windows, [open(device_path, 'r+b', buffering=0)]
    elsewhere; the unmount and the volume lock that go with them may fail
    and leave nothing behind. *)
Definition os_open (devices : gmap string Medium) : M St unit := fun '(w, bd) =>
  match devices !! device_path bd with
  | Some med => (Ok tt, (w, mk (device_path bd) (Some (mkHandle med 0)) (_opened bd)))
  | None => (Raise (OSError "No such file or directory"), (w, bd))
  end.

(** [open] *)
Definition open (devices : gmap string Medium) : M St unit :=
  let* opened := gets (fun s : St => _opened s.2) in
  if opened : bool then ret tt
  else
    os_open devices ;;
    modify (fun s : St => (s.1, mk (device_path s.2) (handle s.2) true)).

(** [write]: [handle.write(data)] / [WriteFile]; the number of bytes the
    OS took is not looked at.  A write that reaches the end of the medium
    is short, and one that starts at the end fails. *)
Definition write (data : bytes) : M St unit := fun '(w, bd) =>
  match handle bd with
  | None => (Raise no_handle, (w, bd))
  | Some h =>
      let med := h_medium h in
      let len := Z.of_nat (length data) in
      if med_fault med (h_pos h) len then (Raise (OSError "Input/output error"), (w, bd))
      else if decide (0 < len /\ med_size med <= h_pos h)
      then (Raise (OSError "No space left on device"), (w, bd))
      else
        let taken := take (Z.to_nat (Z.min len (med_size med - h_pos h))) data in
        (Ok tt,
         (w, mk (device_path bd)
                (Some (mkHandle (med_store med (h_pos h) taken)
                         (h_pos h + Z.of_nat (length taken))))
                (_opened bd)))
  end.

(** [read_sector] *)
Definition read_sector (sector : Z) : M St bytes :=
  seek (sector * SECTOR_SIZE) ;; read SECTOR_SIZE.

(** [write_sector] *)
Definition write_sector (sector : Z) (data : bytes) : M St unit :=
  if decide (Z.of_nat (length data) <> SECTOR_SIZE)
  then raise (ValueError "Sector data must be 512 bytes")
  else seek (sector * SECTOR_SIZE) ;; write data.



End BlockDeviceRW.

Module MIGFlashConnect.
Import MemoryMap MIGFlash.

(** [MIGFlash()] *)
Definition new : t := mk None None false None None None.

Definition set_device_info (d : option MIGDeviceInfo) (m : t) : t :=
  mk (device m) d (_connected m) (_firmware_version m) (_cart_info m) (_xci_header m).
Definition set_connected (b : bool) (m : t) : t :=
  mk (device m) (device_info m) b (_firmware_version m) (_cart_info m) (_xci_header m).
Definition set_firmware_version (v : option string) (m : t) : t :=
  mk (device m) (device_info m) (_connected m) v (_cart_info m) (_xci_header m).

(** [_verify_device] *)
Definition _verify_device : M St bool :=
  try_except
    (let* data := on_device (BlockDevice.read_at GPT_PARTITION_OFFSET 512) in
     ret (bool_decide (slice 0 16 data = GPT_MSDATA_GUID)))
    (fun _ => ret false).

(** [data.split(b'\x00')[0]] *)
Fixpoint until_nul (data : bytes) : bytes :=
  match data with
  | [] => []
  | b :: rest => if decide (b = x00) then [] else b :: until_nul rest
  end.

(** [bs.decode('ascii')]; [UnicodeDecodeError] is a [ValueError]. *)
Definition decode_ascii (bs : bytes) : Res string :=
  if forallb (fun b => bool_decide (byte_to_Z b < 128)) bs
  then Ok (String.string_of_list_byte bs)
  else Raise (ValueError "'ascii' codec can't decode byte").

(** [_read_firmware_version] *)
Definition _read_firmware_version : M St unit :=
  try_except
    (let* data := on_device (BlockDevice.read_at FIRMWARE_OFFSET FIRMWARE_VERSION_LEN) in
     let* v := lift_res (decode_ascii (until_nul data)) in
     modify (fun s : St => (s.1, set_firmware_version (Some v) s.2)))
    (fun _ => modify (fun s : St => (s.1, set_firmware_version (Some "Unknown") s.2))).

(** [firmware_version]: [self._firmware_version or "Unknown"] *)
Definition firmware_version (m : t) : string :=
  match _firmware_version m with
  | Some v => if decide (v = "") then "Unknown" else v
  | None => "Unknown"
  end.

(** [connect]; an empty [device_path] counts as none given. *)
Definition connect (devices : gmap string Medium) (found : list MIGDeviceInfo)
    (device_path : option string) : M St bool :=
  let* connected := gets (fun s : St => _connected s.2) in
  (if connected : bool then disconnect else ret tt) ;;
  (match device_path with
   | Some p =>
       if decide (p = "") then
         match found with
         | [] => raise (ConnectionError "No MIG-Flash device found")
         | d :: _ => modify (fun s : St => (s.1, set_device_info (Some d) s.2))
         end
       else
         modify (fun s : St =>
           (s.1, set_device_info (Some (mkMIGDeviceInfo p "" true "" "")) s.2))
   | None =>
       match found with
       | [] => raise (ConnectionError "No MIG-Flash device found")
       | d :: _ => modify (fun s : St => (s.1, set_device_info (Some d) s.2))
       end
   end) ;;
  try_except
    (let* info := gets (fun s : St => device_info s.2) in
     match info with
     | None => raise BlockDevice.no_handle
     | Some d =>
         modify (fun s : St => (s.1, set_device (Some (BlockDeviceRW.new (path d))) s.2)) ;;
         on_device (BlockDeviceRW.open devices) ;;
         let* ok := _verify_device in
         if negb ok then
           on_device BlockDevice.close ;;
           raise (ConnectionError "Device is not a valid MIG-Flash")
         else
           modify (fun s : St => (s.1, set_connected true s.2)) ;;
           _read_firmware_version ;;
           ret true
     end)
    (fun e =>
       let* dev := gets (fun s : St => device s.2) in
       match dev with
       | Some _ => try_except (on_device BlockDevice.close) (fun _ => ret tt)
       | None => ret tt
       end ;;
       raise (ConnectionError ("Failed to connect: " ++ str_exn e))).

(** [read_uid] *)
Definition read_uid : M St bytes :=
  let* connected := gets (fun s : St => _connected s.2) in
  if negb connected then raise (ConnectionError "Not connected")
  else on_device (BlockDevice.read_at (XCI_HEADER_OFFSET + 0x100) 16).


(** [with connect_mig(device_path) as mig: body]: [connect_mig] makes
    the session and connects it, [__exit__] disconnects on every way out
    of the body. *)
Definition with_connect_mig {A} (devices : gmap string Medium) (found : list MIGDeviceInfo)
    (device_path : option string) (body : M St A) : M St A :=
  connect devices found device_path ;; finally body disconnect.

End MIGFlashConnect.

Module MIGControllerConnect.
Import MIGController.

Definition set_device_info (d : option MIGDeviceInfo) (c : t) : t :=
  mk (_mig c) (_state c) (_event_callback c) (_worker_thread c) (_abort_flag c)
     (_monitor_thread c) (_monitoring c) d (_cart_info c) (_xci_header c).

(** [firmware_version] *)
Definition firmware_version (c : t) : string :=
  match _mig c with
  | Some m => MIGFlashConnect.firmware_version m
  | None => ""
  end.

(** [connect] (synchronous) *)
Definition connect (devices : gmap string Medium) (found : list MIGDeviceInfo)
    (device_path : option string) : M St bool :=
  let* mig := gets (fun st : St => _mig st.2) in
  match mig with
  | Some _ => on_mig MIGFlash.disconnect
  | None => ret tt
  end ;;
  modify (fun st : St => (st.1, set_mig (Some MIGFlashConnect.new) st.2)) ;;
  try_except
    (on_mig (MIGFlashConnect.connect devices found device_path) ;;
     modify (fun st : St =>
       (st.1, set_device_info (mig ← _mig st.2; MIGFlash.device_info mig) st.2)) ;;
     _set_state ST_CONNECTED ;;
     let* present := on_mig MIGFlash.cart_inserted in
     (if present : bool then _set_state ST_CART_DETECTED else _set_state ST_NO_CART) ;;
     ret true)
    (fun e => _set_state ST_ERROR ;; raise e).


(** [disconnect] *)
Definition disconnect : M St unit :=
  let* mig := gets (fun st : St => _mig st.2) in
  match mig with
  | Some _ =>
      on_mig MIGFlash.disconnect ;;
      modify (fun st : St => (st.1, set_mig None st.2))
  | None => ret tt
  end ;;
  modify (fun st : St =>
    (st.1, set_state ST_DISCONNECTED (set_cart None None (set_device_info None st.2)))) ;;
  _emit_event DEVICE_DISCONNECTED (Text "Disconnected") 0 0 None.

(** [stop_monitoring]; the join waits for the monitor at most 2 s and the
    list of started threads is left as it is. *)
Definition stop_monitoring : M St unit :=
  modify (fun st : St => (st.1, set_monitor None false st.2)).

(** [close] *)
Definition close : M St unit :=
  stop_monitoring ;; disconnect.

End MIGControllerConnect.

(** * The command line

    [main] of mig_flash.py: the sub-commands [check] and [dump], with the
    parsed arguments as parameters.  What [print] writes is kept as a list
    of lines, oldest first, each line as the values it is formatted from. *)

(** [try: m finally: f] around a body that may still be running when its
    fuel is spent: nothing comes after a body that has not left. *)
Definition finally_running {S A} (m : M S (option A)) (f : M S unit) : M S (option A) :=
  fun s => match m s with
           | (Ok None, s') => (Ok None, s')
           | (r, s') =>
               match f s' with
               | (Ok _, s'') => (r, s'')
               | (Raise e, s'') => (Raise e, s'')
               end
           end.

Module CLI.
Import MIGFlash.

Inductive Line : Type :=
| FirmwareVersion (v : string)     (* "Firmware version: {v}" *)
| CartInserted (b : bool)          (* "Cart inserted: {b}" *)
| Firmware (v : string)            (* "Firmware: {v}" *)
| NoCartridge                      (* "No cartridge inserted!" *)
| Authenticating                   (* "Authenticating..." *)
| AuthenticationFailed             (* "Authentication failed!" *)
| DumpingTo (output : string)      (* "Dumping to {output}..." *)
| Progress (done total : Z)        (* "\rProgress: {pct:.1f}% ({done}/{total})" *)
| Done                             (* "\nDone!" *)
| ErrorLine (e : exn).             (* "Error: {e}" *)

(** The world, the session [mig] and standard output. *)
Definition St : Type := DumpSt (list Line).

Definition print (l : Line) : M St unit :=
  modify (fun s : St => (s.1, (s.2 ++ [l])%list)).

(** [connect_mig(device)]: a new session, connected. *)
Definition connect_mig (devices : gmap string Medium) (found : list MIGDeviceInfo)
    (device : option string) : M St unit :=
  modify (fun s : St => (s.1.1, MIGFlashConnect.new, s.2)) ;;
  in_session (MIGFlashConnect.connect devices found device) ;;
  ret tt.


(** The closure [on_progress] of the [dump] command. *)
Definition on_progress (done total : Z) : M (World * list Line) unit :=
  modify (fun s : World * list Line => (s.1, (s.2 ++ [Progress done total])%list)).

(** The [dump] command; [None] when the copy loop was still running when
    the fuel ran out. *)
Definition dump (devices : gmap string Medium) (found : list MIGDeviceInfo)
    (device : option string) (output : string) (full : bool) (fuel : nat)
    : M St (option unit) :=
  try_except
    (connect_mig devices found device ;;
     finally_running
       (let* fw := gets (fun s : St => MIGFlashConnect.firmware_version s.1.2) in
        print (Firmware fw) ;;
        let* present := in_session cart_inserted in
        if negb present then
          print NoCartridge ;; ret (Some tt)
        else
          print Authenticating ;;
          let* ok := in_session authenticate in
          if negb ok then
            print AuthenticationFailed ;; ret (Some tt)
          else
            print (DumpingTo output) ;;
            let* r := dump_xci fuel output (negb full) (Some on_progress) in
            match r with
            | None => ret None
            | Some _ => print Done ;; ret (Some tt)
            end)
       (in_session disconnect))
    (fun e => print (ErrorLine e) ;; ret (Some tt)).

End CLI.

(** * Definitions used in the statements

    Concrete devices and sessions for the examples, and the vocabulary of
    the lemmas: none of it is part of the program. *)

Import MemoryMap.

(** The byte at device address [a] of a medium that holds, at the header
    offset, the presence tag at +0, the magic at +0x100, the capacity
    class [code] at +0x10D and [vde] at +0x118 (little-endian), and
    zeroes elsewhere. *)
Definition demo_byte (vde code : Z) (a : Z) : byte :=
  let r := a - MemoryMap.XCI_HEADER_OFFSET in
  let of_Z (z : Z) := default "000"%byte (Byte.of_N (Z.to_N z)) in
  if decide (0 <= r < 4) then default "000"%byte (HEAD !! Z.to_nat r)
  else if decide (0x100 <= r < 0x104) then default "000"%byte (HEAD !! Z.to_nat (r - 0x100))
  else if decide (r = 0x10D) then of_Z code
  else if decide (0x118 <= r < 0x120) then of_Z ((vde / 256 ^ (r - 0x118)) mod 256)
  else "000"%byte.

Definition demo_medium (vde code : Z) : Medium :=
  mkMedium (2 ^ 36) (demo_byte vde code) (fun _ _ => false) false.

Definition blank_medium : Medium :=
  mkMedium (2 ^ 36) (fun _ => "000"%byte) (fun _ _ => false) false.

Definition device_on (med : Medium) : BlockDevice.t :=
  BlockDevice.mk "/dev/sdb" (Some (mkHandle med 0)) true.

(** A connected session that has not authenticated yet. *)
Definition session_on (med : Medium) : MIGFlash.t :=
  MIGFlash.mk (Some (device_on med)) None true None None None.

Definition world0 (p : Platform) : World := mkWorld p ∅ [] [] [] [] [].

(** The session once [authenticate] has run on it. *)
Definition authenticated_session (med : Medium) : MIGFlash.t :=
  (MIGFlash.authenticate (world0 Linux, session_on med)).2.2.

Definition controller_on (m : MIGFlash.t) (s : MIGState) : MIGController.t :=
  MIGController.mk (Some m) s true None false None false None None None.

Definition demo_header (vde code : Z) : bytes :=
  med_bytes (demo_medium vde code) MemoryMap.XCI_HEADER_OFFSET 0x200.

(** The value of the byte [data[i]], 0 past the end. *)
Definition byte_at (data : bytes) (i : nat) : Z :=
  default 0 (byte_to_Z <$> data !! i).

Fixpoint le_sum (data : bytes) (a n : nat) : Z :=
  match n with
  | O => 0
  | S n' => byte_at data a + 256 * le_sum data (S a) n'
  end.

(** The lookup table, case by case. *)
Definition size_of_class (code : Z) : Z :=
  if decide (code = 0xFA) then 1073741824
  else if decide (code = 0xF8) then 2147483648
  else if decide (code = 0xF0) then 4294967296
  else if decide (code = 0xE0) then 8589934592
  else if decide (code = 0xE1) then 17179869184
  else if decide (code = 0xE2) then 34359738368
  else 0.

(** The medium a session reads from, if it holds an open handle. *)
Definition medium_of (m : MIGFlash.t) : option Medium :=
  bd ← MIGFlash.device m; h ← BlockDevice.handle bd; Some (h_medium h).

(** The session with the file position of its handle moved to [p]. *)
Definition at_pos (p : Z) (m : MIGFlash.t) : MIGFlash.t :=
  match MIGFlash.device m with
  | Some bd =>
      match BlockDevice.handle bd with
      | Some h =>
          MIGFlash.set_device
            (Some (BlockDevice.mk (BlockDevice.device_path bd)
                     (Some (mkHandle (h_medium h) p)) (BlockDevice._opened bd))) m
      | None => m
      end
  | None => m
  end.

Definition cart_info_of (h : XCIHeader) : CartridgeInfo :=
  {| inserted := true; authenticated := true; title_id := ""; title_name := "";
     version := ""; size := cart_size_bytes h; trimmed_size := valid_data_end h * 0x200 |}.

(** Session fields a change of file position cannot touch. *)
Definition same_session (m m' : MIGFlash.t) : Prop :=
  MIGFlash._cart_info m' = MIGFlash._cart_info m
  /\ MIGFlash._xci_header m' = MIGFlash._xci_header m
  /\ MIGFlash._connected m' = MIGFlash._connected m
  /\ medium_of m' = medium_of m.

(** The session [get_xci_size] is tried on in the counterexample of C6:
    connected, cartridge present, not authenticated. *)
Definition fresh_session : MIGFlash.t := session_on (demo_medium 2000000 0xE2).

(** An authenticated session on a 1 GiB-class cartridge. *)
Definition session_1GiB : MIGFlash.t :=
  authenticated_session (demo_medium 2000000 0xFA).

(** A controller with a dump in flight: the state [dump_xci_async] leaves
    behind on an authenticated controller. *)
Definition busy_state : MIGController.St :=
  (MIGController.dump_xci_async "first.xci" true
     (world0 Linux, controller_on session_1GiB ST_AUTHENTICATED)).2.

(** The call is accepted: it returns normally, has started the thread
    [j] next to the threads already started, has recorded it in
    [_worker_thread], and has changed neither the controller state, nor
    the session, nor any file. *)
Definition accepted (call : M MIGController.St unit) (j : Job)
    (w : World) (c : MIGController.t) : Prop :=
  exists w' c', call (w, c) = (Ok tt, (w', c'))
    /\ w_threads w' = j :: w_threads w
    /\ MIGController._worker_thread c' = Some j
    /\ MIGController._state c' = MIGController._state c
    /\ MIGController._mig c' = MIGController._mig c
    /\ w_fs w' = w_fs w.

(** The header region of the medium does not carry the magic tag. *)
Definition bad_magic (med : Medium) : Prop :=
  slice 0x100 0x104 (read_data med XCI_HEADER_OFFSET XCI_HEADER_SIZE) <> HEAD.

(** A blank medium: no presence tag, no magic. *)
Definition blank_controller : MIGController.t :=
  controller_on (session_on blank_medium) ST_CART_DETECTED.

(** The world after [_emit_event]. *)
Definition emitted (ev : MIGEvent) (msg : Msg) (done total : Z) (err : option exn)
    (w : World) (c : MIGController.t) : World :=
  if MIGController._event_callback c
  then deliver (mkEvent ev (MIGController._state c) msg done total err) w
  else w.

(** A medium with the presence tag at the header offset and nothing
    else: the cartridge is detected, the header is not valid. *)
Definition tagged_medium : Medium :=
  mkMedium (2 ^ 36)
    (fun a => if decide (XCI_HEADER_OFFSET <= a < XCI_HEADER_OFFSET + 4)
              then default "000"%byte (HEAD !! Z.to_nat (a - XCI_HEADER_OFFSET))
              else "000"%byte)
    (fun _ _ => false) false.

(** What [cart_inserted] returns on the session [m]. *)
Definition sample (m : MIGFlash.t) : bool :=
  match (MIGFlash.cart_inserted (world0 Linux, m)).1 with
  | Ok b => b
  | Raise _ => false
  end.

Definition cart_inserted_event : MIGEventData :=
  mkEvent CART_INSERTED ST_CART_DETECTED (Text "Cartridge inserted") 0 0 None.
Definition cart_removed_event : MIGEventData :=
  mkEvent CART_REMOVED ST_NO_CART (Text "Cartridge removed") 0 0 None.

(** The events of one poll of a connected device, from the previous
    sample and the new one. *)
Definition edge_events (had has : bool) : list MIGEventData :=
  if negb had && has then [cart_inserted_event]
  else if had && negb has then [cart_removed_event]
  else [].

Fixpoint edges_of (had : bool) (samples : list bool) : list MIGEventData :=
  match samples with
  | [] => []
  | has :: rest => (edge_events had has ++ edges_of has rest)%list
  end.

(** A device without a cartridge, then with one, then without. *)
Definition absent : MIGFlash.t := session_on blank_medium.
Definition present : MIGFlash.t := session_on tagged_medium.

Definition no_faults (med : Medium) : Prop :=
  forall off size, med_fault med off size = false.

(** A progress callback that records its calls, oldest first. *)
Definition record_progress (done total : Z) : M (World * list (Z * Z)) unit :=
  modify (fun s => (s.1, (s.2 ++ [(done, total)])%list)).

(** The header parsed from the medium of [fresh_session]. *)
Definition demo_xci : XCIHeader :=
  Eval vm_compute in
    match from_bytes (demo_header 2000000 0xE2) with
    | Ok h => h
    | Raise _ => mkXCIHeader [] [] 0 0 0 0 0 0 0 0 [] 0 0 [] [] 0 0 0 0
    end.

(** A world in which another thread calls [abort_dump] while the third
    chunk (turn 2) of a dump is under way. *)
Definition abort_world : World :=
  mkWorld Linux ∅ [] [] [] [0; 40; 250; 300] [NoCall; NoCall; AbortDumpCalled].

Definition dumping_controller : MIGController.t :=
  controller_on (authenticated_session (demo_medium 2000000 0xE2)) ST_AUTHENTICATED.

(** ** Vocabulary of the further properties *)

(** The release calls a [close()] makes on the device at [path]. *)
Definition release_calls (p : Platform) (path : string) : list OsCall :=
  match p with
  | Windows => [FSCTL_UNLOCK_VOLUME path; CloseHandle path]
  | _ => [FileClose path]
  end.

(** A device holding one sector of live data next to zeroes. *)
Definition sector_of (b : byte) : bytes := replicate 512 b.

(** The 0x200 bytes a read of the header region returns. *)
Definition header_region (med : Medium) : bytes :=
  read_data med MemoryMap.XCI_HEADER_OFFSET MemoryMap.XCI_HEADER_SIZE.

(** The device [connect] settles on: the path given, if it is not
    empty, else the first device found. *)
Definition chosen (found : list MIGDeviceInfo) (device_path : option string)
    : option MIGDeviceInfo :=
  match device_path with
  | Some p => if decide (p = "") then head found else Some (mkMIGDeviceInfo p "" true "" "")
  | None => head found
  end.

(** The [except] clause of [connect]. *)
Definition bail_out (e : exn) : M MIGFlash.St bool :=
  (let* dev := gets (fun s : MIGFlash.St => MIGFlash.device s.2) in
   match dev with
   | Some _ => try_except (MIGFlash.on_device BlockDevice.close) (fun _ => ret tt)
   | None => ret tt
   end ;;
   raise (ConnectionError ("Failed to connect: " ++ str_exn e)))%py.

(** A medium that carries the partition signature of a MIG-Flash and a
    firmware version, on top of [base]. *)
Definition mig_byte (fw : bytes) (base : Z -> byte) (a : Z) : byte :=
  if decide (MemoryMap.GPT_PARTITION_OFFSET <= a < MemoryMap.GPT_PARTITION_OFFSET + 16)
  then default "000"%byte (GPT_MSDATA_GUID !! Z.to_nat (a - MemoryMap.GPT_PARTITION_OFFSET))
  else if decide (MemoryMap.FIRMWARE_OFFSET <= a
                  < MemoryMap.FIRMWARE_OFFSET + Z.of_nat (length fw))
  then default "000"%byte (fw !! Z.to_nat (a - MemoryMap.FIRMWARE_OFFSET))
  else base a.

Definition mig_medium : Medium :=
  mkMedium (2 ^ 36) (mig_byte (String.list_byte_of_string "1.1.2") (demo_byte 3 0xE2))
    (fun _ _ => false) false.

(** The devices of the examples: a MIG-Flash at /dev/sdb, a blank disk
    at /dev/sdc. *)
Definition demo_devices : gmap string Medium :=
  <["/dev/sdb" := mig_medium]> (<["/dev/sdc" := blank_medium]> ∅).

Definition demo_found : list MIGDeviceInfo :=
  [mkMIGDeviceInfo "/dev/sdb" "MIG" true "" ""].

(** What [_verify_device] finds on the medium: the signature at the
    partition-entry offset. *)
Definition has_signature (med : Medium) : bool :=
  negb (med_fault med GPT_PARTITION_OFFSET 512)
  && bool_decide (slice 0 16 (read_data med GPT_PARTITION_OFFSET 512) = GPT_MSDATA_GUID).

(** The version [_read_firmware_version] stores for a medium. *)
Definition firmware_of (med : Medium) : string :=
  if med_fault med FIRMWARE_OFFSET FIRMWARE_VERSION_LEN then "Unknown"
  else
    match MIGFlashConnect.decode_ascii
            (MIGFlashConnect.until_nul (read_data med FIRMWARE_OFFSET FIRMWARE_VERSION_LEN)) with
    | Ok v => v
    | Raise _ => "Unknown"
    end.


(** No other thread calls [abort_dump] in the world [w]. *)
Definition quiet (w : World) : Prop := Forall (eq NoCall) (w_sched w).

(** A DUMP_PROGRESS event of a dump of [total] bytes, sent in state [s]. *)
Definition progress_event (s : MIGState) (total : Z) (e : MIGEventData) : Prop :=
  event e = DUMP_PROGRESS /\ state e = s /\ bytes_total e = total /\ error e = None.

(** What holds between two turns of an undisturbed dump worker: the
    controller is [c0], and the events sent since [ev0] are progress
    events. *)
Definition worker_inv (c0 : MIGController.t) (ev0 : list MIGEventData) (total : Z)
    (w : World) (cl : MIGController.t * MIGController.DumpLocals) : Prop :=
  cl.1 = c0
  /\ quiet w
  /\ exists evs, w_events w = (ev0 ++ evs)%list
                 /\ Forall (progress_event (MIGController._state c0) total) evs.

(** A callback that returns and writes no file. *)
Definition harmless {C : Type} (total : Z) (cb : option (Z -> Z -> M (World * C) unit)) : Prop :=
  forall f d w c, cb = Some f ->
    exists w' c', f d total (w, c) = (Ok tt, (w', c')) /\ w_fs w' = w_fs w.

(** The size [dump_xci] copies for the header [h]. *)
Definition size_to_dump (trimmed : bool) (h : XCIHeader) : Z :=
  if trimmed then valid_data_end h * 512 else cart_size_bytes h.

(** A device that holds the demo cartridge and fails every read at or
    after the third chunk of the image area. *)
Definition faulty_medium : Medium :=
  mkMedium (2 ^ 36) (demo_byte 2000000 0xE2)
    (fun off _ => bool_decide (XCI_DATA_OFFSET + 2 * 1048576 <= off)) false.

(** A device that ends 100 bytes into the image area. *)
Definition short_medium : Medium :=
  mkMedium (XCI_DATA_OFFSET + 100) (demo_byte 2000000 0xE2) (fun _ _ => false) false.

(** The events a dump worker sends before its last one. *)
Definition dump_started (total : Z) : MIGEventData :=
  mkEvent DUMP_STARTED ST_DUMPING (DumpingGB total) 0 total None.

(** The header [authenticate] reads from the medium [med]. *)
Definition header_of (med : Medium) : XCIHeader :=
  default demo_xci (MIGFlash._xci_header (authenticated_session med)).

(** The last event of a dump worker that ran to the end. *)
Definition dump_complete (filename : string) (total : Z) : MIGEventData :=
  mkEvent DUMP_COMPLETE ST_AUTHENTICATED (DumpCompleteMsg filename) total total None.

(** The last event of a dump worker stopped by the exception [e]. *)
Definition dump_failed (e : exn) : MIGEventData :=
  mkEvent DUMP_ERROR ST_ERROR (StrOfExn e) 0 0 (Some e).

(** A world whose clock has three readings left and in which no other
    thread is scheduled. *)
Definition calm_world : World := mkWorld Linux ∅ [] [] [] [0; 150; 200] [].

(** A controller on which [abort_dump] was called before the dump at
    hand was started. *)
Definition stale_abort (m : MIGFlash.t) : MIGController.t :=
  MIGController.set_abort_flag true (controller_on m ST_AUTHENTICATED).

(** The first event of the worker of [authenticate_async]. *)
Definition auth_started : MIGEventData :=
  mkEvent AUTH_STARTED ST_AUTHENTICATING (Text "Authenticating...") 0 0 None.

(** The world [w'] differs from [w] at most by release calls added to
    the log of OS calls. *)
Definition os_only (w w' : World) : Prop :=
  w_platform w' = w_platform w
  /\ w_fs w' = w_fs w
  /\ w_events w' = w_events w
  /\ w_threads w' = w_threads w
  /\ w_clock w' = w_clock w
  /\ w_sched w' = w_sched w
  /\ exists calls, w_os w' = (w_os w ++ calls)%list.

(** The computation [c], on a state with the world at [prj], does no
    more to the world than that. *)
Definition keeps {S A : Type} (prj : S -> World) (c : M S A) : Prop :=
  forall s, os_only (prj s) (prj (c s).2).

(** The event [disconnect] of the controller sends. *)
Definition disconnected_event : MIGEventData :=
  mkEvent DEVICE_DISCONNECTED ST_DISCONNECTED (Text "Disconnected") 0 0 None.

(** The event the monitor sends when the device is gone. *)
Definition device_lost_event : MIGEventData :=
  mkEvent DEVICE_DISCONNECTED ST_DISCONNECTED (Text "Device disconnected") 0 0 None.



(** The monitor finds no connected session in [snapshot]. *)
Definition gone (snapshot : option MIGFlash.t) : Prop :=
  match snapshot with
  | Some m => MIGFlash._connected m = false
  | None => True
  end.

(** The lines the [dump] command can end on. *)
Definition closing_line (l : CLI.Line) : Prop :=
  l = CLI.Done \/ l = CLI.NoCartridge \/ l = CLI.AuthenticationFailed
  \/ exists e, l = CLI.ErrorLine e.

(** * Properties *)

(** ** Lemmas on bytes and the header codec *)

Lemma length_slice (a b : nat) (data : bytes) :
  (b <= length data)%nat -> length (slice a b data) = (b - a)%nat.
Proof.
  intros Hb. unfold slice. rewrite length_take, length_drop. lia.
Qed.

Lemma unpack_le_slice (n a b : nat) (data : bytes) :
  (b - a)%nat = n -> (b <= length data)%nat ->
  unpack_le n (slice a b data) = Ok (le_decode (slice a b data)).
Proof.
  intros Hn Hb. unfold unpack_le.
  rewrite decide_True; [reflexivity|]. rewrite length_slice; lia.
Qed.

Lemma index_lt (data : bytes) (i : nat) :
  (i < length data)%nat -> index data i = Ok (byte_at data i).
Proof.
  intros Hi. unfold index, byte_at.
  destruct (lookup_lt_is_Some_2 data i Hi) as [b Hb]. now rewrite Hb.
Qed.

Lemma le_decode_take_drop (n a : nat) (data : bytes) :
  (a + n <= length data)%nat ->
  le_decode (take n (drop a data)) = le_sum data a n.
Proof.
  revert a. induction n as [|n IH]; intros a Ha; [reflexivity|].
  destruct (lookup_lt_is_Some_2 data a ltac:(lia)) as [b Hb].
  rewrite (drop_S data b a Hb). cbn [take le_decode le_sum].
  rewrite IH by lia. unfold byte_at. now rewrite Hb.
Qed.

(** With at least 0x200 bytes, every slice and index of [from_bytes] is
    in range: parsing succeeds and each field is what the layout says. *)
Lemma from_bytes_ok (data : bytes) :
  (0x200 <= length data)%nat ->
  exists h, from_bytes data = Ok h
    /\ magic h = slice 0x100 0x104 data
    /\ game_card_size h = byte_at data 0x10D
    /\ valid_data_end h = le_sum data 0x118 8.
Proof.
  intros Hlen. unfold from_bytes.
  rewrite decide_False by lia.
  rewrite !unpack_le_slice by (reflexivity || lia).
  rewrite !index_lt by lia.
  cbn [rbind]. eexists. split; [reflexivity|].
  cbn [magic game_card_size valid_data_end].
  split; [reflexivity|]. split; [reflexivity|].
  unfold slice. now rewrite le_decode_take_drop by lia.
Qed.

Lemma from_bytes_short (data : bytes) :
  (length data < 0x200)%nat ->
  from_bytes data = Raise (ValueError "XCI header too short").
Proof.
  intros Hlen. unfold from_bytes. now rewrite decide_True by lia.
Qed.

Lemma cart_size_bytes_table (h : XCIHeader) :
  cart_size_bytes h = size_of_class (game_card_size h).
Proof.
  unfold cart_size_bytes, sizes, size_of_class.
  repeat (rewrite lookup_insert; case_decide; [subst; repeat (rewrite decide_False by congruence); rewrite decide_True by congruence; reflexivity|]).
  rewrite lookup_empty. repeat (rewrite decide_False by congruence). reflexivity.
Qed.

(** ** Lemmas on the monad *)

Lemma bind_ok {S A B} (m : M S A) (k : A -> M S B) s v s' :
  m s = (Ok v, s') -> bind m k s = k v s'.
Proof. intros H. unfold bind. now rewrite H. Qed.

Lemma bind_raise {S A B} (m : M S A) (k : A -> M S B) s e s' :
  m s = (Raise e, s') -> bind m k s = (Raise e, s').
Proof. intros H. unfold bind. now rewrite H. Qed.

Lemma try_ok {S A} (m : M S A) h s v s' :
  m s = (Ok v, s') -> try_except m h s = (Ok v, s').
Proof. intros H. unfold try_except. now rewrite H. Qed.

Lemma try_raise {S A} (m : M S A) h s e s' :
  m s = (Raise e, s') -> try_except m h s = h e s'.
Proof. intros H. unfold try_except. now rewrite H. Qed.

(** ** Lemmas on the block device *)

Lemma length_med_bytes (med : Medium) (pos : Z) (n : nat) :
  length (med_bytes med pos n) = n.
Proof.
  revert pos. induction n as [|n IH]; intros pos; cbn; [reflexivity|].
  now rewrite IH.
Qed.

Lemma length_read_data (med : Medium) (pos size : Z) :
  0 <= size -> pos + size <= med_size med ->
  Z.of_nat (length (read_data med pos size)) = size.
Proof.
  intros Hs Hf. unfold read_data. rewrite length_med_bytes.
  rewrite decide_False by lia. lia.
Qed.


Lemma medium_of_at_pos p m : medium_of (at_pos p m) = medium_of m.
Proof.
  unfold medium_of, at_pos. destruct m as [[bd|] ? ? ? ? ?]; cbn; [|reflexivity].
  destruct bd as [? [h|] ?]; reflexivity.
Qed.

Lemma cart_info_at_pos p m : MIGFlash._cart_info (at_pos p m) = MIGFlash._cart_info m.
Proof.
  unfold at_pos. destruct (MIGFlash.device m) as [bd|]; [|reflexivity].
  destruct (BlockDevice.handle bd); reflexivity.
Qed.

Lemma xci_header_at_pos p m : MIGFlash._xci_header (at_pos p m) = MIGFlash._xci_header m.
Proof.
  unfold at_pos. destruct (MIGFlash.device m) as [bd|]; [|reflexivity].
  destruct (BlockDevice.handle bd); reflexivity.
Qed.

Lemma connected_at_pos p m : MIGFlash._connected (at_pos p m) = MIGFlash._connected m.
Proof.
  unfold at_pos. destruct (MIGFlash.device m) as [bd|]; [|reflexivity].
  destruct (BlockDevice.handle bd); reflexivity.
Qed.

Lemma cart_authenticated_at_pos p m :
  MIGFlash.cart_authenticated (at_pos p m) = MIGFlash.cart_authenticated m.
Proof. unfold MIGFlash.cart_authenticated. now rewrite cart_info_at_pos. Qed.

(** A positioned read through the session: the seek fails on a negative
    offset, the read fails where the medium faults, and otherwise the
    bytes of the medium come back and the position has advanced. *)
Lemma on_device_read_at (w : World) (m : MIGFlash.t) (med : Medium) (off size : Z) :
  medium_of m = Some med -> 0 <= off ->
  MIGFlash.on_device (BlockDevice.read_at off size) (w, m) =
    if med_fault med off size
    then (Raise (OSError "Input/output error"), (w, at_pos off m))
    else (Ok (read_data med off size),
          (w, at_pos (off + Z.of_nat (length (read_data med off size))) m)).
Proof.
  intros Hmed Hoff. unfold medium_of in Hmed.
  destruct m as [[bd|] di cn fw ci xh]; cbn in Hmed; [|discriminate].
  destruct bd as [pth [h|] op]; cbn in Hmed; [|discriminate].
  injection Hmed as <-. destruct h as [md ps].
  unfold MIGFlash.on_device, BlockDevice.read_at, bind, BlockDevice.seek,
    BlockDevice.read, at_pos. cbn.
  rewrite decide_False by lia. cbn.
  destruct (med_fault md off size); reflexivity.
Qed.

(** ** Lemmas on the session *)

(** [authenticate], one decision at a time. *)
Lemma authenticate_unfold (w : World) (m : MIGFlash.t) :
  MIGFlash.authenticate (w, m) =
    if MIGFlash._connected m then
      match MIGFlash.cart_inserted (w, m) with
      | (Ok true, s1) =>
          match MIGFlash.on_device (BlockDevice.read_at XCI_HEADER_OFFSET XCI_HEADER_SIZE) s1 with
          | (Ok data, s2) =>
              match from_bytes data with
              | Ok h =>
                  if is_valid h
                  then (Ok true, (s2.1, MIGFlash.set_cart_info (Some (cart_info_of h))
                                          (MIGFlash.set_xci_header (Some h) s2.2)))
                  else (Ok false, (s2.1, MIGFlash.set_xci_header (Some h) s2.2))
              | Raise _ => (Ok false, s2)
              end
          | (Raise _, s2) => (Ok false, s2)
          end
      | (Ok false, s1) => (Raise (RuntimeError "No cartridge inserted"), s1)
      | (Raise e, s1) => (Raise e, s1)
      end
    else (Raise (ConnectionError "Not connected"), (w, m)).
Proof.
  unfold MIGFlash.authenticate at 1. unfold bind at 1, gets at 1. cbn [snd].
  destruct (MIGFlash._connected m); cbn [negb]; [|reflexivity].
  unfold bind at 1.
  destruct (MIGFlash.cart_inserted (w, m)) as [[[|]|e] s1]; cbn [negb]; try reflexivity.
  unfold try_except, bind at 1.
  destruct (MIGFlash.on_device _ s1) as [[data|e] s2]; [|reflexivity].
  unfold bind at 1, MIGFlash.lift_res at 1.
  destruct (from_bytes data) as [h|e]; [|reflexivity].
  unfold bind at 1, modify at 1.
  destruct (is_valid h); reflexivity.
Qed.

(** [cart_inserted], one decision at a time: whatever the read does, the
    outcome is a boolean. *)
Lemma cart_inserted_unfold (w : World) (m : MIGFlash.t) :
  MIGFlash.cart_inserted (w, m) =
    if MIGFlash._connected m then
      match MIGFlash.on_device (BlockDevice.read_at XCI_HEADER_OFFSET 4) (w, m) with
      | (Ok data, s1) => (Ok (bool_decide (data = HEAD)), s1)
      | (Raise _, s1) => (Ok false, s1)
      end
    else (Ok false, (w, m)).
Proof.
  unfold MIGFlash.cart_inserted. unfold bind at 1, gets at 1. cbn [snd].
  destruct (MIGFlash._connected m); cbn [negb]; [|reflexivity].
  unfold try_except, bind.
  destruct (MIGFlash.on_device _ (w, m)) as [[data|e] s1]; reflexivity.
Qed.

(** A positioned read leaves the world alone and changes nothing of the
    session but the file position. *)
Lemma on_device_read_at_frame (w : World) (m : MIGFlash.t) (off size : Z) r w' m' :
  MIGFlash.on_device (BlockDevice.read_at off size) (w, m) = (r, (w', m')) ->
  w' = w /\ (m' = m \/ exists p, m' = at_pos p m).
Proof.
  destruct m as [[bd|] di cn fw ci xh].
  2:{ cbn. intros [= <- <- <-]. auto. }
  destruct bd as [pth [h|] op].
  2:{ cbn. intros [= <- <- <-]. auto. }
  destruct h as [md ps].
  unfold MIGFlash.on_device, BlockDevice.read_at, bind, BlockDevice.seek, BlockDevice.read.
  cbn. destruct (decide (off < 0)); cbn.
  - intros [= <- <- <-]. auto.
  - destruct (med_fault md off size); cbn; intros [= <- <- <-];
      (split; [reflexivity|right; eexists; unfold at_pos; cbn; reflexivity]).
Qed.

Lemma same_session_refl m : same_session m m.
Proof. now repeat split. Qed.

Lemma same_session_at_pos p m : same_session m (at_pos p m).
Proof.
  repeat split; auto using cart_info_at_pos, xci_header_at_pos, connected_at_pos,
    medium_of_at_pos.
Qed.

Lemma same_session_trans m1 m2 m3 :
  same_session m1 m2 -> same_session m2 m3 -> same_session m1 m3.
Proof.
  intros (A1 & A2 & A3 & A4) (B1 & B2 & B3 & B4). repeat split; congruence.
Qed.

Lemma on_device_read_at_same (w : World) (m : MIGFlash.t) (off size : Z) r w' m' :
  MIGFlash.on_device (BlockDevice.read_at off size) (w, m) = (r, (w', m')) ->
  w' = w /\ same_session m m'.
Proof.
  intros H. apply on_device_read_at_frame in H as [-> [->|[p ->]]];
    auto using same_session_refl, same_session_at_pos.
Qed.

Lemma cart_inserted_frame (w : World) (m : MIGFlash.t) r w' m' :
  MIGFlash.cart_inserted (w, m) = (r, (w', m')) ->
  (exists b, r = Ok b) /\ w' = w /\ same_session m m'.
Proof.
  rewrite cart_inserted_unfold. destruct (MIGFlash._connected m).
  - destruct (MIGFlash.on_device _ (w, m)) as [[data|e] [w1 m1]] eqn:E;
      intros [= <- <- <-]; apply on_device_read_at_same in E as [-> ?]; eauto.
  - intros [= <- <- <-]. eauto using same_session_refl.
Qed.

Lemma get_xci_header_authenticated (w : World) (m : MIGFlash.t) :
  MIGFlash.cart_authenticated m = true ->
  MIGFlash.get_xci_header (w, m) = (Ok (MIGFlash._xci_header m), (w, m)).
Proof.
  intros Hauth. unfold MIGFlash.get_xci_header, bind, gets. cbn [snd].
  rewrite Hauth. reflexivity.
Qed.

Lemma get_xci_size_authenticated (w : World) (m : MIGFlash.t) (h : XCIHeader) :
  MIGFlash.cart_authenticated m = true ->
  MIGFlash._xci_header m = Some h ->
  MIGFlash.get_xci_size (w, m)
  = (Ok (cart_size_bytes h, valid_data_end h * 512), (w, m)).
Proof.
  intros Hauth Hhdr. unfold MIGFlash.get_xci_size.
  erewrite bind_ok by (apply get_xci_header_authenticated, Hauth).
  rewrite Hhdr. reflexivity.
Qed.

(** ** C5: header fields and derived sizes *)

(** C5. For every buffer of at least 0x200 bytes, [from_bytes] succeeds;
    the capacity class code is the single byte at offset 0x10D and
    valid-data-end is the little-endian 8-byte integer at offset 0x118;
    [cart_size_bytes] maps 0xFA, 0xF8, 0xF0, 0xE0, 0xE1, 0xE2 to 1, 2, 4,
    8, 16, 32 GiB and every other code to 0; and the used size a session
    reports for the header is valid-data-end times 512. *)
Theorem C5_header_fields_and_sizes (data : bytes) :
  (0x200 <= length data)%nat ->
  exists h, from_bytes data = Ok h
    /\ game_card_size h = byte_at data 0x10D
    /\ valid_data_end h =
         byte_at data 0x118 + 2 ^ 8 * byte_at data 0x119
         + 2 ^ 16 * byte_at data 0x11A + 2 ^ 24 * byte_at data 0x11B
         + 2 ^ 32 * byte_at data 0x11C + 2 ^ 40 * byte_at data 0x11D
         + 2 ^ 48 * byte_at data 0x11E + 2 ^ 56 * byte_at data 0x11F
    /\ cart_size_bytes h =
         (if decide (game_card_size h = 0xFA) then 1 * GiB
          else if decide (game_card_size h = 0xF8) then 2 * GiB
          else if decide (game_card_size h = 0xF0) then 4 * GiB
          else if decide (game_card_size h = 0xE0) then 8 * GiB
          else if decide (game_card_size h = 0xE1) then 16 * GiB
          else if decide (game_card_size h = 0xE2) then 32 * GiB
          else 0)
    /\ forall w m,
         MIGFlash.cart_authenticated m = true ->
         MIGFlash._xci_header m = Some h ->
         (MIGFlash.get_xci_size (w, m)).1 = Ok (cart_size_bytes h, valid_data_end h * 512).
Proof.
  intros Hlen.
  destruct (from_bytes_ok data Hlen) as (h & Hh & _ & Hcode & Hvde).
  exists h. split; [exact Hh|]. split; [exact Hcode|]. split.
  { rewrite Hvde. cbn [le_sum]. lia. }
  split.
  { rewrite cart_size_bytes_table. reflexivity. }
  intros w m Hauth Hhdr.
  now rewrite (get_xci_size_authenticated w m h Hauth Hhdr).
Qed.

Lemma C5_witness :
  (0x200 <= length (demo_header 2000000 0xE2))%nat
  /\ exists h, from_bytes (demo_header 2000000 0xE2) = Ok h
       /\ game_card_size h = 0xE2
       /\ valid_data_end h = 2000000
       /\ cart_size_bytes h = 32 * GiB.
Proof.
  assert (Hlen : (0x200 <= length (demo_header 2000000 0xE2))%nat)
    by (vm_compute; lia).
  split; [exact Hlen|].
  destruct (C5_header_fields_and_sizes _ Hlen) as (h & Hh & Hc & Hv & Hs & _).
  exists h. split; [exact Hh|].
  assert (Hc' : game_card_size h = 0xE2) by (rewrite Hc; vm_compute; reflexivity).
  split; [exact Hc'|]. split.
  - rewrite Hv. vm_compute. reflexivity.
  - rewrite Hs, Hc'. reflexivity.
Defined.

(** ** C10: the cartridge-presence poll *)

(** C10. Reading [cart_inserted] never raises: the outcome is always a
    boolean.  It is false when the session is not connected, false when
    the 4-byte read at the header offset fails, and true exactly when the
    session is connected and that read returns [b'HEAD']. *)
Theorem C10_cart_inserted_never_raises (w : World) (m : MIGFlash.t) :
  exists (b : bool) s', MIGFlash.cart_inserted (w, m) = (Ok b, s')
    /\ (MIGFlash._connected m = false -> b = false)
    /\ (forall e s1,
          MIGFlash.on_device (BlockDevice.read_at XCI_HEADER_OFFSET 4) (w, m) = (Raise e, s1) ->
          b = false)
    /\ (b = true <->
          MIGFlash._connected m = true
          /\ exists s1,
               MIGFlash.on_device (BlockDevice.read_at XCI_HEADER_OFFSET 4) (w, m)
               = (Ok HEAD, s1)).
Proof.
  rewrite cart_inserted_unfold.
  destruct (MIGFlash._connected m).
  - destruct (MIGFlash.on_device _ (w, m)) as [[data|e] s1].
    + exists (bool_decide (data = HEAD)), s1.
      split; [reflexivity|]. split; [discriminate|]. split; [discriminate|].
      rewrite bool_decide_eq_true. split.
      * intros ->. eauto.
      * intros (_ & s & [= -> _]). reflexivity.
    + exists false, s1. split; [reflexivity|]. split; [reflexivity|].
      split; [reflexivity|]. split; [discriminate|].
      intros (_ & s & [=]).
  - exists false, (w, m). split; [reflexivity|]. split; [reflexivity|].
    split; [reflexivity|]. split; [discriminate|]. intros ([=] & _).
Qed.

(** ** C9: closing and disconnecting twice *)

Lemma close_closed (w : World) (bd : BlockDevice.t) :
  BlockDevice._opened bd = false ->
  BlockDevice.close (w, bd) = (Ok tt, (w, bd)).
Proof.
  intros H. unfold BlockDevice.close, bind, gets. cbn [snd]. now rewrite H.
Qed.

Lemma close_ok_closed (w : World) (bd : BlockDevice.t) w' bd' :
  BlockDevice.close (w, bd) = (Ok tt, (w', bd')) ->
  BlockDevice._opened bd' = false.
Proof.
  destruct bd as [pth hd [|]], w as [[| |] fs os evs ths clk sch];
    destruct hd as [[md ps]|]; try destruct (med_close_fault md) eqn:Hf;
    unfold BlockDevice.close, bind, gets, modify, try_except, ret, is_windows,
      BlockDevice.unlock_volume, BlockDevice.release_handle;
    cbn; try rewrite Hf; cbn; intros H; inversion H; reflexivity.
Qed.

Lemma on_device_info {A} (c : M BlockDevice.St A) (w : World) (m : MIGFlash.t) r w1 m1 :
  MIGFlash.on_device c (w, m) = (r, (w1, m1)) ->
  MIGFlash.device_info m1 = MIGFlash.device_info m.
Proof.
  unfold MIGFlash.on_device. destruct (MIGFlash.device m) as [bd|].
  - destruct (c (w, bd)) as [r' [w2 bd2]]. intros H. now inversion H.
  - intros H. now inversion H.
Qed.

Lemma disconnect_result (w : World) (m : MIGFlash.t) :
  exists w', MIGFlash.disconnect (w, m)
             = (Ok tt, (w', MIGFlash.mk None (MIGFlash.device_info m) false None None None)).
Proof.
  unfold MIGFlash.disconnect, bind, gets, modify, try_except, ret. cbn [fst snd].
  destruct (MIGFlash.device m) as [bd|] eqn:Hd; [|eauto].
  destruct (MIGFlash.on_device BlockDevice.close (w, m)) as [[[]|e] [w1 m1]] eqn:E;
    apply on_device_info in E; cbn [fst snd]; rewrite E; eauto.
Qed.

(** C9. [close(); close()] does what a single [close()] does, and on a
    device a [close()] has returned from, a further [close()] returns
    without an error, makes no release or unlock call (the log of OS calls
    in the world is unchanged) and leaves the object as it is.  The same
    holds for [disconnect()], which always returns. *)
Theorem C9_close_and_disconnect_idempotent :
  (forall w bd,
     (BlockDevice.close ;; BlockDevice.close) (w, bd) = BlockDevice.close (w, bd))
  /\ (forall w bd w' bd',
        BlockDevice.close (w, bd) = (Ok tt, (w', bd')) ->
        BlockDevice.close (w', bd') = (Ok tt, (w', bd')))
  /\ (forall w m,
        (MIGFlash.disconnect ;; MIGFlash.disconnect) (w, m) = MIGFlash.disconnect (w, m))
  /\ (forall w m, exists w' m',
        MIGFlash.disconnect (w, m) = (Ok tt, (w', m'))
        /\ MIGFlash.disconnect (w', m') = (Ok tt, (w', m'))).
Proof.
  assert (Hclose : forall w bd w' bd',
             BlockDevice.close (w, bd) = (Ok tt, (w', bd')) ->
             BlockDevice.close (w', bd') = (Ok tt, (w', bd'))).
  { intros w bd w' bd' H. apply close_closed. eapply close_ok_closed, H. }
  assert (Hdisc : forall w m, exists w' m',
             MIGFlash.disconnect (w, m) = (Ok tt, (w', m'))
             /\ MIGFlash.disconnect (w', m') = (Ok tt, (w', m'))).
  { intros w m. destruct (disconnect_result w m) as [w' H].
    eexists w', _. split; [exact H|]. reflexivity. }
  split; [|split; [exact Hclose|split; [|exact Hdisc]]].
  - intros w bd. unfold bind at 1.
    destruct (BlockDevice.close (w, bd)) as [[[]|e] [w' bd']] eqn:E; [|reflexivity].
    now apply Hclose in E.
  - intros w m. unfold bind at 1.
    destruct (Hdisc w m) as (w' & m' & H1 & H2). now rewrite H1.
Qed.

(** ** C6: the sizes of the image *)

(** When [authenticate] returns [True] it has stored a valid header and
    the cartridge information computed from it. *)
Lemma authenticate_true_inv (w : World) (m : MIGFlash.t) s' :
  MIGFlash.authenticate (w, m) = (Ok true, s') ->
  exists h, MIGFlash._xci_header s'.2 = Some h
    /\ is_valid h = true
    /\ MIGFlash._cart_info s'.2 = Some (cart_info_of h).
Proof.
  rewrite authenticate_unfold.
  destruct (MIGFlash._connected m); [|discriminate].
  destruct (MIGFlash.cart_inserted (w, m)) as [[[|]|e] s1]; try discriminate.
  destruct (MIGFlash.on_device _ s1) as [[data|e] s2]; [|discriminate].
  destruct (from_bytes data) as [h|e]; [|discriminate].
  destruct (is_valid h) eqn:Hv; [|discriminate].
  intros [= <-]. exists h. cbn. auto.
Qed.

(** C6, as stated, fails: on a connected session that is not
    authenticated, [get_xci_size] does not fail; it authenticates the
    cartridge itself and returns the sizes. *)
Lemma C6_counterexample :
  MIGFlash.cart_authenticated fresh_session = false
  /\ (MIGFlash.get_xci_size (world0 Linux, fresh_session)).1
     = Ok (34359738368, 1024000000)
  /\ MIGFlash.cart_authenticated
       (MIGFlash.get_xci_size (world0 Linux, fresh_session)).2.2 = true.
Proof. vm_compute. auto. Qed.

(** C6 (amended). On an authenticated session [get_xci_size] returns
    (capacity of the stored header, valid-data-end times 512) and changes
    nothing.  On a session that is not authenticated it first runs
    [authenticate]: if that returns [True] the sizes of the header just
    authenticated are returned, if it returns [False] the call fails with
    [RuntimeError("Authentication required")], and if it raises, that
    error propagates. *)
Theorem C6_get_xci_size (w : World) (m : MIGFlash.t) :
  (MIGFlash.cart_authenticated m = true ->
   forall h, MIGFlash._xci_header m = Some h ->
     MIGFlash.get_xci_size (w, m)
     = (Ok (cart_size_bytes h, valid_data_end h * 512), (w, m)))
  /\ (MIGFlash.cart_authenticated m = false ->
      match MIGFlash.authenticate (w, m) with
      | (Ok true, s') =>
          exists h, MIGFlash._xci_header s'.2 = Some h
            /\ is_valid h = true
            /\ MIGFlash.cart_authenticated s'.2 = true
            /\ MIGFlash.get_xci_size (w, m)
               = (Ok (cart_size_bytes h, valid_data_end h * 512), s')
      | (Ok false, s') =>
          MIGFlash.get_xci_size (w, m) = (Raise (RuntimeError "Authentication required"), s')
      | (Raise e, s') =>
          MIGFlash.get_xci_size (w, m) = (Raise e, s')
      end).
Proof.
  split.
  - intros Hauth h Hh. now apply get_xci_size_authenticated.
  - intros Hno.
    destruct (MIGFlash.authenticate (w, m)) as [[[|]|e] s'] eqn:E.
    + destruct (authenticate_true_inv _ _ _ E) as (h & Hh & Hv & Hci).
      exists h. split; [exact Hh|]. split; [exact Hv|].
      split; [unfold MIGFlash.cart_authenticated; now rewrite Hci|].
      unfold MIGFlash.get_xci_size, MIGFlash.get_xci_header, bind at 1 2 3, gets at 1.
      cbn [snd]. rewrite Hno. cbn [negb]. unfold bind at 1. rewrite E. cbn [negb].
      unfold ret, gets. now rewrite Hh.
    + unfold MIGFlash.get_xci_size, MIGFlash.get_xci_header, bind at 1 2 3, gets at 1.
      cbn [snd]. rewrite Hno. cbn [negb]. unfold bind at 1. rewrite E. reflexivity.
    + unfold MIGFlash.get_xci_size, MIGFlash.get_xci_header, bind at 1 2 3, gets at 1.
      cbn [snd]. rewrite Hno. cbn [negb]. unfold bind at 1. rewrite E. reflexivity.
Qed.

(** ** C1: reading image data *)

(** C1, as stated, fails: with total size 1 GiB, a one-byte read at
    offset = total returns a byte instead of failing. *)
Lemma C1_counterexample :
  MIGFlash._connected session_1GiB = true
  /\ MIGFlash.cart_authenticated session_1GiB = true
  /\ (MIGFlash.get_xci_size (world0 Linux, session_1GiB)).1
     = Ok (1073741824, 1024000000)
  /\ 1073741824 + 1 > 1073741824
  /\ (MIGFlash.read_xci 1073741824 1 (world0 Linux, session_1GiB)).1 = Ok ["000"%byte].
Proof. vm_compute. auto 10. Qed.

(** C1 (amended). [read_xci(offset, length)] fails with
    [RuntimeError("Authentication required")] on a session that is not
    authenticated.  On an authenticated session it compares nothing with
    the total size: it is the device read at [XCI_DATA_OFFSET + offset],
    so where that read does not fail it returns the bytes of the medium
    from that position on, [length] of them or fewer at the end of the
    medium. *)
Theorem C1_read_xci (w : World) (m : MIGFlash.t) (offset length : Z) :
  (MIGFlash.cart_authenticated m = false ->
   MIGFlash.read_xci offset length (w, m)
   = (Raise (RuntimeError "Authentication required"), (w, m)))
  /\ (MIGFlash.cart_authenticated m = true ->
      MIGFlash.read_xci offset length (w, m)
      = MIGFlash.on_device (BlockDevice.read_at (XCI_DATA_OFFSET + offset) length) (w, m))
  /\ (forall med,
        MIGFlash.cart_authenticated m = true ->
        medium_of m = Some med ->
        0 <= XCI_DATA_OFFSET + offset ->
        med_fault med (XCI_DATA_OFFSET + offset) length = false ->
        (MIGFlash.read_xci offset length (w, m)).1
        = Ok (read_data med (XCI_DATA_OFFSET + offset) length)).
Proof.
  assert (Hdel : MIGFlash.cart_authenticated m = true ->
            MIGFlash.read_xci offset length (w, m)
            = MIGFlash.on_device (BlockDevice.read_at (XCI_DATA_OFFSET + offset) length) (w, m)).
  { intros Hauth. unfold MIGFlash.read_xci, bind, gets. cbn [snd]. now rewrite Hauth. }
  split; [|split; [exact Hdel|]].
  - intros Hno. unfold MIGFlash.read_xci, bind, gets. cbn [snd]. now rewrite Hno.
  - intros med Hauth Hmed Hoff Hok.
    rewrite (Hdel Hauth), (on_device_read_at w m med _ _ Hmed Hoff), Hok. reflexivity.
Qed.

(** ** C3: overlapping asynchronous calls *)

(** C3, as stated, fails: with one dump in flight, a second
    [dump_xci_async] (and likewise [authenticate_async]) returns normally
    and a second thread is started next to the first. *)
Lemma C3_counterexample :
  w_threads busy_state.1 = [JobDump "first.xci" true]
  /\ (MIGController.dump_xci_async "second.xci" true busy_state).1 = Ok tt
  /\ w_threads (MIGController.dump_xci_async "second.xci" true busy_state).2.1
     = [JobDump "second.xci" true; JobDump "first.xci" true]
  /\ (MIGController.authenticate_async busy_state).1 = Ok tt
  /\ w_threads (MIGController.authenticate_async busy_state).2.1
     = [JobAuthenticate; JobDump "first.xci" true].
Proof. vm_compute. auto 10. Qed.

(** C3 (amended). No asynchronous call is ever rejected: whatever
    threads are in flight, [connect_async], [authenticate_async] and
    [dump_xci_async] return normally and start exactly one more thread
    next to those already started. *)
Theorem C3_async_calls_always_accepted (w : World) (c : MIGController.t) :
  (forall device_path,
     accepted (MIGController.connect_async device_path) (JobConnect device_path) w c)
  /\ accepted MIGController.authenticate_async JobAuthenticate w c
  /\ (forall filename trimmed,
        accepted (MIGController.dump_xci_async filename trimmed)
                 (JobDump filename trimmed) w c).
Proof.
  repeat split; intros; eexists _, _; (split; [reflexivity|]); cbn; auto.
Qed.

(** ** C2: a header without the magic tag *)

Lemma from_bytes_magic (data : bytes) (h : XCIHeader) :
  from_bytes data = Ok h -> magic h = slice 0x100 0x104 data.
Proof.
  intros Hh. destruct (decide (length data < 0x200)%nat) as [Hs|Hl].
  - rewrite from_bytes_short in Hh by exact Hs. discriminate.
  - destruct (from_bytes_ok data ltac:(lia)) as (h0 & Hh0 & Hm & _). congruence.
Qed.

(** [authenticate] leaves the world alone, and unless it returns [True]
    it leaves the cartridge information as it was. *)
Lemma authenticate_frame (w : World) (m : MIGFlash.t) r w' m' :
  MIGFlash.authenticate (w, m) = (r, (w', m')) ->
  w' = w
  /\ MIGFlash._connected m' = MIGFlash._connected m
  /\ medium_of m' = medium_of m
  /\ (r <> Ok true -> MIGFlash._cart_info m' = MIGFlash._cart_info m).
Proof.
  rewrite authenticate_unfold.
  destruct (MIGFlash._connected m) eqn:Hc.
  2:{ intros [= <- <- <-]. now rewrite Hc. }
  destruct (MIGFlash.cart_inserted (w, m)) as [r1 [w1 m1]] eqn:E1.
  apply cart_inserted_frame in E1 as ([b ->] & -> & (A1 & A2 & A3 & A4)).
  destruct b.
  2:{ intros [= <- <- <-]. repeat split; congruence. }
  destruct (MIGFlash.on_device _ (w, m1)) as [r2 [w2 m2]] eqn:E2.
  apply on_device_read_at_same in E2 as (-> & (B1 & B2 & B3 & B4)).
  destruct r2 as [data|e].
  2:{ intros [= <- <- <-]. repeat split; congruence. }
  destruct (from_bytes data) as [h|e].
  2:{ intros [= <- <- <-]. repeat split; congruence. }
  destruct (is_valid h); intros [= <- <- <-]; cbn;
    (split; [reflexivity|]); (split; [congruence|]);
    (split; [unfold medium_of in *; cbn; congruence|]);
    intros; congruence.
Qed.

(** On a medium without the magic tag, [authenticate] never returns
    [True]. *)
Lemma authenticate_bad_magic (w : World) (m : MIGFlash.t) (med : Medium) r s' :
  medium_of m = Some med -> bad_magic med ->
  MIGFlash.authenticate (w, m) = (r, s') -> r <> Ok true.
Proof.
  intros Hmed Hbad. rewrite authenticate_unfold.
  destruct (MIGFlash._connected m); [|intros [= <- _]; discriminate].
  destruct (MIGFlash.cart_inserted (w, m)) as [r1 [w1 m1]] eqn:E1.
  apply cart_inserted_frame in E1 as ([b ->] & -> & (_ & _ & _ & A4)).
  destruct b; [|intros [= <- _]; discriminate].
  rewrite (on_device_read_at w m1 med) by (congruence || (vm_compute; discriminate)).
  destruct (med_fault med _ _); [intros [= <- _]; discriminate|].
  destruct (from_bytes _) as [h|e] eqn:Eh; [|intros [= <- _]; discriminate].
  apply from_bytes_magic in Eh.
  assert (Hv : is_valid h = false).
  { unfold is_valid. apply bool_decide_eq_false. now rewrite Eh. }
  rewrite Hv. intros [= <- _]. discriminate.
Qed.

(** [MIGController.authenticate] in terms of the session's
    [authenticate]. *)
Lemma ctl_authenticate_unfold (w : World) (c : MIGController.t) (m : MIGFlash.t) :
  MIGController._mig c = Some m ->
  MIGController.authenticate (w, c) =
    match MIGFlash.authenticate (w, m) with
    | (Ok true, (w', m')) =>
        (Ok true,
         (w', MIGController.set_state ST_AUTHENTICATED
                (MIGController.set_cart (MIGFlash._cart_info m') (MIGFlash._xci_header m')
                   (MIGController.set_mig (Some m') c))))
    | (Ok false, (w', m')) =>
        (Ok false, (w', MIGController.set_state ST_ERROR (MIGController.set_mig (Some m') c)))
    | (Raise e, (w', m')) => (Raise e, (w', MIGController.set_mig (Some m') c))
    end.
Proof.
  intros Hm. unfold MIGController.authenticate. unfold bind at 1, gets at 1.
  cbn [snd]. rewrite Hm. unfold bind at 1, MIGController.on_mig at 1. rewrite Hm.
  destruct (MIGFlash.authenticate (w, m)) as [[[|]|e] [w' m']]; reflexivity.
Qed.

Lemma ctl_authenticate_callback (w : World) (c : MIGController.t) (m : MIGFlash.t) r w' c' :
  MIGController._mig c = Some m ->
  MIGController.authenticate (w, c) = (r, (w', c')) ->
  MIGController._event_callback c' = MIGController._event_callback c.
Proof.
  intros Hm. rewrite (ctl_authenticate_unfold w c m Hm).
  destruct (MIGFlash.authenticate (w, m)) as [[[|]|e] [w0 m0]];
    intros H; inversion H; reflexivity.
Qed.

(** Without a cartridge the precondition of [authenticate] does not
    hold: on a connected device whose header region is blank the presence
    check fails and the synchronous call raises what the session raised. *)
Example authenticate_without_cartridge :
  sample (session_on blank_medium) = false
  /\ (MIGController.authenticate (world0 Linux, blank_controller)).1
     = Raise (RuntimeError "No cartridge inserted").
Proof. split; vm_compute; reflexivity. Qed.

Lemma emit_event_eq ev msg done total err w c :
  MIGController._emit_event ev msg done total err (w, c)
  = (Ok tt, (emitted ev msg done total err w c, c)).
Proof.
  unfold MIGController._emit_event, emitted. now destruct (MIGController._event_callback c).
Qed.

Lemma last_emitted ev msg done total err w c :
  MIGController._event_callback c = true ->
  last (w_events (emitted ev msg done total err w c))
  = Some (mkEvent ev (MIGController._state c) msg done total err).
Proof.
  intros H. unfold emitted. rewrite H. cbn. apply last_snoc.
Qed.

(** With the presence tag read, [authenticate] returns; it does not
    raise. *)
Lemma authenticate_present (w : World) (m : MIGFlash.t) s1 :
  MIGFlash._connected m = true ->
  MIGFlash.cart_inserted (w, m) = (Ok true, s1) ->
  exists b s', MIGFlash.authenticate (w, m) = (Ok b, s').
Proof.
  intros Hc Hp. rewrite authenticate_unfold, Hc, Hp.
  destruct (MIGFlash.on_device _ s1) as [[data|e] s2]; [|eauto].
  destruct (from_bytes data) as [h|e]; [|eauto].
  destruct (is_valid h); eauto.
Qed.

Lemma cart_inserted_present (w : World) (m : MIGFlash.t) (med : Medium) :
  medium_of m = Some med -> MIGFlash._connected m = true ->
  med_fault med XCI_HEADER_OFFSET 4 = false ->
  read_data med XCI_HEADER_OFFSET 4 = HEAD ->
  exists s1, MIGFlash.cart_inserted (w, m) = (Ok true, s1).
Proof.
  intros Hmed Hc Hf Hd. rewrite cart_inserted_unfold, Hc.
  rewrite (on_device_read_at w m med) by (assumption || (vm_compute; discriminate)).
  rewrite Hf, Hd. eexists. rewrite bool_decide_eq_true_2 by reflexivity. reflexivity.
Qed.

(** C2. A buffer of at least 0x200 bytes without the magic tag at 0x100
    parses to a header that is not valid.  Against a device whose header
    region lacks the tag, [MIGFlash.authenticate] never returns [True] and
    never changes the cartridge information, and
    [MIGController.authenticate] never returns [True], never changes the
    cached cartridge information and never moves the controller to
    AUTHENTICATED.  With the precondition of [authenticate] met - the
    session is connected and the presence check reads the tag at the
    header offset - the session reports failure by returning [False], and
    the controller returns [False] and is left in the fault state.  The
    worker of [authenticate_async] ends in the fault state and reports
    AUTH_FAILED. *)
Theorem C2_invalid_header_never_authenticates :
  (forall data : bytes,
     (0x200 <= length data)%nat -> slice 0x100 0x104 data <> HEAD ->
     exists h, from_bytes data = Ok h /\ is_valid h = false)
  /\ (forall w m med r w' m',
        medium_of m = Some med -> bad_magic med ->
        MIGFlash.authenticate (w, m) = (r, (w', m')) ->
        r <> Ok true /\ MIGFlash._cart_info m' = MIGFlash._cart_info m)
  /\ (forall w c m med r w' c',
        MIGController._mig c = Some m -> medium_of m = Some med -> bad_magic med ->
        MIGController.authenticate (w, c) = (r, (w', c')) ->
        r <> Ok true
        /\ MIGController._cart_info c' = MIGController._cart_info c
        /\ (MIGController._state c' = ST_AUTHENTICATED ->
            MIGController._state c = ST_AUTHENTICATED))
  /\ (forall w m med,
        medium_of m = Some med -> bad_magic med ->
        MIGFlash._connected m = true ->
        med_fault med XCI_HEADER_OFFSET 4 = false ->
        read_data med XCI_HEADER_OFFSET 4 = HEAD ->
        exists m', MIGFlash.authenticate (w, m) = (Ok false, (w, m'))
          /\ MIGFlash._cart_info m' = MIGFlash._cart_info m)
  /\ (forall w c m med,
        MIGController._mig c = Some m -> medium_of m = Some med -> bad_magic med ->
        MIGFlash._connected m = true ->
        med_fault med XCI_HEADER_OFFSET 4 = false ->
        read_data med XCI_HEADER_OFFSET 4 = HEAD ->
        exists w' c', MIGController.authenticate (w, c) = (Ok false, (w', c'))
          /\ MIGController._state c' = ST_ERROR
          /\ MIGController._cart_info c' = MIGController._cart_info c)
  /\ (forall w c m med,
        MIGController._mig c = Some m -> medium_of m = Some med -> bad_magic med ->
        exists w' c', MIGController.authenticate_worker (w, c) = (Ok tt, (w', c'))
          /\ MIGController._state c' = ST_ERROR
          /\ (MIGController._event_callback c = true ->
              event <$> last (w_events w') = Some AUTH_FAILED)).
Proof.
  assert (Hsync : forall w c m med r w' c',
            MIGController._mig c = Some m -> medium_of m = Some med -> bad_magic med ->
            MIGController.authenticate (w, c) = (r, (w', c')) ->
            (r = Ok false /\ MIGController._state c' = ST_ERROR
             \/ exists e, r = Raise e /\ MIGController._state c' = MIGController._state c)
            /\ MIGController._cart_info c' = MIGController._cart_info c).
  { intros w c m med r w' c' Hm Hmed Hbad.
    rewrite (ctl_authenticate_unfold w c m Hm).
    destruct (MIGFlash.authenticate (w, m)) as [r0 [w0 m0]] eqn:E.
    pose proof (authenticate_bad_magic _ _ _ _ _ Hmed Hbad E) as Hr.
    destruct r0 as [[|]|e]; [congruence| |]; intros [= <- <- <-]; cbn; eauto. }
  assert (Hsession : forall w m med,
            medium_of m = Some med -> bad_magic med ->
            MIGFlash._connected m = true ->
            med_fault med XCI_HEADER_OFFSET 4 = false ->
            read_data med XCI_HEADER_OFFSET 4 = HEAD ->
            exists m', MIGFlash.authenticate (w, m) = (Ok false, (w, m'))
              /\ MIGFlash._cart_info m' = MIGFlash._cart_info m).
  { intros w m med Hmed Hbad Hc Hf Hd.
    destruct (cart_inserted_present w m med Hmed Hc Hf Hd) as [s1 Hp].
    destruct (authenticate_present w m s1 Hc Hp) as (b & [w0 m0] & E).
    pose proof (authenticate_bad_magic _ _ _ _ _ Hmed Hbad E) as Hr.
    destruct b; [congruence|].
    pose proof E as E'. apply authenticate_frame in E' as (-> & _ & _ & Hci).
    exists m0. split; [exact E|]. apply Hci. discriminate. }
  split; [|split; [|split; [|split; [exact Hsession|split]]]].
  - intros data Hlen Hbad.
    destruct (from_bytes_ok data Hlen) as (h & Hh & Hm & _).
    exists h. split; [exact Hh|]. unfold is_valid.
    apply bool_decide_eq_false. now rewrite Hm.
  - intros w m med r w' m' Hmed Hbad E.
    pose proof (authenticate_bad_magic _ _ _ _ _ Hmed Hbad E) as Hr.
    split; [exact Hr|]. now apply authenticate_frame in E as (_ & _ & _ & ->).
  - intros w c m med r w' c' Hm Hmed Hbad E.
    destruct (Hsync w c m med r w' c' Hm Hmed Hbad E) as [[[-> Hst]|(e & -> & Hst)] Hci].
    + split; [discriminate|]. split; [exact Hci|]. rewrite Hst. discriminate.
    + split; [discriminate|]. split; [exact Hci|]. now rewrite Hst.
  - intros w c m med Hm Hmed Hbad Hc Hf Hd.
    destruct (Hsession w m med Hmed Hbad Hc Hf Hd) as (m' & E & _).
    rewrite (ctl_authenticate_unfold w c m Hm), E.
    eexists _, _. split; [reflexivity|]. split; reflexivity.
  - intros w c m med Hm Hmed Hbad.
    unfold MIGController.authenticate_worker.
    unfold bind at 1, MIGController._set_state at 1, modify at 1. cbn [fst snd].
    unfold bind at 1. rewrite emit_event_eq.
    set (c1 := MIGController.set_state ST_AUTHENTICATING c).
    set (w1 := emitted _ _ _ _ _ w c1).
    unfold try_except, bind at 1.
    destruct (MIGController.authenticate (w1, c1)) as [r [w2 c2]] eqn:E.
    destruct (Hsync w1 c1 m med r w2 c2 Hm Hmed Hbad E) as [[[-> Hst]|(e & -> & Hst)] _].
    + rewrite emit_event_eq. eexists _, _. split; [reflexivity|].
      split; [exact Hst|]. intros Hcb.
      rewrite last_emitted; [reflexivity|].
      now rewrite (ctl_authenticate_callback w1 c1 m _ _ _ Hm E).
    + unfold bind at 1, MIGController._set_state at 1, modify at 1. cbn [fst snd].
      rewrite emit_event_eq. eexists _, _. split; [reflexivity|].
      split; [reflexivity|]. intros Hcb.
      rewrite last_emitted; [reflexivity|].
      change (MIGController._event_callback c2 = true).
      now rewrite (ctl_authenticate_callback w1 c1 m _ _ _ Hm E).
Qed.

(** The precondition is met by a device that shows the presence tag and
    nothing else: the session and the controller report failure, and the
    controller ends in the fault state. *)
Lemma C2_witness :
  bad_magic tagged_medium
  /\ (exists m', MIGFlash.authenticate (world0 Linux, session_on tagged_medium)
                 = (Ok false, (world0 Linux, m'))
                 /\ MIGFlash._cart_info m' = None)
  /\ (exists w' c',
        MIGController.authenticate
          (world0 Linux, controller_on (session_on tagged_medium) ST_CART_DETECTED)
        = (Ok false, (w', c'))
        /\ MIGController._state c' = ST_ERROR
        /\ MIGController._cart_info c' = None).
Proof.
  assert (Hbad : bad_magic tagged_medium) by (vm_compute; discriminate).
  destruct C2_invalid_header_never_authenticates as (_ & _ & _ & Hsession & Hctl & _).
  split; [exact Hbad|]. split.
  - apply (Hsession (world0 Linux) (session_on tagged_medium) tagged_medium);
      [reflexivity|exact Hbad|reflexivity|reflexivity|vm_compute; reflexivity].
  - apply (Hctl (world0 Linux) (controller_on (session_on tagged_medium) ST_CART_DETECTED)
             (session_on tagged_medium) tagged_medium);
      [reflexivity|reflexivity|exact Hbad|reflexivity|reflexivity|vm_compute; reflexivity].
Defined.

Example authenticate_tagged_medium :
  bad_magic tagged_medium
  /\ (MIGController.authenticate
        (world0 Linux, controller_on (session_on tagged_medium) ST_CART_DETECTED)).1
     = Ok false
  /\ MIGController._state
       (MIGController.authenticate
          (world0 Linux, controller_on (session_on tagged_medium) ST_CART_DETECTED)).2.2
     = ST_ERROR.
Proof.
  split; [vm_compute; discriminate|]. split; vm_compute; reflexivity.
Qed.

(** ** C8: the monitor *)

(** The outcome of a positioned read does not depend on the world. *)
Lemma on_device_read_at_world (w w0 : World) (m : MIGFlash.t) (off size : Z) :
  MIGFlash.on_device (BlockDevice.read_at off size) (w, m) =
    let '(r, (_, m')) := MIGFlash.on_device (BlockDevice.read_at off size) (w0, m) in
    (r, (w, m')).
Proof.
  destruct m as [[[pth [[md ps]|] op]|] di cn fw ci xh]; try reflexivity.
  unfold MIGFlash.on_device, BlockDevice.read_at, bind, BlockDevice.seek, BlockDevice.read.
  cbn. destruct (decide (off < 0)); cbn; [reflexivity|].
  destruct (med_fault md off size); reflexivity.
Qed.

Lemma cart_inserted_sample (w : World) (m : MIGFlash.t) :
  exists m', MIGFlash.cart_inserted (w, m) = (Ok (sample m), (w, m')).
Proof.
  unfold sample. rewrite !cart_inserted_unfold.
  destruct (MIGFlash._connected m); [|eauto].
  rewrite (on_device_read_at_world w (world0 Linux)).
  destruct (MIGFlash.on_device _ (world0 Linux, m)) as [[data|e] [w1 m1]]; cbn; eauto.
Qed.

(** One poll of a connected device by a monitor that saw it connected. *)
Lemma monitor_poll_connected (w : World) (c : MIGController.t) (m : MIGFlash.t)
    (l : MIGController.MonitorLocals) :
  MIGController._event_callback c = true ->
  MIGController.was_connected l = true ->
  MIGFlash._connected m = true ->
  exists w' c',
    MIGController.monitor_poll (Some m) l (w, c)
    = (Ok (MIGController.mkMonitorLocals true (sample m)), (w', c'))
    /\ MIGController._event_callback c' = true
    /\ w_events w' = (w_events w ++ edge_events (MIGController.had_cart l) (sample m))%list.
Proof.
  intros Hcb Hwas Hcon.
  destruct (cart_inserted_sample w m) as [m' Hs].
  assert (Hic : MIGController.is_connected (MIGController.set_mig (Some m) c) = true)
    by exact Hcon.
  unfold MIGController.monitor_poll, MIGController._set_state, bind, modify,
    try_except, gets, MIGController.on_mig, ret.
  cbn [fst snd]. rewrite Hic, Hwas.
  cbn [negb andb MIGController._mig MIGController.set_mig]. rewrite Hs.
  unfold edge_events.
  destruct (MIGController.had_cart l), (sample m); cbn [negb andb];
    rewrite ?emit_event_eq; (eexists _, _; split; [reflexivity|]);
    unfold emitted; cbn; rewrite ?Hcb; cbn; rewrite ?app_nil_r; auto.
Qed.

Lemma monitor_loop_connected (ms : list MIGFlash.t) :
  forall (w : World) (c : MIGController.t) (l : MIGController.MonitorLocals),
    MIGController._event_callback c = true ->
    MIGController.was_connected l = true ->
    Forall (fun m => MIGFlash._connected m = true) ms ->
    exists w' c',
      MIGController.monitor_loop (Some <$> ms) l (w, c) = (Ok tt, (w', c'))
      /\ w_events w' = (w_events w ++ edges_of (MIGController.had_cart l) (sample <$> ms))%list.
Proof.
  induction ms as [|m ms IH]; intros w c l Hcb Hwas Hall.
  - cbn. eexists _, _. split; [reflexivity|]. now rewrite app_nil_r.
  - inversion Hall as [|? ? Hm Hms]; subst.
    destruct (monitor_poll_connected w c m l Hcb Hwas Hm) as (w1 & c1 & Hp & Hcb1 & He1).
    destruct (IH w1 c1 (MIGController.mkMonitorLocals true (sample m)) Hcb1 eq_refl Hms)
      as (w2 & c2 & Hl & He2).
    exists w2, c2. split.
    + cbn [fmap list_fmap MIGController.monitor_loop]. unfold bind at 1. now rewrite Hp.
    + rewrite He2, He1. cbn. now rewrite <- app_assoc.
Qed.

(** The monitor started on a connected device: its first sample, then
    the polls. *)
Lemma monitor_connected (w : World) (c : MIGController.t) (m0 : MIGFlash.t)
    (ms : list MIGFlash.t) :
  MIGController._event_callback c = true ->
  MIGController._mig c = Some m0 ->
  Forall (fun m => MIGFlash._connected m = true) (m0 :: ms) ->
  exists w' c',
    MIGController.monitor (Some <$> ms) (w, c) = (Ok tt, (w', c'))
    /\ w_events w' = (w_events w ++ edges_of (sample m0) (sample <$> ms))%list.
Proof.
  intros Hcb Hm Hall. inversion Hall as [|? ? Hm0 Hms]; subst.
  destruct (cart_inserted_sample w m0) as [m0' Hs].
  unfold MIGController.monitor. unfold bind at 1.
  unfold MIGController.monitor_init. unfold bind at 1, gets at 1. cbn [snd].
  unfold MIGController.is_connected. rewrite Hm. unfold MIGFlash.is_connected. rewrite Hm0.
  unfold bind at 1, gets at 1. cbn [snd]. rewrite Hm.
  unfold bind at 1, MIGController.on_mig at 1. rewrite Hm, Hs. unfold ret.
  apply (monitor_loop_connected ms w _ (MIGController.mkMonitorLocals true (sample m0)));
    [exact Hcb|reflexivity|exact Hms].
Qed.

(** C8. A monitor with a subscriber watches a device that stays
    connected.  If the successive values of [cart_inserted] it samples are
    false, false, true, true, false (its first sample is taken before the
    loop; the statement also covers five polls after a first sample that
    was false), then it delivers exactly two events, CART_INSERTED and then
    CART_REMOVED.  A poll whose sample equals the previous one delivers
    nothing. *)
Theorem C8_monitor_edges (w : World) (c : MIGController.t) (m0 : MIGFlash.t)
    (ms : list MIGFlash.t) :
  MIGController._event_callback c = true ->
  MIGController._mig c = Some m0 ->
  Forall (fun m => MIGFlash._connected m = true) (m0 :: ms) ->
  sample <$> (m0 :: ms) = [false; false; true; true; false]
  \/ (sample m0 = false /\ sample <$> ms = [false; false; true; true; false]) ->
  (exists w' c',
     MIGController.monitor (Some <$> ms) (w, c) = (Ok tt, (w', c'))
     /\ w_events w' = (w_events w ++ [cart_inserted_event; cart_removed_event])%list)
  /\ (forall wi ci l m,
        MIGController._event_callback ci = true ->
        MIGController.was_connected l = true ->
        MIGFlash._connected m = true ->
        sample m = MIGController.had_cart l ->
        exists w' c' l',
          MIGController.monitor_poll (Some m) l (wi, ci) = (Ok l', (w', c'))
          /\ w_events w' = w_events wi
          /\ MIGController._state c' = MIGController._state ci).
Proof.
  intros Hcb Hm Hall Hsamples. split.
  - destruct (monitor_connected w c m0 ms Hcb Hm Hall) as (w' & c' & Hrun & Hev).
    exists w', c'. split; [exact Hrun|]. rewrite Hev. f_equal.
    destruct Hsamples as [Hs|[Hs0 Hs]].
    + cbn [fmap list_fmap] in Hs. injection Hs as -> ->. reflexivity.
    + rewrite Hs0, Hs. reflexivity.
  - intros wi ci l m Hcbi Hwas Hcon Hsame.
    destruct (cart_inserted_sample wi m) as [m' Hs].
    assert (Hic : MIGController.is_connected (MIGController.set_mig (Some m) ci) = true)
      by exact Hcon.
    unfold MIGController.monitor_poll, MIGController._set_state, bind, modify,
      try_except, gets, MIGController.on_mig, ret.
    cbn [fst snd]. rewrite Hic, Hwas.
    cbn [negb andb MIGController._mig MIGController.set_mig]. rewrite Hs, Hsame.
    destruct (MIGController.had_cart l); cbn [negb andb];
      eexists _, _, _; (split; [reflexivity|]); cbn; auto.
Qed.

Lemma C8_witness :
  exists w' c',
    MIGController.monitor [Some absent; Some present; Some present; Some absent]
      (world0 Linux, controller_on absent ST_NO_CART) = (Ok tt, (w', c'))
    /\ w_events w' = [cart_inserted_event; cart_removed_event].
Proof.
  assert (Hall : Forall (fun m => MIGFlash._connected m = true)
                   [absent; absent; present; present; absent])
    by (repeat constructor).
  assert (Hs : sample <$> [absent; absent; present; present; absent]
               = [false; false; true; true; false])
    by (vm_compute; reflexivity).
  destruct (C8_monitor_edges (world0 Linux) (controller_on absent ST_NO_CART) absent
              [absent; present; present; absent] eq_refl eq_refl Hall (or_introl Hs))
    as [(w' & c' & Hrun & Hev) _].
  exists w', c'. split; [exact Hrun|exact Hev].
Defined.

(** ** The copy loop of [dump_xci] *)

Lemma read_data_full (med : Medium) (pos n : Z) :
  0 <= n -> pos + n <= med_size med ->
  read_data med pos n = med_bytes med pos (Z.to_nat n).
Proof.
  intros Hn Hfit. unfold read_data. rewrite decide_False by lia.
  f_equal. lia.
Qed.

Lemma med_bytes_app (med : Medium) (pos : Z) (n1 n2 : nat) :
  med_bytes med pos (n1 + n2)
  = (med_bytes med pos n1 ++ med_bytes med (pos + Z.of_nat n1) n2)%list.
Proof.
  revert pos. induction n1 as [|n1 IH]; intros pos.
  - cbn. f_equal. lia.
  - cbn [med_bytes Nat.add app]. rewrite IH. do 3 f_equal. lia.
Qed.

Lemma read_xci_ok (w : World) (m : MIGFlash.t) (med : Medium) (offset n : Z) :
  MIGFlash.cart_authenticated m = true ->
  medium_of m = Some med ->
  no_faults med ->
  0 <= offset -> 0 <= n -> XCI_DATA_OFFSET + offset + n <= med_size med ->
  MIGFlash.read_xci offset n (w, m)
  = (Ok (med_bytes med (XCI_DATA_OFFSET + offset) (Z.to_nat n)),
     (w, at_pos (XCI_DATA_OFFSET + offset + n) m)).
Proof.
  intros Hauth Hmed Hnf Hoff Hn Hfit.
  unfold MIGFlash.read_xci, bind, gets. cbn [snd]. rewrite Hauth. cbn [negb].
  assert (Hbase : 0 <= XCI_DATA_OFFSET) by (vm_compute; discriminate).
  rewrite (on_device_read_at w m med) by (assumption || lia).
  rewrite Hnf, read_data_full by lia. rewrite length_med_bytes.
  repeat f_equal. lia.
Qed.

Lemma dump_loop_done {C : Type} (fuel : nat) (filename : string) (dump_size : Z)
    (cb : option (Z -> Z -> M (World * C) unit)) (offset : Z) (s : MIGFlash.DumpSt C) :
  dump_size <= offset ->
  MIGFlash.dump_loop (S fuel) filename dump_size cb offset s = (Ok (Some tt), s).
Proof.
  intros H. cbn [MIGFlash.dump_loop]. now rewrite decide_False by lia.
Qed.

(** *** The progress callback of the controller *)

Lemma time_time_frame (w : World) :
  exists now w', MIGController.time_time w = (Ok now, w')
    /\ w_fs w' = w_fs w /\ w_sched w' = w_sched w /\ w_events w' = w_events w.
Proof.
  unfold MIGController.time_time. destruct (w_clock w); eexists _, _; eauto.
Qed.

Lemma emitted_frame ev msg done total err w c :
  w_fs (emitted ev msg done total err w c) = w_fs w
  /\ w_sched (emitted ev msg done total err w c) = w_sched w.
Proof. unfold emitted. destruct (MIGController._event_callback c); auto. Qed.

(** A progress check before which no other thread called [abort_dump]:
    it returns, and touches neither the controller nor any file. *)
Lemma on_progress_nocall (done total : Z) (w : World) (c : MIGController.t)
    (l : MIGController.DumpLocals) (s : list Interference) :
  w_sched w = NoCall :: s ->
  MIGController._abort_flag c = false ->
  exists w' l',
    MIGController.on_progress done total (w, (c, l)) = (Ok tt, (w', (c, l')))
    /\ w_sched w' = s
    /\ w_fs w' = w_fs w.
Proof.
  intros Hs Hflag.
  unfold MIGController.on_progress.
  unfold bind at 1, MIGController.in_ctl at 1, zoom at 1, MIGController.interference.
  cbn [fst snd]. rewrite Hs. cbn [fst snd].
  unfold bind at 1, gets at 1. cbn [fst snd]. rewrite Hflag.
  unfold bind at 1, zoom at 1. cbn [fst snd].
  destruct (time_time_frame (set_sched s w)) as (now & w1 & -> & Hfs & Hsch & _).
  cbn [fst snd] in *.
  unfold bind at 1, gets at 1. cbn [fst snd].
  destruct (decide (now - MIGController.last_update l < 100)).
  - unfold ret. eexists _, _. split; [reflexivity|]. auto.
  - unfold bind at 1, modify at 1. cbn [fst snd].
    unfold MIGController.in_ctl, zoom. cbn [fst snd]. rewrite emit_event_eq. cbn [fst snd].
    eexists _, _. split; [reflexivity|].
    destruct (emitted_frame DUMP_PROGRESS (Percent done total) done total None w1 c)
      as [-> ->]. auto.
Qed.

(** A progress check before which [abort_dump] was called: it raises. *)
Lemma on_progress_abort (done total : Z) (w : World) (c : MIGController.t)
    (l : MIGController.DumpLocals) (s : list Interference) :
  w_sched w = AbortDumpCalled :: s ->
  MIGController.on_progress done total (w, (c, l))
  = (Raise (InterruptedError "Dump aborted"),
     (set_sched s w, (MIGController.set_abort_flag true c, l))).
Proof.
  intros Hs. unfold MIGController.on_progress.
  unfold bind at 1, MIGController.in_ctl at 1, zoom at 1, MIGController.interference.
  cbn [fst snd]. rewrite Hs. reflexivity.
Qed.

(** The loop on a medium that does not fault and holds the whole dump. *)
Section CopyLoop.

Variables (med : Medium) (filename : string) (dump_size : Z).
Hypothesis Hnf : no_faults med.
Hypothesis Hfit : XCI_DATA_OFFSET + dump_size <= med_size med.

(** One turn of the loop with a progress callback, on a medium that
    holds the whole dump and does not fault. *)
Lemma dump_loop_step {C : Type} (fuel : nat) (cb : Z -> Z -> M (World * C) unit)
    (offset : Z) (w : World) (m : MIGFlash.t) (c : C) :
  MIGFlash.cart_authenticated m = true ->
  medium_of m = Some med ->
  0 <= offset < dump_size ->
  MIGFlash.dump_loop (S fuel) filename dump_size (Some cb) offset (w, m, c) =
    let n := Z.min MIGFlash.chunk_size (dump_size - offset) in
    let data := med_bytes med (XCI_DATA_OFFSET + offset) (Z.to_nat n) in
    let w1 := set_fs (fun fs => <[filename := (default [] (fs !! filename) ++ data)%list]> fs) w in
    let m1 := at_pos (XCI_DATA_OFFSET + offset + n) m in
    match cb (offset + n) dump_size (w1, c) with
    | (Ok _, (w2, c2)) =>
        MIGFlash.dump_loop fuel filename dump_size (Some cb) (offset + n) (w2, m1, c2)
    | (Raise e, (w2, c2)) => (Raise e, (w2, m1, c2))
    end.
Proof.
  intros Hauth Hmed Hoff.
  assert (Hchunk : 0 < MIGFlash.chunk_size) by (vm_compute; reflexivity).
  cbn [MIGFlash.dump_loop]. rewrite decide_True by lia.
  unfold bind at 1, MIGFlash.in_session at 1, zoom at 1. cbn [fst snd].
  rewrite (read_xci_ok w m med) by (assumption || lia).
  rewrite length_med_bytes, Z2Nat.id by lia.
  unfold bind at 1, MIGFlash.in_world at 1, zoom at 1, f_write, modify. cbn [fst snd].
  unfold bind at 1, MIGFlash.in_callback at 1, zoom at 1. cbn [fst snd].
  destruct (cb _ dump_size _) as [[[]|e] [w2 c2]]; reflexivity.
Qed.

(** The loop with the recording callback runs to its end when the fuel
    covers the remaining chunks: the file receives the rest of the image
    and the last call reports the whole size. *)
Lemma dump_loop_record :
  forall (fuel : nat) (offset : Z) (w : World) (m : MIGFlash.t)
         (calls : list (Z * Z)) (old : bytes),
    MIGFlash.cart_authenticated m = true ->
    medium_of m = Some med ->
    0 <= offset <= dump_size ->
    w_fs w !! filename = Some old ->
    dump_size - offset <= (Z.of_nat fuel - 1) * MIGFlash.chunk_size ->
    exists w' m' new,
      MIGFlash.dump_loop fuel filename dump_size (Some record_progress) offset (w, m, calls)
      = (Ok (Some tt), (w', m', (calls ++ new)%list))
      /\ w_fs w' !! filename
         = Some (old ++ med_bytes med (XCI_DATA_OFFSET + offset)
                          (Z.to_nat (dump_size - offset)))%list
      /\ (offset < dump_size -> last new = Some (dump_size, dump_size))
      /\ (dump_size <= offset -> new = []).
Proof.
  change MIGFlash.chunk_size with 1048576.
  induction fuel as [|fuel IH]; intros offset w m calls old Hauth Hmed Hoff Hold Hfuel.
  { lia. }
  destruct (decide (offset < dump_size)) as [Hlt|Hge].
  - rewrite (dump_loop_step fuel record_progress offset w m calls)
      by (assumption || lia).
    change MIGFlash.chunk_size with 1048576.
    cbv zeta. set (n := Z.min 1048576 (dump_size - offset)).
    set (data := med_bytes med (XCI_DATA_OFFSET + offset) (Z.to_nat n)).
    unfold record_progress at 1, modify at 1. cbn [fst snd].
    match goal with
    | |- context [MIGFlash.dump_loop fuel _ _ _ _ (?w1, ?m1, ?c1)] =>
        destruct (IH (offset + n) w1 m1 c1 (old ++ data)%list)
          as (w' & m' & new & Hrun & Hfile & Hlast & Hnil);
        [rewrite cart_authenticated_at_pos; exact Hauth
        |rewrite medium_of_at_pos; exact Hmed
        |subst n; lia
        |cbn; rewrite Hold; apply lookup_insert_eq
        |subst n; lia
        |]
    end.
    exists w', m', ((offset + n, dump_size) :: new). split; [|split; [|split]].
    + rewrite Hrun. now rewrite <- app_assoc.
    + rewrite Hfile. rewrite <- app_assoc. do 2 f_equal.
      subst data.
      replace (Z.to_nat (dump_size - offset))
        with (Z.to_nat n + Z.to_nat (dump_size - (offset + n)))%nat by (subst n; lia).
      rewrite med_bytes_app. do 2 f_equal. subst n; lia.
    + intros _. destruct (decide (offset + n < dump_size)) as [Hmore|Hend].
      * rewrite last_cons, (Hlast Hmore). reflexivity.
      * rewrite (Hnil ltac:(lia)). cbn. do 2 f_equal. subst n; lia.
    + lia.
  - destruct fuel as [|fuel']; rewrite dump_loop_done by lia;
      exists w, m, []; rewrite app_nil_r;
      (split; [reflexivity|]);
      (split; [rewrite Hold; replace (dump_size - offset) with 0 by lia;
               cbn; now rewrite app_nil_r|]);
      (split; [lia|reflexivity]).
Qed.

(** The loop when [abort_dump] is called during turn [k] (turns counted
    from 0 at [offset]): turns 0 to k-1 pass their progress check, the
    check of turn [k] raises, and the file has received the chunks of
    turns 0 to [k]. *)
Lemma dump_loop_abort :
  forall (k fuel : nat) (offset : Z) (w : World) (m : MIGFlash.t)
         (c : MIGController.t) (l : MIGController.DumpLocals)
         (old : bytes) (rest : list Interference),
    MIGFlash.cart_authenticated m = true ->
    medium_of m = Some med ->
    0 <= offset ->
    offset + Z.of_nat k * MIGFlash.chunk_size < dump_size ->
    w_fs w !! filename = Some old ->
    w_sched w = (replicate k NoCall ++ AbortDumpCalled :: rest)%list ->
    MIGController._abort_flag c = false ->
    (k < fuel)%nat ->
    exists w' m' l',
      MIGFlash.dump_loop fuel filename dump_size (Some MIGController.on_progress) offset
        (w, m, (c, l))
      = (Raise (InterruptedError "Dump aborted"),
         (w', m', (MIGController.set_abort_flag true c, l')))
      /\ w_fs w' !! filename
         = Some (old ++ med_bytes med (XCI_DATA_OFFSET + offset)
                          (Z.to_nat (Z.min (dump_size - offset)
                                       ((Z.of_nat k + 1) * MIGFlash.chunk_size))))%list.
Proof.
  change MIGFlash.chunk_size with 1048576.
  induction k as [|k IH];
    intros fuel offset w m c l old rest Hauth Hmed Hoff Hmid Hold Hsched Hflag Hfuel;
    (destruct fuel as [|fuel]; [lia|]);
    unfold MIGController.WorkerSt;
    rewrite (dump_loop_step fuel MIGController.on_progress offset w m (c, l))
      by (assumption || lia);
    change MIGFlash.chunk_size with 1048576; cbv zeta;
    set (n := Z.min 1048576 (dump_size - offset));
    set (data := med_bytes med (XCI_DATA_OFFSET + offset) (Z.to_nat n)).
  - cbn [replicate app] in Hsched.
    rewrite (on_progress_abort _ _ _ c l rest) by exact Hsched.
    eexists _, _, _. split; [reflexivity|].
    cbn. rewrite Hold. cbn [default]. rewrite lookup_insert_eq.
    do 3 f_equal. subst n. lia.
  - cbn [replicate app] in Hsched.
    match goal with
    | |- context [MIGController.on_progress ?d ?t (?w1, _)] =>
        destruct (on_progress_nocall d t w1 c l _ Hsched Hflag)
          as (w2 & l2 & Hcb & Hsched2 & Hfs2)
    end.
    rewrite Hcb.
    destruct (IH fuel (offset + n) w2 (at_pos (XCI_DATA_OFFSET + offset + n) m) c l2
                (old ++ data)%list rest)
      as (w' & m' & l' & Hrun & Hfile);
      [rewrite cart_authenticated_at_pos; exact Hauth
      |rewrite medium_of_at_pos; exact Hmed
      |subst n; lia
      |subst n; lia
      |rewrite Hfs2; cbn; rewrite Hold; apply lookup_insert_eq
      |exact Hsched2
      |exact Hflag
      |lia
      |].
    exists w', m', l'. split; [exact Hrun|].
    rewrite Hfile, <- app_assoc. do 2 f_equal. subst data.
    replace (Z.to_nat (Z.min (dump_size - offset) ((Z.of_nat (S k) + 1) * 1048576)))
      with (Z.to_nat n
            + Z.to_nat (Z.min (dump_size - (offset + n)) ((Z.of_nat k + 1) * 1048576)))%nat
      by (subst n; lia).
    rewrite med_bytes_app. do 2 f_equal. subst n. lia.
Qed.

End CopyLoop.

(** ** C4: the end-to-end scenario *)

(** [authenticate] on a connected device that shows the presence tag and
    a valid header. *)
Lemma authenticate_success (w : World) (m : MIGFlash.t) (med : Medium) (h : XCIHeader) :
  MIGFlash._connected m = true ->
  medium_of m = Some med ->
  no_faults med ->
  read_data med XCI_HEADER_OFFSET 4 = HEAD ->
  from_bytes (read_data med XCI_HEADER_OFFSET XCI_HEADER_SIZE) = Ok h ->
  is_valid h = true ->
  exists m1,
    MIGFlash.authenticate (w, m) = (Ok true, (w, m1))
    /\ MIGFlash._xci_header m1 = Some h
    /\ MIGFlash._cart_info m1 = Some (cart_info_of h)
    /\ medium_of m1 = Some med
    /\ MIGFlash._connected m1 = true.
Proof.
  intros Hc Hmed Hnf Htag Hh Hv.
  assert (H0 : 0 <= XCI_HEADER_OFFSET) by (vm_compute; discriminate).
  rewrite authenticate_unfold, Hc, cart_inserted_unfold, Hc.
  rewrite (on_device_read_at w m med) by assumption.
  rewrite Hnf, Htag, bool_decide_eq_true_2 by reflexivity.
  rewrite (on_device_read_at w _ med) by (rewrite ?medium_of_at_pos; assumption).
  rewrite Hnf, Hh, Hv. cbn [fst snd].
  match goal with
  | |- context [MIGFlash.set_xci_header _ ?X] => set (m0 := X)
  end.
  eexists. split; [reflexivity|].
  split; [reflexivity|]. split; [reflexivity|]. split.
  - change (medium_of m0 = Some med). subst m0. now rewrite !medium_of_at_pos.
  - change (MIGFlash._connected m0 = true). subst m0. now rewrite !connected_at_pos.
Qed.

(** [dump_xci] with the recording callback on an authenticated session. *)
Lemma dump_xci_record (w : World) (m : MIGFlash.t) (med : Medium) (h : XCIHeader)
    (filename : string) (trimmed : bool) (fuel : nat) (dump_size : Z) :
  MIGFlash.cart_authenticated m = true ->
  MIGFlash._xci_header m = Some h ->
  medium_of m = Some med ->
  no_faults med ->
  dump_size = (if trimmed then valid_data_end h * 512 else cart_size_bytes h) ->
  0 <= dump_size ->
  XCI_DATA_OFFSET + dump_size <= med_size med ->
  dump_size <= (Z.of_nat fuel - 1) * MIGFlash.chunk_size ->
  exists w2 m2 calls,
    MIGFlash.dump_xci fuel filename trimmed (Some record_progress) (w, m, [])
    = (Ok (Some true), (w2, m2, calls))
    /\ w_fs w2 !! filename = Some (med_bytes med XCI_DATA_OFFSET (Z.to_nat dump_size))
    /\ (0 < dump_size -> last calls = Some (dump_size, dump_size)).
Proof.
  intros Hauth Hh Hmed Hnf Hsize Hpos Hfit Hfuel.
  unfold MIGFlash.dump_xci.
  unfold bind at 1, gets at 1. cbn [fst snd]. rewrite Hauth. cbn [negb].
  unfold bind at 1, ret at 1.
  unfold bind at 1, MIGFlash.in_session at 1, zoom at 1. cbn [fst snd].
  rewrite (get_xci_size_authenticated w m h Hauth Hh). rewrite <- Hsize.
  unfold bind at 1, MIGFlash.in_world at 1, zoom at 1, f_open_wb, modify. cbn [fst snd].
  destruct (dump_loop_record med filename dump_size Hnf Hfit fuel 0
              (set_fs <[filename:=[]]> w) m [] [])
    as (w2 & m2 & new & Hrun & Hfile & Hlast & _);
    [exact Hauth|exact Hmed|lia|cbn; apply lookup_insert_eq|lia|].
  unfold bind. rewrite Hrun. exists w2, m2, new. split; [reflexivity|].
  split; [|exact Hlast].
  rewrite Hfile. cbn [app]. do 2 f_equal; lia.
Qed.

(** C4. On a connected device that does not fault, holds at least the
    used part of the image, shows the presence tag and carries a valid
    header with capacity class code 0xE2 and valid-data-end 2,000,000:
    [authenticate] succeeds with total size 34,359,738,368 and trimmed
    size 1,024,000,000; [dump_xci] with [trimmed=True] then returns [True]
    (978 turns of fuel cover its 977 chunks), the destination holds
    exactly the first 1,024,000,000 bytes of the image area, and the last
    call of the progress callback is (1,024,000,000, 1,024,000,000). *)
Theorem C4_end_to_end (w : World) (m : MIGFlash.t) (med : Medium) (h : XCIHeader)
    (filename : string) (fuel : nat) :
  MIGFlash._connected m = true ->
  medium_of m = Some med ->
  no_faults med ->
  XCI_DATA_OFFSET + 1024000000 <= med_size med ->
  read_data med XCI_HEADER_OFFSET 4 = HEAD ->
  from_bytes (read_data med XCI_HEADER_OFFSET XCI_HEADER_SIZE) = Ok h ->
  is_valid h = true ->
  game_card_size h = 0xE2 ->
  valid_data_end h = 2000000 ->
  (978 <= fuel)%nat ->
  exists m1,
    MIGFlash.authenticate (w, m) = (Ok true, (w, m1))
    /\ size <$> MIGFlash._cart_info m1 = Some 34359738368
    /\ trimmed_size <$> MIGFlash._cart_info m1 = Some 1024000000
    /\ MIGFlash.get_xci_size (w, m1) = (Ok (34359738368, 1024000000), (w, m1))
    /\ exists w2 m2 calls data,
         MIGFlash.dump_xci fuel filename true (Some record_progress) (w, m1, [])
         = (Ok (Some true), (w2, m2, calls))
         /\ w_fs w2 !! filename = Some data
         /\ data = med_bytes med XCI_DATA_OFFSET (Z.to_nat 1024000000)
         /\ Z.of_nat (length data) = 1024000000
         /\ last calls = Some (1024000000, 1024000000).
Proof.
  intros Hc Hmed Hnf Hfit Htag Hh Hv Hcode Hvde Hfuel.
  destruct (authenticate_success w m med h Hc Hmed Hnf Htag Hh Hv)
    as (m1 & Hauth & Hhdr & Hci & Hmed1 & Hc1).
  assert (Htotal : cart_size_bytes h = 34359738368).
  { rewrite cart_size_bytes_table, Hcode. reflexivity. }
  assert (Hauth1 : MIGFlash.cart_authenticated m1 = true).
  { unfold MIGFlash.cart_authenticated. now rewrite Hci. }
  exists m1. split; [exact Hauth|].
  split; [rewrite Hci; cbn; now rewrite Htotal|].
  split; [rewrite Hci; cbn; rewrite Hvde; reflexivity|].
  split.
  { rewrite (get_xci_size_authenticated w m1 h Hauth1 Hhdr), Htotal, Hvde. reflexivity. }
  destruct (dump_xci_record w m1 med h filename true fuel 1024000000)
    as (w2 & m2 & calls & Hrun & Hfile & Hlast);
    [exact Hauth1|exact Hhdr|exact Hmed1|exact Hnf|rewrite Hvde; reflexivity|lia
    |exact Hfit|change MIGFlash.chunk_size with 1048576; lia|].
  exists w2, m2, calls, (med_bytes med XCI_DATA_OFFSET (Z.to_nat 1024000000)).
  split; [exact Hrun|]. split; [exact Hfile|]. split; [reflexivity|].
  split; [rewrite length_med_bytes; lia|]. apply Hlast. lia.
Qed.

Lemma C4_witness :
  exists m1 w2 m2 calls data,
    MIGFlash.authenticate (world0 Linux, fresh_session) = (Ok true, (world0 Linux, m1))
    /\ MIGFlash.dump_xci 978 "game.xci" true (Some record_progress) (world0 Linux, m1, [])
       = (Ok (Some true), (w2, m2, calls))
    /\ w_fs w2 !! "game.xci" = Some data
    /\ Z.of_nat (length data) = 1024000000
    /\ last calls = Some (1024000000, 1024000000).
Proof.
  destruct (C4_end_to_end (world0 Linux) fresh_session (demo_medium 2000000 0xE2)
              demo_xci "game.xci" 978)
    as (m1 & Ha & _ & _ & _ & (w2 & m2 & calls & data & Hrun & Hf & _ & Hlen & Hlast)).
  - reflexivity.
  - reflexivity.
  - intros off sz. reflexivity.
  - vm_compute. discriminate.
  - vm_compute. reflexivity.
  - vm_compute. reflexivity.
  - vm_compute. reflexivity.
  - vm_compute. reflexivity.
  - vm_compute. reflexivity.
  - lia.
  - exists m1, w2, m2, calls, data. auto.
Defined.

(** ** C7: aborting a dump *)

(** The synchronous [dump_xci] of the controller, with [on_progress] as
    callback, when [abort_dump] is called during turn [k]. *)
Lemma ctl_dump_xci_abort (w : World) (c : MIGController.t) (l : MIGController.DumpLocals)
    (m : MIGFlash.t) (med : Medium) (h : XCIHeader) (filename : string)
    (trimmed : bool) (dump_size : Z) (k fuel : nat) (rest : list Interference) :
  MIGController._mig c = Some m ->
  MIGController._abort_flag c = false ->
  MIGFlash.cart_authenticated m = true ->
  MIGFlash._xci_header m = Some h ->
  medium_of m = Some med ->
  no_faults med ->
  dump_size = (if trimmed then valid_data_end h * 512 else cart_size_bytes h) ->
  XCI_DATA_OFFSET + dump_size <= med_size med ->
  w_sched w = (replicate k NoCall ++ AbortDumpCalled :: rest)%list ->
  Z.of_nat k * MIGFlash.chunk_size < dump_size ->
  (k < fuel)%nat ->
  exists w' m' l',
    MIGController.dump_xci fuel filename trimmed (Some MIGController.on_progress)
      (w, (c, l))
    = (Raise (InterruptedError "Dump aborted"),
       (w', (MIGController.set_mig (Some m') (MIGController.set_abort_flag true c), l')))
    /\ w_fs w' !! filename
       = Some (med_bytes med XCI_DATA_OFFSET
                 (Z.to_nat (Z.min dump_size ((Z.of_nat k + 1) * MIGFlash.chunk_size)))).
Proof.
  intros Hm Hflag Hauth Hh Hmed Hnf Hsize Hfit Hsched Hmid Hfuel.
  unfold MIGController.dump_xci. rewrite Hm.
  unfold MIGFlash.dump_xci.
  unfold bind at 1, gets at 1. cbn [fst snd]. rewrite Hauth. cbn [negb].
  unfold bind at 1, ret at 1.
  unfold bind at 1, MIGFlash.in_session at 1, zoom at 1. cbn [fst snd].
  rewrite (get_xci_size_authenticated w m h Hauth Hh). rewrite <- Hsize.
  unfold bind at 1, MIGFlash.in_world at 1, zoom at 1, f_open_wb, modify. cbn [fst snd].
  destruct (dump_loop_abort med filename dump_size Hnf Hfit k fuel 0
              (set_fs <[filename:=[]]> w) m c l [] rest)
    as (w' & m' & l' & Hrun & Hfile);
    [exact Hauth|exact Hmed|lia|lia|cbn; apply lookup_insert_eq|exact Hsched
    |exact Hflag|exact Hfuel|].
  unfold bind. rewrite Hrun. exists w', m', l'. split; [reflexivity|].
  rewrite Hfile. cbn [app]. do 2 f_equal; lia.
Qed.

(** C7. A dump worker runs on an authenticated session whose device
    holds the whole dump and does not fault.  Another thread calls
    [abort_dump] while turn [k] of the copy loop is under way, with data
    still to copy ([k] chunks are on file by then).  Then the worker
    terminates: the progress check of turn [k] raises, so the file ends
    with the chunks of turns 0 to [k], at most one chunk of 1 MiB more
    than when the abort was requested; the last event is DUMP_ERROR "Dump
    aborted by user", and the controller is left AUTHENTICATED. *)
Theorem C7_abort_dump (w : World) (c : MIGController.t) (m : MIGFlash.t) (med : Medium)
    (h : XCIHeader) (filename : string) (trimmed : bool) (dump_size : Z)
    (k fuel : nat) (rest : list Interference) :
  MIGController._mig c = Some m ->
  MIGFlash.cart_authenticated m = true ->
  MIGFlash._xci_header m = Some h ->
  medium_of m = Some med ->
  no_faults med ->
  dump_size = (if trimmed then valid_data_end h * 512 else cart_size_bytes h) ->
  XCI_DATA_OFFSET + dump_size <= med_size med ->
  w_sched w = (replicate k NoCall ++ AbortDumpCalled :: rest)%list ->
  Z.of_nat k * MIGFlash.chunk_size < dump_size ->
  (k < fuel)%nat ->
  exists w' c' data,
    MIGController.dump_worker fuel filename trimmed (w, c) = (Ok (Some tt), (w', c'))
    /\ MIGController._state c' = ST_AUTHENTICATED
    /\ (MIGController._event_callback c = true ->
        last (w_events w')
        = Some (mkEvent DUMP_ERROR ST_AUTHENTICATED (Text "Dump aborted by user") 0 0 None))
    /\ w_fs w' !! filename = Some data
    /\ data = med_bytes med XCI_DATA_OFFSET
                (Z.to_nat (Z.min dump_size ((Z.of_nat k + 1) * MIGFlash.chunk_size)))
    /\ Z.of_nat k * MIGFlash.chunk_size <= Z.of_nat (length data)
       <= Z.of_nat k * MIGFlash.chunk_size + MIGFlash.chunk_size.
Proof.
  intros Hm Hauth Hh Hmed Hnf Hsize Hfit Hsched Hmid Hfuel.
  unfold MIGController.dump_worker.
  unfold bind at 1, modify at 1. cbn [fst snd].
  unfold bind at 1, MIGController._set_state at 1, modify at 1. cbn [fst snd].
  set (c1 := MIGController.set_state ST_DUMPING (MIGController.set_abort_flag false c)).
  unfold bind at 1, MIGController.on_mig at 1.
  change (MIGController._mig c1) with (MIGController._mig c). rewrite Hm.
  rewrite (get_xci_size_authenticated w m h Hauth Hh). rewrite <- Hsize.
  set (c2 := MIGController.set_mig (Some m) c1).
  unfold bind at 1. rewrite emit_event_eq.
  set (w1 := emitted _ _ _ _ _ w c2).
  unfold bind at 1, zoom at 1. cbn [fst snd].
  destruct (time_time_frame w1) as (start & w2 & -> & Hfs2 & Hsch2 & _).
  unfold zoom at 1. cbn [fst snd].
  destruct (ctl_dump_xci_abort w2 c2 (MIGController.mkDumpLocals start start) m med h
              filename trimmed dump_size k fuel rest)
    as (w3 & m3 & l3 & Hrun & Hfile);
    [reflexivity|reflexivity|exact Hauth|exact Hh|exact Hmed|exact Hnf|exact Hsize
    |exact Hfit
    |rewrite Hsch2; subst w1; now destruct (emitted_frame DUMP_STARTED
         (DumpingGB dump_size) 0 dump_size None w c2) as [_ ->]
    |exact Hmid|exact Hfuel|].
  unfold try_except, bind at 1. rewrite Hrun.
  cbn [is_interrupted].
  unfold bind at 1, MIGController.in_ctl at 1, zoom at 1, MIGController._set_state at 1,
    modify at 1. cbn [fst snd].
  unfold bind at 1, MIGController.in_ctl at 1, zoom at 1. cbn [fst snd].
  rewrite emit_event_eq. cbn [fst snd]. unfold ret.
  eexists _, _, _. split; [reflexivity|]. cbn [fst snd].
  split; [reflexivity|]. split.
  { intros Hcb. now rewrite last_emitted. }
  split.
  { match goal with
    | |- w_fs (emitted ?a ?b ?d ?e ?f ?x ?y) !! _ = _ =>
        destruct (emitted_frame a b d e f x y) as [-> _]
    end. exact Hfile. }
  split; [reflexivity|].
  rewrite length_med_bytes. change MIGFlash.chunk_size with 1048576 in *. lia.
Qed.

Lemma C7_witness :
  exists w' c' data,
    MIGController.dump_worker 3 "game.xci" true (abort_world, dumping_controller)
    = (Ok (Some tt), (w', c'))
    /\ MIGController._state c' = ST_AUTHENTICATED
    /\ last (w_events w')
       = Some (mkEvent DUMP_ERROR ST_AUTHENTICATED (Text "Dump aborted by user") 0 0 None)
    /\ w_fs w' !! "game.xci" = Some data
    /\ 2 * MIGFlash.chunk_size <= Z.of_nat (length data) <= 3 * MIGFlash.chunk_size.
Proof.
  destruct (C7_abort_dump abort_world dumping_controller
              (authenticated_session (demo_medium 2000000 0xE2))
              (demo_medium 2000000 0xE2) demo_xci "game.xci" true 1024000000 2 3 [])
    as (w' & c' & data & Hrun & Hst & Hev & Hfile & _ & Hlen).
  - reflexivity.
  - vm_compute. reflexivity.
  - vm_compute. reflexivity.
  - reflexivity.
  - intros off sz. reflexivity.
  - vm_compute. reflexivity.
  - vm_compute. discriminate.
  - reflexivity.
  - vm_compute. reflexivity.
  - lia.
  - exists w', c', data. split; [exact Hrun|]. split; [exact Hst|].
    split; [exact (Hev eq_refl)|]. split; [exact Hfile|].
    change MIGFlash.chunk_size with 1048576 in *. lia.
Defined.

(** ** Runs on concrete devices *)

(** What a run leaves behind: the outcome, the size of the destination
    file and the calls of the recording callback. *)
Lemma dump_small_cartridge :
  let r := MIGFlash.dump_xci 2 "out.xci" true (Some record_progress)
             (world0 Linux, session_on (demo_medium 3 0xE2), []) in
  r.1 = Ok (Some true)
  /\ length <$> (w_fs r.2.1.1 !! "out.xci") = Some 1536%nat
  /\ r.2.2 = [(1536, 1536)]
  /\ MIGFlash.cart_authenticated r.2.1.2 = true.
Proof. vm_compute. auto. Qed.

(** A device shorter than the used size it declares: the reads at its
    end return nothing, the offset no longer advances, and the loop is
    still running when the fuel is spent. *)
Lemma dump_short_medium_runs_on :
  let med := mkMedium (XCI_DATA_OFFSET + 100) (demo_byte 3 0xE2) (fun _ _ => false) false in
  let r := MIGFlash.dump_xci 50 "out.xci" true (Some record_progress)
             (world0 Linux, session_on med, []) in
  r.1 = Ok None
  /\ length <$> (w_fs r.2.1.1 !! "out.xci") = Some 100%nat
  /\ last r.2.2 = Some (100, 1536).
Proof. vm_compute. auto. Qed.

(** The release calls of [close(); close()] on either kind of platform. *)
Lemma close_twice_calls :
  w_os ((BlockDevice.close ;; BlockDevice.close)
          (world0 Linux, device_on blank_medium)).2.1
  = [FileClose "/dev/sdb"]
  /\ w_os ((BlockDevice.close ;; BlockDevice.close)
             (world0 Windows, device_on blank_medium)).2.1
     = [FSCTL_UNLOCK_VOLUME "/dev/sdb"; CloseHandle "/dev/sdb"].
Proof. vm_compute. auto. Qed.

(** A dump of one chunk during which [abort_dump] is called, and the same
    dump left alone. *)
Lemma dump_worker_runs :
  let c := controller_on (authenticated_session (demo_medium 3 0xE2)) ST_AUTHENTICATED in
  let aborted := MIGController.dump_worker 5 "out.xci" true
                   (mkWorld Linux ∅ [] [] [] [0; 50; 200] [AbortDumpCalled], c) in
  let complete := MIGController.dump_worker 5 "out.xci" true
                    (mkWorld Linux ∅ [] [] [] [0; 150; 200] [], c) in
  event <$> w_events aborted.2.1 = [DUMP_STARTED; DUMP_ERROR]
  /\ MIGController._state aborted.2.2 = ST_AUTHENTICATED
  /\ event <$> w_events complete.2.1 = [DUMP_STARTED; DUMP_PROGRESS; DUMP_COMPLETE]
  /\ MIGController._state complete.2.2 = ST_AUTHENTICATED.
Proof. vm_compute. auto. Qed.

(** * Further properties of the two modules *)

(** ** Sectors *)

Lemma med_bytes_lookup (med : Medium) (n : nat) :
  forall (pos : Z) (i : nat),
    (i < n)%nat -> med_bytes med pos n !! i = Some (med_byte med (pos + Z.of_nat i)).
Proof.
  induction n as [|n IH]; intros pos i Hi; [lia|].
  destruct i as [|i]; cbn [med_bytes].
  - cbn. do 2 f_equal. lia.
  - rewrite lookup_cons_ne_0 by lia. cbn [Nat.pred]. rewrite IH by lia.
    do 2 f_equal. lia.
Qed.

(** Reading back what was stored. *)
Lemma med_bytes_store (med : Medium) (pos : Z) (data : bytes) :
  med_bytes (med_store med pos data) pos (length data) = data.
Proof.
  apply list_eq. intros i.
  destruct (decide (i < length data)%nat) as [Hi|Hi].
  - rewrite med_bytes_lookup by exact Hi. cbn [med_store med_byte].
    rewrite decide_True by lia.
    replace (Z.to_nat (pos + Z.of_nat i - pos)) with i by lia.
    destruct (lookup_lt_is_Some_2 data i Hi) as [b Hb]. now rewrite Hb.
  - rewrite !lookup_ge_None_2; [reflexivity|lia|rewrite length_med_bytes; lia].
Qed.

(** X1. A sector written with [write_sector] is what [read_sector]
    returns for it: for a sector inside the medium, where the transfers
    do not fail, writing 512 bytes and reading the sector back gives the
    same 512 bytes.  Data of any other length is refused with a
    [ValueError] before the device is touched. *)
Theorem X1_sector_round_trip (w : World) (bd : BlockDevice.t) (h : Handle)
    (sector : Z) (data : bytes) :
  BlockDevice.handle bd = Some h ->
  0 <= sector ->
  sector * 512 + 512 <= med_size (h_medium h) ->
  med_fault (h_medium h) (sector * 512) 512 = false ->
  (length data = 512%nat ->
   ((BlockDeviceRW.write_sector sector data ;; BlockDeviceRW.read_sector sector) (w, bd)).1
   = Ok data)
  /\ (length data <> 512%nat ->
      BlockDeviceRW.write_sector sector data (w, bd)
      = (Raise (ValueError "Sector data must be 512 bytes"), (w, bd))).
Proof.
  intros Hh Hsec Hfit Hnf. split.
  - intros Hlen.
    destruct bd as [pth hd op]. cbn in Hh. subst hd. destruct h as [med ps]. cbn in *.
    unfold BlockDeviceRW.write_sector, BlockDeviceRW.read_sector, SECTOR_SIZE.
    rewrite decide_False by lia.
    unfold bind, BlockDevice.seek, BlockDeviceRW.write, BlockDevice.read. cbn.
    rewrite decide_False by lia. cbn. rewrite Hlen.
    change (Z.of_nat 512) with 512. rewrite Hnf.
    rewrite decide_False by lia. cbn.
    rewrite decide_False by lia. cbn. rewrite Hnf. cbn.
    f_equal. unfold read_data. cbn [med_size med_store].
    rewrite decide_False by lia.
    rewrite take_ge by lia.
    replace (Z.to_nat (Z.min 512 (med_size med - sector * 512))) with (length data) by lia.
    apply med_bytes_store.
  - intros Hlen. unfold BlockDeviceRW.write_sector, SECTOR_SIZE.
    rewrite decide_True by lia. reflexivity.
Qed.

Lemma X1_witness :
  ((BlockDeviceRW.write_sector 3 (sector_of "A") ;; BlockDeviceRW.read_sector 3)
     (world0 Linux, device_on blank_medium)).1
  = Ok (sector_of "A").
Proof.
  apply (proj1 (X1_sector_round_trip (world0 Linux) (device_on blank_medium)
                  (mkHandle blank_medium 0) 3 (sector_of "A")
                  eq_refl ltac:(lia) ltac:(vm_compute; discriminate) eq_refl)).
  reflexivity.
Defined.

(** ** When [authenticate] succeeds *)

Lemma presence_tag_of_header (med : Medium) :
  XCI_HEADER_OFFSET + 0x200 <= med_size med ->
  read_data med XCI_HEADER_OFFSET 4 = slice 0 4 (header_region med).
Proof.
  intros Hfit. unfold header_region, XCI_HEADER_SIZE.
  rewrite !read_data_full by lia.
  change (Z.to_nat 512) with (4 + 508)%nat. rewrite med_bytes_app.
  unfold slice. rewrite drop_0. change (Z.to_nat 4) with 4%nat.
  change (4 - 0)%nat with 4%nat.
  now rewrite take_app_length' by (symmetry; apply length_med_bytes).
Qed.

(** X2. On a connected device that does not fault and holds the whole
    header region, [authenticate] returns [True] exactly when the region
    carries [b'HEAD'] both at its first four bytes (the presence check of
    [cart_inserted]) and at offset 0x100 (the magic of the header).
    Without the first it raises "No cartridge inserted"; with the first
    but not the second it returns [False]. *)
Theorem X2_authenticate_iff (w : World) (m : MIGFlash.t) (med : Medium) :
  MIGFlash._connected m = true ->
  medium_of m = Some med ->
  no_faults med ->
  XCI_HEADER_OFFSET + 0x200 <= med_size med ->
  ((MIGFlash.authenticate (w, m)).1 = Ok true
   <-> slice 0 4 (header_region med) = HEAD
       /\ slice 0x100 0x104 (header_region med) = HEAD)
  /\ (slice 0 4 (header_region med) <> HEAD ->
      (MIGFlash.authenticate (w, m)).1 = Raise (RuntimeError "No cartridge inserted"))
  /\ (slice 0 4 (header_region med) = HEAD ->
      slice 0x100 0x104 (header_region med) <> HEAD ->
      (MIGFlash.authenticate (w, m)).1 = Ok false).
Proof.
  intros Hc Hmed Hnf Hfit.
  assert (H0 : 0 <= XCI_HEADER_OFFSET) by (vm_compute; discriminate).
  assert (Hlen : (0x200 <= length (header_region med))%nat).
  { unfold header_region, XCI_HEADER_SIZE. rewrite read_data_full by lia.
    rewrite length_med_bytes. vm_compute. lia. }
  destruct (from_bytes_ok _ Hlen) as (h & Hh & Hmagic & _).
  assert (Hrun : MIGFlash.authenticate (w, m) =
            if bool_decide (slice 0 4 (header_region med) = HEAD)
            then (if is_valid h then Ok true else Ok false,
                  (MIGFlash.authenticate (w, m)).2)
            else (Raise (RuntimeError "No cartridge inserted"),
                  (MIGFlash.authenticate (w, m)).2)).
  { rewrite authenticate_unfold, Hc, cart_inserted_unfold, Hc.
    rewrite (on_device_read_at w m med) by assumption.
    rewrite Hnf, (presence_tag_of_header med Hfit).
    destruct (bool_decide (slice 0 4 (header_region med) = HEAD)); [|reflexivity].
    rewrite (on_device_read_at w _ med) by (rewrite ?medium_of_at_pos; assumption).
    rewrite Hnf. fold (header_region med). rewrite Hh.
    destruct (is_valid h); reflexivity. }
  assert (Hv : is_valid h = bool_decide (slice 0x100 0x104 (header_region med) = HEAD)).
  { unfold is_valid. now rewrite Hmagic. }
  rewrite Hrun, Hv. clear Hrun.
  destruct (bool_decide_reflect (slice 0 4 (header_region med) = HEAD)) as [Ha|Ha];
    destruct (bool_decide_reflect (slice 0x100 0x104 (header_region med) = HEAD)) as [Hb|Hb];
    cbn [fst]; (split; [split; [intros; try discriminate; tauto|intros [? ?]; try reflexivity; tauto]|]);
    (split; [intros; try reflexivity; tauto|intros; try reflexivity; tauto]).
Qed.

Lemma X2_witness :
  (MIGFlash.authenticate (world0 Linux, session_on tagged_medium)).1 = Ok false
  /\ (MIGFlash.authenticate (world0 Linux, session_on (demo_medium 3 0xE2))).1 = Ok true.
Proof.
  split.
  - apply (X2_authenticate_iff (world0 Linux) (session_on tagged_medium) tagged_medium
             eq_refl eq_refl (fun _ _ => eq_refl) ltac:(vm_compute; discriminate)).
    + vm_compute. reflexivity.
    + vm_compute. discriminate.
  - apply (X2_authenticate_iff (world0 Linux) (session_on (demo_medium 3 0xE2))
             (demo_medium 3 0xE2)
             eq_refl eq_refl (fun _ _ => eq_refl) ltac:(vm_compute; discriminate)).
    split; vm_compute; reflexivity.
Defined.

(** ** Connecting *)

(** A method call on the device changes no other field of the session. *)
Lemma on_device_shape {A} (c : M BlockDevice.St A) (w : World) (m : MIGFlash.t) r w' m' :
  MIGFlash.on_device c (w, m) = (r, (w', m')) ->
  m' = MIGFlash.set_device (MIGFlash.device m') m.
Proof.
  unfold MIGFlash.on_device. destruct m as [[bd|] di cn fw ci xh]; cbn.
  - destruct (c (w, bd)) as [r' [w2 bd2]]. intros H. now inversion H.
  - intros H. now inversion H.
Qed.

Lemma on_device_connected {A} (c : M BlockDevice.St A) (w : World) (m : MIGFlash.t) r w' m' :
  MIGFlash.on_device c (w, m) = (r, (w', m')) ->
  MIGFlash._connected m' = MIGFlash._connected m.
Proof. intros H. apply on_device_shape in H. now rewrite H. Qed.

(** [_verify_device] never raises and changes nothing but the device. *)
Lemma verify_device_frame (w : World) (m : MIGFlash.t) :
  exists b w' m',
    MIGFlashConnect._verify_device (w, m) = (Ok b, (w', m'))
    /\ MIGFlash._connected m' = MIGFlash._connected m.
Proof.
  unfold MIGFlashConnect._verify_device, try_except, bind, ret.
  destruct (MIGFlash.on_device _ (w, m)) as [[data|e] [w1 m1]] eqn:E;
    apply on_device_connected in E; eauto.
Qed.

(** [_read_firmware_version] never raises; it sets the version and
    changes nothing else but the device. *)
Lemma read_firmware_version_frame (w : World) (m : MIGFlash.t) :
  exists w' m' v,
    MIGFlashConnect._read_firmware_version (w, m) = (Ok tt, (w', m'))
    /\ MIGFlash._connected m' = MIGFlash._connected m
    /\ MIGFlash._firmware_version m' = Some v.
Proof.
  unfold MIGFlashConnect._read_firmware_version, try_except, bind, modify,
    MIGFlash.lift_res.
  destruct (MIGFlash.on_device _ (w, m)) as [[data|e] [w1 m1]] eqn:E;
    apply on_device_connected in E.
  - destruct (MIGFlashConnect.decode_ascii _) as [v|e]; cbn;
      eexists _, _, _; (split; [reflexivity|]); cbn; auto.
  - cbn. eexists _, _, _. split; [reflexivity|]. cbn. auto.
Qed.

(** The [except] clause closes what is open and raises a
    [ConnectionError]. *)
Lemma bail_out_frame (e : exn) (w : World) (m : MIGFlash.t) :
  exists w' m',
    bail_out e (w, m) = (Raise (ConnectionError ("Failed to connect: " ++ str_exn e)), (w', m'))
    /\ MIGFlash._connected m' = MIGFlash._connected m.
Proof.
  unfold bail_out, bind, gets, raise, try_except, ret. cbn [fst snd].
  destruct (MIGFlash.device m) as [bd|]; [|eauto].
  destruct (MIGFlash.on_device BlockDevice.close (w, m)) as [[[]|e'] [w1 m1]] eqn:E;
    apply on_device_connected in E; eauto.
Qed.

(** [connect], one decision at a time. *)
Lemma connect_unfold (devices : gmap string Medium) (found : list MIGDeviceInfo)
    (device_path : option string) (w : World) (m : MIGFlash.t) :
  MIGFlashConnect.connect devices found device_path (w, m) =
    let s0 := if MIGFlash._connected m then (MIGFlash.disconnect (w, m)).2 else (w, m) in
    match chosen found device_path with
    | None => (Raise (ConnectionError "No MIG-Flash device found"), s0)
    | Some d =>
        let s1 := (s0.1, MIGFlash.set_device (Some (BlockDeviceRW.new (path d)))
                           (MIGFlashConnect.set_device_info (Some d) s0.2)) in
        match MIGFlash.on_device (BlockDeviceRW.open devices) s1 with
        | (Ok _, s2) =>
            match MIGFlashConnect._verify_device s2 with
            | (Ok true, s3) =>
                (Ok true,
                 (MIGFlashConnect._read_firmware_version
                    (s3.1, MIGFlashConnect.set_connected true s3.2)).2)
            | (Ok false, s3) =>
                match MIGFlash.on_device BlockDevice.close s3 with
                | (Ok _, s4) =>
                    bail_out (ConnectionError "Device is not a valid MIG-Flash") s4
                | (Raise e, s4) => bail_out e s4
                end
            | (Raise e, s3) => bail_out e s3
            end
        | (Raise e, s2) => bail_out e s2
        end
    end.
Proof.
  unfold MIGFlashConnect.connect. unfold bind at 1, gets at 1. cbn [snd].
  assert (Hs0 : forall k : unit -> M MIGFlash.St bool,
             bind (if MIGFlash._connected m then MIGFlash.disconnect else ret tt) k (w, m)
             = k tt (if MIGFlash._connected m
                     then (MIGFlash.disconnect (w, m)).2 else (w, m))).
  { intros k. unfold bind. destruct (MIGFlash._connected m); [|reflexivity].
    destruct (disconnect_result w m) as [w0 ->]. reflexivity. }
  rewrite Hs0. cbv zeta.
  set (s0 := if MIGFlash._connected m then _ else _). destruct s0 as [w0 m0].
  unfold chosen.
  assert (Htry : forall d : MIGDeviceInfo,
    try_except
      (let* info := gets (fun s : MIGFlash.St => MIGFlash.device_info s.2) in
       match info with
       | None => raise BlockDevice.no_handle
       | Some d =>
           modify (fun s : MIGFlash.St =>
             (s.1, MIGFlash.set_device (Some (BlockDeviceRW.new (path d))) s.2)) ;;
           MIGFlash.on_device (BlockDeviceRW.open devices) ;;
           let* ok := MIGFlashConnect._verify_device in
           if negb ok then
             MIGFlash.on_device BlockDevice.close ;;
             raise (ConnectionError "Device is not a valid MIG-Flash")
           else
             modify (fun s : MIGFlash.St => (s.1, MIGFlashConnect.set_connected true s.2)) ;;
             MIGFlashConnect._read_firmware_version ;;
             ret true
       end) bail_out (w0, MIGFlashConnect.set_device_info (Some d) m0)
    = match MIGFlash.on_device (BlockDeviceRW.open devices)
              (w0, MIGFlash.set_device (Some (BlockDeviceRW.new (path d)))
                     (MIGFlashConnect.set_device_info (Some d) m0)) with
      | (Ok _, s2) =>
          match MIGFlashConnect._verify_device s2 with
          | (Ok true, s3) =>
              (Ok true,
               (MIGFlashConnect._read_firmware_version
                  (s3.1, MIGFlashConnect.set_connected true s3.2)).2)
          | (Ok false, s3) =>
              match MIGFlash.on_device BlockDevice.close s3 with
              | (Ok _, s4) =>
                  bail_out (ConnectionError "Device is not a valid MIG-Flash") s4
              | (Raise e, s4) => bail_out e s4
              end
          | (Raise e, s3) => bail_out e s3
          end
      | (Raise e, s2) => bail_out e s2
      end).
  { intros d. unfold try_except. unfold bind at 1, gets at 1. cbn [fst snd].
    cbn [MIGFlash.device_info MIGFlashConnect.set_device_info].
    unfold bind at 1, modify at 1. cbn [fst snd].
    unfold bind at 1.
    destruct (MIGFlash.on_device (BlockDeviceRW.open devices) _) as [[[]|e] s2];
      [|reflexivity].
    unfold bind at 1.
    destruct (MIGFlashConnect._verify_device s2) as [[[|]|e] s3]; cbn [negb];
      [| |reflexivity].
    - unfold bind at 1, modify at 1. unfold bind at 1.
      destruct (read_firmware_version_frame s3.1 (MIGFlashConnect.set_connected true s3.2))
        as (w4 & m4 & v & -> & _). reflexivity.
    - unfold bind at 1.
      destruct (MIGFlash.on_device BlockDevice.close s3) as [[[]|e] s4]; reflexivity. }
  destruct device_path as [p|].
  - destruct (decide (p = "")).
    + destruct found as [|d rest]; [reflexivity|].
      unfold bind at 1, modify at 1. cbn [fst snd head]. apply Htry.
    + unfold bind at 1, modify at 1. cbn [fst snd]. apply Htry.
  - destruct found as [|d rest]; [reflexivity|].
    unfold bind at 1, modify at 1. cbn [fst snd head]. apply Htry.
Qed.

(** X3. [connect] has two outcomes only.  Either it returns [True], and
    the session is connected and has a firmware version that
    [firmware_version] reports as a non-empty string; or it raises a
    [ConnectionError], whatever went wrong underneath, and the session is
    not connected. *)
Theorem X3_connect_outcome (devices : gmap string Medium) (found : list MIGDeviceInfo)
    (device_path : option string) (w : World) (m : MIGFlash.t) :
  match MIGFlashConnect.connect devices found device_path (w, m) with
  | (Ok b, (w', m')) =>
      b = true
      /\ MIGFlash._connected m' = true
      /\ is_Some (MIGFlash._firmware_version m')
      /\ MIGFlashConnect.firmware_version m' <> ""
  | (Raise e, (w', m')) =>
      (exists msg, e = ConnectionError msg)
      /\ MIGFlash._connected m' = false
  end.
Proof.
  rewrite connect_unfold. cbv zeta.
  set (s0 := if MIGFlash._connected m then _ else _).
  assert (H0 : MIGFlash._connected s0.2 = false).
  { subst s0. destruct (MIGFlash._connected m) eqn:Hc; [|exact Hc].
    destruct (disconnect_result w m) as [w0 ->]. reflexivity. }
  destruct s0 as [w0 m0]. cbn [fst snd] in *.
  destruct (chosen found device_path) as [d|]; [|eauto].
  destruct (MIGFlash.on_device (BlockDeviceRW.open devices) _) as [[[]|e] [w2 m2]] eqn:E2;
    apply on_device_connected in E2; cbn in E2.
  2:{ destruct (bail_out_frame e w2 m2) as (w' & m' & -> & Hc). split; [eauto|congruence]. }
  destruct (verify_device_frame w2 m2) as (b & w3 & m3 & -> & Hc3).
  destruct b; cbn [fst snd].
  - destruct (read_firmware_version_frame w3 (MIGFlashConnect.set_connected true m3))
      as (w4 & m4 & v & -> & Hc4 & Hv). cbn [fst snd].
    split; [reflexivity|]. split; [exact Hc4|]. split; [rewrite Hv; eauto|].
    unfold MIGFlashConnect.firmware_version. rewrite Hv.
    destruct (decide (v = "")); [discriminate|assumption].
  - destruct (MIGFlash.on_device BlockDevice.close (w3, m3)) as [[[]|e] [w4 m4]] eqn:E4;
      apply on_device_connected in E4;
      match goal with
      | |- context [bail_out ?x _] =>
          destruct (bail_out_frame x w4 m4) as (w' & m' & -> & Hc)
      end; (split; [eauto|congruence]).
Qed.

(** [close] on an open device whose handle can be released. *)
Lemma close_open (w : World) (bd : BlockDevice.t) (h : Handle) :
  BlockDevice.handle bd = Some h ->
  BlockDevice._opened bd = true ->
  med_close_fault (h_medium h) = false ->
  exists w',
    BlockDevice.close (w, bd)
    = (Ok tt, (w', BlockDevice.mk (BlockDevice.device_path bd) None false))
    /\ w_os w' = (w_os w ++ release_calls (w_platform w) (BlockDevice.device_path bd))%list
    /\ w_platform w' = w_platform w
    /\ w_fs w' = w_fs w
    /\ w_events w' = w_events w.
Proof.
  intros Hh Hop Hcf.
  destruct bd as [pth hd op], w as [[| |] fs os evs ths clk sch]; cbn in *; subst hd op;
    unfold BlockDevice.close, bind, gets, modify, try_except, ret, is_windows,
      BlockDevice.unlock_volume, BlockDevice.release_handle;
    cbn; rewrite Hcf; cbn; eexists; (split; [reflexivity|]); cbn;
    rewrite <- ?app_assoc; auto.
Qed.

Lemma verify_device_eq (w : World) (m : MIGFlash.t) (med : Medium) :
  medium_of m = Some med ->
  exists p,
    MIGFlashConnect._verify_device (w, m) = (Ok (has_signature med), (w, at_pos p m)).
Proof.
  intros Hmed. unfold MIGFlashConnect._verify_device, try_except, bind, ret, has_signature.
  rewrite (on_device_read_at w m med) by (assumption || (vm_compute; discriminate)).
  destruct (med_fault med GPT_PARTITION_OFFSET 512); cbn; eauto.
Qed.

Lemma read_firmware_version_eq (w : World) (m : MIGFlash.t) (med : Medium) :
  medium_of m = Some med ->
  exists p,
    MIGFlashConnect._read_firmware_version (w, m)
    = (Ok tt, (w, MIGFlashConnect.set_firmware_version (Some (firmware_of med)) (at_pos p m))).
Proof.
  intros Hmed.
  unfold MIGFlashConnect._read_firmware_version, try_except, bind, modify,
    MIGFlash.lift_res, firmware_of.
  rewrite (on_device_read_at w m med) by (assumption || (vm_compute; discriminate)).
  destruct (med_fault med FIRMWARE_OFFSET FIRMWARE_VERSION_LEN); cbn; [eauto|].
  destruct (MIGFlashConnect.decode_ascii _); cbn; eauto.
Qed.

Lemma on_device_close_open (w : World) (m : MIGFlash.t) (bd : BlockDevice.t) (h : Handle) :
  MIGFlash.device m = Some bd ->
  BlockDevice.handle bd = Some h ->
  BlockDevice._opened bd = true ->
  med_close_fault (h_medium h) = false ->
  exists w',
    MIGFlash.on_device BlockDevice.close (w, m)
    = (Ok tt, (w', MIGFlash.set_device
                     (Some (BlockDevice.mk (BlockDevice.device_path bd) None false)) m))
    /\ w_os w' = (w_os w ++ release_calls (w_platform w) (BlockDevice.device_path bd))%list
    /\ w_events w' = w_events w.
Proof.
  intros Hd Hh Hop Hcf.
  destruct (close_open w bd h Hh Hop Hcf) as (w' & Hclose & Hos & _ & _ & Hev).
  exists w'. unfold MIGFlash.on_device. rewrite Hd, Hclose. auto.
Qed.

(** X4. [connect] refuses a device that does not carry the partition
    signature of a MIG-Flash, or whose signature cannot be read: it
    raises [ConnectionError], the session is left not connected, and the
    handle it had opened is released exactly once (the [except] clause
    closes again what the check had already closed, to no effect). *)
Theorem X4_connect_refuses_other_devices (devices : gmap string Medium)
    (found : list MIGDeviceInfo) (device_path : option string)
    (w : World) (m : MIGFlash.t) (d : MIGDeviceInfo) (med : Medium) :
  MIGFlash._connected m = false ->
  chosen found device_path = Some d ->
  devices !! path d = Some med ->
  has_signature med = false ->
  med_close_fault med = false ->
  exists w' m',
    MIGFlashConnect.connect devices found device_path (w, m)
    = (Raise (ConnectionError "Failed to connect: Device is not a valid MIG-Flash"),
       (w', m'))
    /\ w_os w' = (w_os w ++ release_calls (w_platform w) (path d))%list
    /\ MIGFlash._connected m' = false
    /\ MIGFlash.device m' = Some (BlockDevice.mk (path d) None false).
Proof.
  intros Hc Hd Hdev Hsig Hcf.
  rewrite connect_unfold, Hc, Hd. cbv zeta. cbn [fst snd].
  unfold MIGFlash.on_device at 1, BlockDeviceRW.open, BlockDeviceRW.os_open,
    BlockDeviceRW.new, bind, gets, modify.
  cbn [MIGFlash.device MIGFlash.set_device fst snd BlockDevice._opened
       BlockDevice.device_path BlockDevice.handle].
  rewrite Hdev. cbn [fst snd BlockDevice._opened BlockDevice.device_path BlockDevice.handle].
  match goal with
  | |- context [MIGFlashConnect._verify_device (?w1, ?m1)] =>
      destruct (verify_device_eq w1 m1 med eq_refl) as [p ->]
  end.
  rewrite Hsig.
  match goal with
  | |- context [MIGFlash.on_device BlockDevice.close (?w1, ?m1)] =>
      destruct (on_device_close_open w1 m1
                  (BlockDevice.mk (path d) (Some (mkHandle med p)) true)
                  (mkHandle med p) eq_refl eq_refl eq_refl Hcf)
        as (w' & -> & Hos & _)
  end.
  unfold bail_out, bind, gets, raise, try_except, ret. cbn [fst snd].
  cbn [MIGFlash.device MIGFlash.set_device BlockDevice.device_path].
  unfold MIGFlash.on_device.
  cbn [MIGFlash.device MIGFlash.set_device BlockDevice.device_path].
  rewrite close_closed by reflexivity.
  eexists _, _. split; [reflexivity|]. cbn. rewrite Hos, Hc. auto.
Qed.

Lemma X4_witness :
  exists w' m',
    MIGFlashConnect.connect demo_devices demo_found (Some "/dev/sdc")
      (world0 Windows, MIGFlashConnect.new)
    = (Raise (ConnectionError "Failed to connect: Device is not a valid MIG-Flash"),
       (w', m'))
    /\ w_os w' = [FSCTL_UNLOCK_VOLUME "/dev/sdc"; CloseHandle "/dev/sdc"]
    /\ MIGFlash._connected m' = false.
Proof.
  destruct (X4_connect_refuses_other_devices demo_devices demo_found (Some "/dev/sdc")
              (world0 Windows) MIGFlashConnect.new
              (mkMIGDeviceInfo "/dev/sdc" "" true "" "") blank_medium
              eq_refl eq_refl eq_refl ltac:(vm_compute; reflexivity) eq_refl)
    as (w' & m' & Hrun & Hos & Hc & _).
  exists w', m'. split; [exact Hrun|]. split; [exact Hos|exact Hc].
Defined.

(** X5. [connect] accepts a device that carries the signature: on a
    session that was not connected it returns [True] without any release
    call, the session is connected to that device and holds the firmware
    version read from it.  If the handle can be released, [disconnect]
    then releases it exactly once and resets the session, keeping only
    the device information. *)
Theorem X5_connect_then_disconnect (devices : gmap string Medium)
    (found : list MIGDeviceInfo) (device_path : option string)
    (w : World) (m : MIGFlash.t) (d : MIGDeviceInfo) (med : Medium) :
  MIGFlash._connected m = false ->
  chosen found device_path = Some d ->
  devices !! path d = Some med ->
  has_signature med = true ->
  exists m',
    MIGFlashConnect.connect devices found device_path (w, m) = (Ok true, (w, m'))
    /\ MIGFlash._connected m' = true
    /\ medium_of m' = Some med
    /\ MIGFlash.device_info m' = Some d
    /\ MIGFlash._firmware_version m' = Some (firmware_of med)
    /\ (med_close_fault med = false ->
        exists w'',
          MIGFlash.disconnect (w, m')
          = (Ok tt, (w'', MIGFlash.mk None (Some d) false None None None))
          /\ w_os w'' = (w_os w ++ release_calls (w_platform w) (path d))%list).
Proof.
  intros Hc Hd Hdev Hsig.
  rewrite connect_unfold, Hc, Hd. cbv zeta. cbn [fst snd].
  unfold MIGFlash.on_device at 1, BlockDeviceRW.open, BlockDeviceRW.os_open,
    BlockDeviceRW.new, bind, gets, modify.
  cbn [MIGFlash.device MIGFlash.set_device fst snd BlockDevice._opened
       BlockDevice.device_path BlockDevice.handle].
  rewrite Hdev. cbn [fst snd BlockDevice._opened BlockDevice.device_path BlockDevice.handle].
  match goal with
  | |- context [MIGFlashConnect._verify_device (?w1, ?m1)] =>
      destruct (verify_device_eq w1 m1 med eq_refl) as [p ->]
  end.
  rewrite Hsig. cbn [fst snd].
  match goal with
  | |- context [MIGFlashConnect._read_firmware_version (?w1, ?m1)] =>
      destruct (read_firmware_version_eq w1 m1 med eq_refl) as [q ->]
  end.
  cbn [fst snd]. eexists. split; [reflexivity|].
  split; [reflexivity|]. split; [reflexivity|]. split; [reflexivity|].
  split; [reflexivity|].
  intros Hcf.
  unfold MIGFlash.disconnect, bind, gets, modify, try_except, ret. cbn [fst snd].
  cbn [MIGFlash.device MIGFlashConnect.set_firmware_version at_pos MIGFlash.set_device
       MIGFlashConnect.set_connected BlockDevice.handle].
  match goal with
  | |- context [MIGFlash.on_device BlockDevice.close (?w1, ?m1)] =>
      destruct (on_device_close_open w1 m1
                  (BlockDevice.mk (path d) (Some (mkHandle med q)) true)
                  (mkHandle med q) eq_refl eq_refl eq_refl Hcf)
        as (w' & -> & Hos & _)
  end.
  cbn. eauto.
Qed.

Lemma X5_witness :
  exists m' w'',
    MIGFlashConnect.connect demo_devices demo_found None (world0 Linux, MIGFlashConnect.new)
    = (Ok true, (world0 Linux, m'))
    /\ MIGFlash._firmware_version m' = Some "1.1.2"
    /\ (MIGFlash.disconnect (world0 Linux, m')).2.1 = w''
    /\ w_os w'' = [FileClose "/dev/sdb"].
Proof.
  destruct (X5_connect_then_disconnect demo_devices demo_found None
              (world0 Linux) MIGFlashConnect.new
              (mkMIGDeviceInfo "/dev/sdb" "MIG" true "" "") mig_medium
              eq_refl eq_refl eq_refl ltac:(vm_compute; reflexivity))
    as (m' & Hrun & _ & _ & _ & Hfw & Hdis).
  destruct (Hdis eq_refl) as (w'' & Hd & Hos).
  exists m', w''. split; [exact Hrun|]. split.
  - rewrite Hfw. vm_compute. reflexivity.
  - split; [now rewrite Hd|exact Hos].
Defined.

(** ** The firmware version *)






(** ** The context manager *)

(** X7. [with connect_mig(...) as mig: body]: if [connect] raises, the
    body is not run and that error is the outcome.  Otherwise the outcome
    is the body's, returned or raised, and whatever the body did the
    session ends disconnected, with no device, no firmware version and
    no cartridge data; if the body left the device open, its handle is
    released then. *)
Theorem X7_with_connect_mig {A : Type} (devices : gmap string Medium)
    (found : list MIGDeviceInfo) (device_path : option string)
    (body : M MIGFlash.St A) (w : World) (m : MIGFlash.t) :
  match MIGFlashConnect.connect devices found device_path (w, m) with
  | (Raise e, s1) =>
      MIGFlashConnect.with_connect_mig devices found device_path body (w, m) = (Raise e, s1)
  | (Ok _, s1) =>
      exists w3,
        MIGFlashConnect.with_connect_mig devices found device_path body (w, m)
        = ((body s1).1,
           (w3, MIGFlash.mk None (MIGFlash.device_info (body s1).2.2) false None None None))
        /\ (forall bd h,
              MIGFlash.device (body s1).2.2 = Some bd ->
              BlockDevice.handle bd = Some h ->
              BlockDevice._opened bd = true ->
              med_close_fault (h_medium h) = false ->
              w_os w3 = (w_os (body s1).2.1
                         ++ release_calls (w_platform (body s1).2.1)
                              (BlockDevice.device_path bd))%list)
  end.
Proof.
  unfold MIGFlashConnect.with_connect_mig, bind.
  destruct (MIGFlashConnect.connect devices found device_path (w, m)) as [[b|e] s1];
    [|reflexivity].
  unfold finally. destruct (body s1) as [r [w2 m2]]. cbn [fst snd].
  destruct (disconnect_result w2 m2) as [w3 Hd]. rewrite Hd.
  exists w3. split; [reflexivity|].
  intros bd h Hdev Hh Hop Hcf.
  unfold MIGFlash.disconnect, bind, gets, modify, try_except, ret in Hd.
  cbn [fst snd] in Hd. rewrite Hdev in Hd.
  destruct (on_device_close_open w2 m2 bd h Hdev Hh Hop Hcf) as (w' & Hc & Hos & _).
  rewrite Hc in Hd. cbn in Hd. injection Hd as <-. exact Hos.
Qed.

(** ** The cartridge UID *)

Lemma med_bytes_slice (med : Medium) (pos : Z) (a n total : nat) :
  (a + n <= total)%nat ->
  take n (drop a (med_bytes med pos total)) = med_bytes med (pos + Z.of_nat a) n.
Proof.
  intros Hfit. apply list_eq. intros i.
  destruct (decide (i < n)%nat) as [Hi|Hi].
  - rewrite lookup_take_lt, lookup_drop, !med_bytes_lookup by lia.
    do 2 f_equal. lia.
  - rewrite lookup_take_ge by lia. symmetry. apply lookup_ge_None_2.
    rewrite length_med_bytes. lia.
Qed.

(** X8. [read_uid] asks for a connection only, not for authentication.
    What it returns on a connected device are the 16 bytes of the header
    region from offset 0x100 on, so its first four bytes are the magic
    tag [from_bytes] reads from that header: for every valid header the
    "UID" starts with [b'HEAD']. *)
Theorem X8_read_uid (w : World) (m : MIGFlash.t) (med : Medium) :
  medium_of m = Some med ->
  no_faults med ->
  XCI_HEADER_OFFSET + 0x200 <= med_size med ->
  (MIGFlash._connected m = false ->
   MIGFlashConnect.read_uid (w, m) = (Raise (ConnectionError "Not connected"), (w, m)))
  /\ (MIGFlash._connected m = true ->
      (MIGFlashConnect.read_uid (w, m)).1 = Ok (slice 0x100 0x110 (header_region med))
      /\ forall h, from_bytes (header_region med) = Ok h ->
           take 4 (slice 0x100 0x110 (header_region med)) = magic h
           /\ (is_valid h = true -> take 4 (slice 0x100 0x110 (header_region med)) = HEAD)).
Proof.
  intros Hmed Hnf Hfit. split.
  - intros Hc. unfold MIGFlashConnect.read_uid, bind, gets. cbn [snd]. now rewrite Hc.
  - intros Hc. split.
    + unfold MIGFlashConnect.read_uid, bind, gets. cbn [snd]. rewrite Hc. cbn [negb].
      rewrite (on_device_read_at w m med) by (assumption || (vm_compute; discriminate)).
      rewrite Hnf. cbn [fst]. f_equal.
      unfold header_region, XCI_HEADER_SIZE. rewrite !read_data_full by lia.
      unfold slice. rewrite med_bytes_slice by (vm_compute; lia). reflexivity.
    + intros h Hh. apply from_bytes_magic in Hh.
      assert (Hm : take 4 (slice 0x100 0x110 (header_region med)) = magic h).
      { rewrite Hh. unfold slice. rewrite take_take. reflexivity. }
      split; [exact Hm|].
      unfold is_valid. rewrite bool_decide_eq_true. congruence.
Qed.

Lemma X8_witness :
  (MIGFlashConnect.read_uid (world0 Linux, session_on (demo_medium 3 0xE2))).1
  = Ok (slice 0x100 0x110 (header_region (demo_medium 3 0xE2)))
  /\ take 4 (slice 0x100 0x110 (header_region (demo_medium 3 0xE2))) = HEAD.
Proof.
  destruct (X8_read_uid (world0 Linux) (session_on (demo_medium 3 0xE2))
              (demo_medium 3 0xE2) eq_refl (fun _ _ => eq_refl)
              ltac:(vm_compute; discriminate)) as [_ Hc].
  destruct (Hc eq_refl) as [Hrun Hh]. split; [exact Hrun|].
  vm_compute. reflexivity.
Defined.

(** ** The copy loop, whatever the device and the callback do *)

(** One turn of the loop on any medium: the read may fail, and it may
    be short. *)
Lemma dump_loop_turn {C : Type} (fuel : nat) (filename : string) (dump_size : Z)
    (cb : option (Z -> Z -> M (World * C) unit)) (offset : Z)
    (w : World) (m : MIGFlash.t) (c : C) (med : Medium) :
  MIGFlash.cart_authenticated m = true ->
  medium_of m = Some med ->
  0 <= offset < dump_size ->
  MIGFlash.dump_loop (S fuel) filename dump_size cb offset (w, m, c) =
    let n := Z.min MIGFlash.chunk_size (dump_size - offset) in
    if med_fault med (XCI_DATA_OFFSET + offset) n
    then (Raise (OSError "Input/output error"), (w, at_pos (XCI_DATA_OFFSET + offset) m, c))
    else
      let data := read_data med (XCI_DATA_OFFSET + offset) n in
      let w1 := set_fs (fun fs => <[filename := (default [] (fs !! filename) ++ data)%list]> fs) w in
      let m1 := at_pos (XCI_DATA_OFFSET + offset + Z.of_nat (length data)) m in
      let offset' := offset + Z.of_nat (length data) in
      match cb with
      | Some f =>
          match f offset' dump_size (w1, c) with
          | (Ok _, (w2, c2)) =>
              MIGFlash.dump_loop fuel filename dump_size cb offset' (w2, m1, c2)
          | (Raise e, (w2, c2)) => (Raise e, (w2, m1, c2))
          end
      | None => MIGFlash.dump_loop fuel filename dump_size cb offset' (w1, m1, c)
      end.
Proof.
  intros Hauth Hmed Hoff.
  assert (Hbase : 0 <= XCI_DATA_OFFSET) by (vm_compute; discriminate).
  cbn [MIGFlash.dump_loop]. rewrite decide_True by lia.
  unfold bind at 1, MIGFlash.in_session at 1, zoom at 1. cbn [fst snd].
  unfold MIGFlash.read_xci, bind at 1, gets at 1. cbn [snd]. rewrite Hauth. cbn [negb].
  rewrite (on_device_read_at w m med) by (assumption || lia).
  cbv zeta. destruct (med_fault med _ _); [reflexivity|].
  unfold bind at 1, MIGFlash.in_world at 1, zoom at 1, f_write, modify. cbn [fst snd].
  destruct cb as [f|].
  - unfold bind at 1, MIGFlash.in_callback at 1, zoom at 1. cbn [fst snd].
    destruct (f _ dump_size _) as [[[]|e] [w2 c2]]; reflexivity.
  - unfold bind at 1, ret at 1. reflexivity.
Qed.

(** The loop leaves the session as it is, up to the file position. *)
Lemma dump_loop_frame {C : Type} (filename : string) (dump_size : Z)
    (cb : option (Z -> Z -> M (World * C) unit)) :
  forall (fuel : nat) (offset : Z) (w : World) (m : MIGFlash.t) (c : C) r w' m' c',
    MIGFlash.dump_loop fuel filename dump_size cb offset (w, m, c) = (r, (w', m', c')) ->
    same_session m m'.
Proof.
  induction fuel as [|fuel IH]; intros offset w m c r w' m' c'.
  { cbn. intros [= <- <- <- <-]. apply same_session_refl. }
  cbn [MIGFlash.dump_loop]. destruct (decide (offset < dump_size)).
  2:{ intros [= <- <- <- <-]. apply same_session_refl. }
  unfold bind at 1, MIGFlash.in_session at 1, zoom at 1. cbn [fst snd].
  destruct (MIGFlash.read_xci _ _ (w, m)) as [[data|e] [w1 m1]] eqn:E.
  - assert (Hsame : same_session m m1).
    { unfold MIGFlash.read_xci, bind, gets in E. cbn [snd] in E.
      destruct (MIGFlash.cart_authenticated m); cbn [negb] in E.
      - now apply on_device_read_at_same in E as [_ ?].
      - discriminate. }
    unfold bind at 1, MIGFlash.in_world at 1, zoom at 1, f_write, modify. cbn [fst snd].
    unfold bind at 1.
    destruct cb as [f|].
    + unfold MIGFlash.in_callback at 1, zoom at 1. cbn [fst snd].
      destruct (f _ dump_size _) as [[[]|e] [w2 c2]].
      * intros H. apply IH in H. eapply same_session_trans; eassumption.
      * intros [= <- <- <- <-]. exact Hsame.
    + unfold ret at 1. intros H. apply IH in H. eapply same_session_trans; eassumption.
  - intros [= <- <- <- <-].
    unfold MIGFlash.read_xci, bind, gets in E. cbn [snd] in E.
    destruct (MIGFlash.cart_authenticated m); cbn [negb] in E.
    + now apply on_device_read_at_same in E as [_ ?].
    + injection E as _ _ <-. apply same_session_refl.
Qed.

(** X9. A dump only reads.  However [dump_xci] ends - returned, stopped
    by an exception of the callback or of the device, or still running
    when the fuel is spent - the session is attached to the same medium,
    byte for byte, and is as connected as before. *)
Theorem X9_dump_only_reads {C : Type} (fuel : nat) (filename : string) (trimmed : bool)
    (cb : option (Z -> Z -> M (World * C) unit))
    (w : World) (m : MIGFlash.t) (c : C) :
  medium_of (MIGFlash.dump_xci fuel filename trimmed cb (w, m, c)).2.1.2 = medium_of m
  /\ MIGFlash._connected (MIGFlash.dump_xci fuel filename trimmed cb (w, m, c)).2.1.2
     = MIGFlash._connected m.
Proof.
  assert (Hsize : forall wa ma r w1 m1,
             MIGFlash.get_xci_size (wa, ma) = (r, (w1, m1)) ->
             medium_of m1 = medium_of ma /\ MIGFlash._connected m1 = MIGFlash._connected ma).
  { intros wa ma r w1 m1. unfold MIGFlash.get_xci_size, MIGFlash.get_xci_header.
    unfold bind at 1 2 3, gets at 1. cbn [snd].
    destruct (MIGFlash.cart_authenticated ma); cbn [negb].
    - unfold ret, gets. cbn [snd].
      destruct (MIGFlash._xci_header ma); intros [= <- <- <-]; auto.
    - unfold bind at 1.
      destruct (MIGFlash.authenticate (wa, ma)) as [[[|]|e] [w2 m2]] eqn:E;
        apply authenticate_frame in E as (_ & ? & ? & _); cbn [negb];
        unfold raise, ret, gets; cbn [snd];
        try destruct (MIGFlash._xci_header m2); intros [= <- <- <-]; auto. }
  assert (Hrest : forall w0 m0,
             medium_of m0 = medium_of m /\ MIGFlash._connected m0 = MIGFlash._connected m ->
             forall r w' m' c',
               (let* '(total_size, trimmed_size) := MIGFlash.in_session MIGFlash.get_xci_size in
                MIGFlash.in_world (f_open_wb filename) ;;
                let* r := MIGFlash.dump_loop fuel filename
                            (if trimmed then trimmed_size else total_size) cb 0 in
                match r with
                | Some _ => ret (Some true)
                | None => ret None
                end) (w0, m0, c) = (r, (w', m', c')) ->
               medium_of m' = medium_of m
               /\ MIGFlash._connected m' = MIGFlash._connected m).
  { intros w0 m0 [Hm0 Hc0] r w' m' c'.
    unfold bind at 1, MIGFlash.in_session at 1, zoom at 1. cbn [fst snd].
    destruct (MIGFlash.get_xci_size (w0, m0)) as [[[total used]|e] [w1 m1]] eqn:E;
      apply Hsize in E as [Hm1 Hc1]; cbn [fst snd].
    2:{ intros [= <- <- <- <-]. split; congruence. }
    unfold bind at 1, MIGFlash.in_world at 1, zoom at 1, f_open_wb, modify. cbn [fst snd].
    unfold bind at 1.
    destruct (MIGFlash.dump_loop fuel filename _ cb 0 _) as [r2 [[w2 m2] c2]] eqn:El.
    apply dump_loop_frame in El as (_ & _ & Hc2 & Hm2).
    destruct r2 as [[[]|]|e]; cbn; intros [= <- <- <- <-]; split; congruence. }
  destruct (MIGFlash.dump_xci fuel filename trimmed cb (w, m, c)) as [r [[w' m'] c']] eqn:E.
  cbn [fst snd]. revert E.
  unfold MIGFlash.dump_xci. unfold bind at 1, gets at 1. cbn [fst snd].
  destruct (MIGFlash.cart_authenticated m); cbn [negb].
  - unfold bind at 1, ret at 1. apply Hrest. auto.
  - unfold bind at 1 2, MIGFlash.in_session at 1, zoom at 1. cbn [fst snd].
    destruct (MIGFlash.authenticate (w, m)) as [[[|]|e] [w1 m1]] eqn:E;
      apply authenticate_frame in E as (_ & Hc1 & Hm1 & _); cbn [negb fst snd].
    + unfold ret at 1. apply Hrest. auto.
    + unfold raise. intros [= <- <- <- <-]. auto.
    + intros [= <- <- <- <-]. auto.
Qed.

(** ** The copy loop under a callback that keeps an invariant *)

Section AnyCallback.

Context {C : Type}.
Variables (med : Medium) (filename : string) (dump_size : Z).
Variable cb : option (Z -> Z -> M (World * C) unit).
Variable Inv : World -> C -> Prop.

(** The callback returns while the invariant holds, keeps it, and does
    not write files; writing the image file does not break it. *)
Hypothesis Hcb :
  forall f d w c, cb = Some f -> Inv w c ->
    exists w' c', f d dump_size (w, c) = (Ok tt, (w', c')) /\ Inv w' c' /\ w_fs w' = w_fs w.
Hypothesis Hfs : forall g w c, Inv w c -> Inv (set_fs g w) c.

(** One turn whose read returns [data]. *)
Lemma dump_loop_turn_ok (fuel : nat) (offset : Z) (w : World) (m : MIGFlash.t) (c : C)
    (old : bytes) :
  MIGFlash.cart_authenticated m = true ->
  medium_of m = Some med ->
  0 <= offset < dump_size ->
  med_fault med (XCI_DATA_OFFSET + offset)
    (Z.min MIGFlash.chunk_size (dump_size - offset)) = false ->
  w_fs w !! filename = Some old ->
  Inv w c ->
  let data := read_data med (XCI_DATA_OFFSET + offset)
                (Z.min MIGFlash.chunk_size (dump_size - offset)) in
  exists w2 c2,
    MIGFlash.dump_loop (S fuel) filename dump_size cb offset (w, m, c)
    = MIGFlash.dump_loop fuel filename dump_size cb (offset + Z.of_nat (length data))
        (w2, at_pos (XCI_DATA_OFFSET + offset + Z.of_nat (length data)) m, c2)
    /\ w_fs w2 !! filename = Some (old ++ data)%list
    /\ Inv w2 c2.
Proof.
  intros Hauth Hmed Hoff Hok Hold HI data.
  rewrite (dump_loop_turn fuel filename dump_size cb offset w m c med)
    by assumption.
  cbv zeta. rewrite Hok. fold data.
  set (w1 := set_fs _ w).
  assert (Hw1 : w_fs w1 !! filename = Some (old ++ data)%list).
  { subst w1. cbn. rewrite Hold. apply lookup_insert_eq. }
  assert (HI1 : Inv w1 c) by (subst w1; apply Hfs, HI).
  destruct cb as [f|] eqn:Ecb.
  - destruct (Hcb f (offset + Z.of_nat (length data)) w1 c eq_refl HI1)
      as (w2 & c2 & -> & HI2 & Hfs2).
    exists w2, c2. rewrite Hfs2. auto.
  - exists w1, c. auto.
Qed.

(** On a medium that holds the whole dump and does not fault, the loop
    runs to its end once the fuel covers the chunks that remain. *)
Lemma dump_loop_complete :
  no_faults med ->
  XCI_DATA_OFFSET + dump_size <= med_size med ->
  forall (fuel : nat) (offset : Z) (w : World) (m : MIGFlash.t) (c : C) (old : bytes),
    MIGFlash.cart_authenticated m = true ->
    medium_of m = Some med ->
    0 <= offset <= dump_size ->
    w_fs w !! filename = Some old ->
    Inv w c ->
    dump_size - offset <= (Z.of_nat fuel - 1) * MIGFlash.chunk_size ->
    exists w' m' c',
      MIGFlash.dump_loop fuel filename dump_size cb offset (w, m, c)
      = (Ok (Some tt), (w', m', c'))
      /\ w_fs w' !! filename
         = Some (old ++ med_bytes med (XCI_DATA_OFFSET + offset)
                          (Z.to_nat (dump_size - offset)))%list
      /\ Inv w' c'
      /\ same_session m m'.
Proof.
  intros Hnf Hfit. change MIGFlash.chunk_size with 1048576.
  induction fuel as [|fuel IH]; intros offset w m c old Hauth Hmed Hoff Hold HI Hfuel.
  { lia. }
  destruct (decide (offset < dump_size)) as [Hlt|Hge].
  - destruct (dump_loop_turn_ok fuel offset w m c old) as (w2 & c2 & Hrun & Hfile & HI2);
      [assumption|assumption|lia|apply Hnf|assumption|assumption|].
    revert Hrun Hfile. change MIGFlash.chunk_size with 1048576.
    set (n := Z.min 1048576 (dump_size - offset)).
    rewrite (read_data_full med _ n) by (subst n; lia).
    rewrite length_med_bytes, Z2Nat.id by (subst n; lia).
    intros Hrun Hfile.
    destruct (IH (offset + n) w2 (at_pos (XCI_DATA_OFFSET + offset + n) m) c2 _
                ltac:(rewrite cart_authenticated_at_pos; exact Hauth)
                ltac:(rewrite medium_of_at_pos; exact Hmed)
                ltac:(subst n; lia) Hfile HI2 ltac:(subst n; lia))
      as (w' & m' & c' & Hrun' & Hfile' & HI' & Hsame).
    exists w', m', c'. split; [|split; [|split]].
    + rewrite Hrun. exact Hrun'.
    + rewrite Hfile', <- app_assoc. do 2 f_equal.
      replace (Z.to_nat (dump_size - offset))
        with (Z.to_nat n + Z.to_nat (dump_size - (offset + n)))%nat by (subst n; lia).
      rewrite med_bytes_app. do 2 f_equal. subst n; lia.
    + exact HI'.
    + eapply same_session_trans; [apply same_session_at_pos|exact Hsame].
  - destruct fuel as [|fuel']; rewrite dump_loop_done by lia;
      exists w, m, c;
      (split; [reflexivity|]);
      (split; [rewrite Hold; replace (dump_size - offset) with 0 by lia;
               cbn; now rewrite app_nil_r|]);
      (split; [assumption|apply same_session_refl]).
Qed.

(** When the read of turn [k] (turns counted from 0 at [offset]) fails
    and the earlier ones do not, the loop stops there with the error of
    the device; the file has received the chunks of turns 0 to [k-1]. *)
Lemma dump_loop_fault :
  forall (k fuel : nat) (offset : Z) (w : World) (m : MIGFlash.t) (c : C) (old : bytes),
    MIGFlash.cart_authenticated m = true ->
    medium_of m = Some med ->
    0 <= offset ->
    offset + Z.of_nat k * MIGFlash.chunk_size < dump_size ->
    XCI_DATA_OFFSET + offset + Z.of_nat k * MIGFlash.chunk_size <= med_size med ->
    (forall j, 0 <= j < Z.of_nat k ->
       med_fault med (XCI_DATA_OFFSET + offset + j * MIGFlash.chunk_size)
         MIGFlash.chunk_size = false) ->
    med_fault med (XCI_DATA_OFFSET + offset + Z.of_nat k * MIGFlash.chunk_size)
      (Z.min MIGFlash.chunk_size (dump_size - offset - Z.of_nat k * MIGFlash.chunk_size))
    = true ->
    w_fs w !! filename = Some old ->
    Inv w c ->
    (k < fuel)%nat ->
    exists w' m' c',
      MIGFlash.dump_loop fuel filename dump_size cb offset (w, m, c)
      = (Raise (OSError "Input/output error"), (w', m', c'))
      /\ w_fs w' !! filename
         = Some (old ++ med_bytes med (XCI_DATA_OFFSET + offset)
                          (Z.to_nat (Z.of_nat k * MIGFlash.chunk_size)))%list
      /\ Inv w' c'
      /\ same_session m m'.
Proof.
  change MIGFlash.chunk_size with 1048576.
  induction k as [|k IH];
    intros fuel offset w m c old Hauth Hmed Hoff Hmid Hhold Hgood Hbad Hold HI Hfuel;
    (destruct fuel as [|fuel]; [lia|]).
  - rewrite (dump_loop_turn fuel filename dump_size cb offset w m c med)
      by (assumption || lia).
    cbv zeta. change MIGFlash.chunk_size with 1048576.
    replace (XCI_DATA_OFFSET + offset + Z.of_nat 0 * 1048576)
      with (XCI_DATA_OFFSET + offset) in Hbad by lia.
    replace (dump_size - offset - Z.of_nat 0 * 1048576)
      with (dump_size - offset) in Hbad by lia.
    rewrite Hbad. exists w, (at_pos (XCI_DATA_OFFSET + offset) m), c.
    split; [reflexivity|]. split; [|split].
    + rewrite Hold. cbn. now rewrite app_nil_r.
    + exact HI.
    + apply same_session_at_pos.
  - assert (Hmin : Z.min 1048576 (dump_size - offset) = 1048576) by lia.
    destruct (dump_loop_turn_ok fuel offset w m c old) as (w2 & c2 & Hrun & Hfile & HI2);
      [assumption|assumption|lia| |assumption|assumption|].
    { change MIGFlash.chunk_size with 1048576. rewrite Hmin.
      specialize (Hgood 0 ltac:(lia)). now rewrite Z.add_0_r in Hgood. }
    revert Hrun Hfile. change MIGFlash.chunk_size with 1048576. rewrite Hmin.
    rewrite (read_data_full med _ 1048576) by lia.
    rewrite length_med_bytes.
    assert (Ha : Z.of_nat (Z.to_nat 1048576) = 1048576) by lia.
    revert Ha. generalize (Z.to_nat 1048576). intros a Ha. rewrite Ha.
    intros Hrun Hfile.
    destruct (IH fuel (offset + 1048576) w2 (at_pos (XCI_DATA_OFFSET + offset + 1048576) m)
                c2 _
                ltac:(rewrite cart_authenticated_at_pos; exact Hauth)
                ltac:(rewrite medium_of_at_pos; exact Hmed)
                ltac:(lia) ltac:(lia) ltac:(lia)
                ltac:(intros j Hj; specialize (Hgood (j + 1) ltac:(lia));
                      rewrite <- Hgood; f_equal; lia)
                ltac:(rewrite <- Hbad; f_equal; lia)
                Hfile HI2 ltac:(lia))
      as (w' & m' & c' & Hrun' & Hfile' & HI' & Hsame).
    exists w', m', c'. split; [|split; [|split]].
    + rewrite Hrun. exact Hrun'.
    + rewrite Hfile', <- app_assoc. f_equal. apply (f_equal (app old)).
      replace (Z.to_nat (Z.of_nat (S k) * 1048576))
        with (a + Z.to_nat (Z.of_nat k * 1048576))%nat by lia.
      rewrite med_bytes_app, Ha, Z.add_assoc. reflexivity.
    + exact HI'.
    + eapply same_session_trans; [apply same_session_at_pos|exact Hsame].
Qed.

(** On a medium that ends before the dump does, reads come back short
    and then empty, the offset stops growing and the loop never leaves:
    whatever the fuel, it is still running when the fuel is spent. *)
Lemma dump_loop_stuck :
  no_faults med ->
  med_size med < XCI_DATA_OFFSET + dump_size ->
  forall (fuel : nat) (offset : Z) (w : World) (m : MIGFlash.t) (c : C),
    MIGFlash.cart_authenticated m = true ->
    medium_of m = Some med ->
    0 <= offset ->
    XCI_DATA_OFFSET + offset <= med_size med ->
    Inv w c ->
    exists w' m' c',
      MIGFlash.dump_loop fuel filename dump_size cb offset (w, m, c)
      = (Ok None, (w', m', c'))
      /\ Inv w' c'.
Proof.
  intros Hnf Hshort.
  induction fuel as [|fuel IH]; intros offset w m c Hauth Hmed Hoff Hin HI.
  { exists w, m, c. split; [reflexivity|exact HI]. }
  rewrite (dump_loop_turn fuel filename dump_size cb offset w m c med)
    by (assumption || lia).
  cbv zeta. rewrite Hnf.
  set (data := read_data med _ _).
  assert (Hlen : 0 <= Z.of_nat (length data)
                 /\ XCI_DATA_OFFSET + offset + Z.of_nat (length data) <= med_size med).
  { subst data. unfold read_data. rewrite length_med_bytes.
    change MIGFlash.chunk_size with 1048576.
    rewrite decide_False by lia. lia. }
  set (w1 := set_fs _ w).
  assert (HI1 : Inv w1 c) by (subst w1; apply Hfs, HI).
  destruct cb as [f|] eqn:Ecb.
  - destruct (Hcb f (offset + Z.of_nat (length data)) w1 c eq_refl HI1)
      as (w2 & c2 & -> & HI2 & _).
    apply IH; [rewrite cart_authenticated_at_pos; exact Hauth
              |rewrite medium_of_at_pos; exact Hmed|lia|lia|exact HI2].
  - apply IH; [rewrite cart_authenticated_at_pos; exact Hauth
              |rewrite medium_of_at_pos; exact Hmed|lia|lia|exact HI1].
Qed.

End AnyCallback.

(** ** [dump_xci] on an authenticated session *)

Lemma dump_xci_authenticated {C : Type} (fuel : nat) (filename : string) (trimmed : bool)
    (cb : option (Z -> Z -> M (World * C) unit))
    (w : World) (m : MIGFlash.t) (c : C) (h : XCIHeader) :
  MIGFlash.cart_authenticated m = true ->
  MIGFlash._xci_header m = Some h ->
  MIGFlash.dump_xci fuel filename trimmed cb (w, m, c)
  = match MIGFlash.dump_loop fuel filename (size_to_dump trimmed h) cb 0
            (set_fs <[filename := []]> w, m, c) with
    | (Ok (Some _), s) => (Ok (Some true), s)
    | (Ok None, s) => (Ok None, s)
    | (Raise e, s) => (Raise e, s)
    end.
Proof.
  intros Hauth Hh. unfold MIGFlash.dump_xci.
  unfold bind at 1, gets at 1. cbn [fst snd]. rewrite Hauth. cbn [negb].
  unfold bind at 1, ret at 1.
  unfold bind at 1, MIGFlash.in_session at 1, zoom at 1. cbn [fst snd].
  rewrite (get_xci_size_authenticated w m h Hauth Hh).
  unfold bind at 1, MIGFlash.in_world at 1, zoom at 1, f_open_wb, modify. cbn [fst snd].
  unfold bind, size_to_dump.
  destruct (MIGFlash.dump_loop _ _ _ _ _ _) as [[[[]|]|e] s]; reflexivity.
Qed.

(** X10. A header whose sizes give nothing to copy - an unknown capacity
    class code for a full dump, a valid-data-end of 0 for a trimmed one -
    makes [dump_xci] create an empty file and return [True] without one
    read of the device or one call of the callback. *)
Theorem X10_nothing_to_dump {C : Type} (fuel : nat) (filename : string) (trimmed : bool)
    (cb : option (Z -> Z -> M (World * C) unit))
    (w : World) (m : MIGFlash.t) (c : C) (h : XCIHeader) :
  MIGFlash.cart_authenticated m = true ->
  MIGFlash._xci_header m = Some h ->
  (if trimmed then valid_data_end h = 0 else sizes !! game_card_size h = None) ->
  MIGFlash.dump_xci (S fuel) filename trimmed cb (w, m, c)
  = (Ok (Some true), (set_fs <[filename := []]> w, m, c)).
Proof.
  intros Hauth Hh Hzero.
  rewrite (dump_xci_authenticated _ _ _ _ _ _ _ h Hauth Hh).
  rewrite dump_loop_done; [reflexivity|].
  unfold size_to_dump. destruct trimmed.
  - rewrite Hzero. reflexivity.
  - unfold cart_size_bytes. rewrite Hzero. reflexivity.
Qed.

Lemma X10_witness :
  MIGFlash.dump_xci 1 "out.xci" false (Some record_progress)
    (world0 Linux, authenticated_session (demo_medium 7 0x10), [])
  = (Ok (Some true),
     (set_fs <["out.xci" := []]> (world0 Linux), authenticated_session (demo_medium 7 0x10), [])).
Proof.
  apply (X10_nothing_to_dump 0 "out.xci" false (Some record_progress) (world0 Linux)
           (authenticated_session (demo_medium 7 0x10)) []
           (default demo_xci (MIGFlash._xci_header (authenticated_session (demo_medium 7 0x10))))).
  - vm_compute. reflexivity.
  - vm_compute. reflexivity.
  - vm_compute. reflexivity.
Defined.

Lemma harmless_inv {C : Type} (total : Z) (cb : option (Z -> Z -> M (World * C) unit)) :
  harmless total cb ->
  forall f d w c, cb = Some f -> True ->
    exists w' c', f d total (w, c) = (Ok tt, (w', c')) /\ True /\ w_fs w' = w_fs w.
Proof.
  intros Hh f d w c Hf _. destruct (Hh f d w c Hf) as (w' & c' & ? & ?).
  exists w', c'. auto.
Qed.

Lemma take_med_bytes (med : Medium) (pos : Z) (n k : nat) :
  (n <= k)%nat -> take n (med_bytes med pos k) = med_bytes med pos n.
Proof.
  intros Hnk. replace k with (n + (k - n))%nat by lia.
  rewrite med_bytes_app. apply take_app_length'. symmetry. apply length_med_bytes.
Qed.

(** On a device that holds the dump and does not fault, [dump_xci]
    returns [True] and leaves the image bytes in the file. *)
Lemma dump_xci_complete {C : Type} (fuel : nat) (filename : string) (trimmed : bool)
    (cb : option (Z -> Z -> M (World * C) unit))
    (w : World) (m : MIGFlash.t) (c : C) (med : Medium) (h : XCIHeader) :
  MIGFlash.cart_authenticated m = true ->
  MIGFlash._xci_header m = Some h ->
  medium_of m = Some med ->
  no_faults med ->
  harmless (size_to_dump trimmed h) cb ->
  0 <= size_to_dump trimmed h ->
  XCI_DATA_OFFSET + size_to_dump trimmed h <= med_size med ->
  size_to_dump trimmed h <= (Z.of_nat fuel - 1) * MIGFlash.chunk_size ->
  exists w' m' c',
    MIGFlash.dump_xci fuel filename trimmed cb (w, m, c) = (Ok (Some true), (w', m', c'))
    /\ w_fs w' !! filename
       = Some (med_bytes med XCI_DATA_OFFSET (Z.to_nat (size_to_dump trimmed h)))
    /\ same_session m m'.
Proof.
  intros Hauth Hh Hmed Hnf Hcb Hpos Hfit Hfuel.
  rewrite (dump_xci_authenticated _ _ _ _ _ _ _ h Hauth Hh).
  destruct (dump_loop_complete med filename (size_to_dump trimmed h) cb (fun _ _ => True)
              (harmless_inv _ _ Hcb) (fun _ _ _ _ => I) Hnf Hfit fuel 0
              (set_fs <[filename := []]> w) m c [])
    as (w' & m' & c' & Hrun & Hfile & _ & Hsame);
    [exact Hauth|exact Hmed|lia|cbn; apply lookup_insert_eq|exact I|lia|].
  rewrite Hrun. exists w', m', c'. split; [reflexivity|]. split; [|exact Hsame].
  rewrite Hfile. cbn [app]. do 2 f_equal; lia.
Qed.

(** X11. On a device that holds the whole cartridge image and does not
    fault, with a callback (if any) that returns and writes no file, and
    fuel for every chunk: the trimmed dump and the full dump both return
    [True]; the full file is the image area up to the cartridge size and
    the trimmed file is its prefix of the used size. *)
Theorem X11_trimmed_is_prefix {C : Type} (fuel : nat) (filename : string)
    (cb : option (Z -> Z -> M (World * C) unit))
    (w : World) (m : MIGFlash.t) (c : C) (med : Medium) (h : XCIHeader) :
  MIGFlash.cart_authenticated m = true ->
  MIGFlash._xci_header m = Some h ->
  medium_of m = Some med ->
  no_faults med ->
  harmless (size_to_dump true h) cb ->
  harmless (size_to_dump false h) cb ->
  0 <= size_to_dump true h <= size_to_dump false h ->
  XCI_DATA_OFFSET + size_to_dump false h <= med_size med ->
  size_to_dump false h <= (Z.of_nat fuel - 1) * MIGFlash.chunk_size ->
  exists st sf part full,
    MIGFlash.dump_xci fuel filename true cb (w, m, c) = (Ok (Some true), st)
    /\ MIGFlash.dump_xci fuel filename false cb (w, m, c) = (Ok (Some true), sf)
    /\ w_fs st.1.1 !! filename = Some part
    /\ w_fs sf.1.1 !! filename = Some full
    /\ full = med_bytes med XCI_DATA_OFFSET (Z.to_nat (cart_size_bytes h))
    /\ part = take (Z.to_nat (valid_data_end h * 512)) full.
Proof.
  intros Hauth Hh Hmed Hnf Hcb1 Hcb2 Hle Hfit Hfuel.
  destruct (dump_xci_complete fuel filename true cb w m c med h)
    as (w1 & m1 & c1 & Hrun1 & Hfile1 & _); try assumption; try lia.
  destruct (dump_xci_complete fuel filename false cb w m c med h)
    as (w2 & m2 & c2 & Hrun2 & Hfile2 & _); try assumption; try lia.
  eexists _, _, _, _. split; [exact Hrun1|]. split; [exact Hrun2|].
  split; [exact Hfile1|]. split; [exact Hfile2|]. split; [reflexivity|].
  unfold size_to_dump in *. symmetry. apply take_med_bytes. lia.
Qed.

Lemma medium_of_authenticated (med : Medium) :
  medium_of (authenticated_session med) = Some med.
Proof.
  unfold authenticated_session.
  destruct (MIGFlash.authenticate (world0 Linux, session_on med)) as [r [w m]] eqn:E.
  apply authenticate_frame in E as (_ & _ & Hm & _). exact Hm.
Qed.

Lemma X11_witness :
  exists st sf part full,
    MIGFlash.dump_xci (C := unit) 1025 "game.xci" true None
      (world0 Linux, authenticated_session (demo_medium 4096 0xFA), tt)
    = (Ok (Some true), st)
    /\ MIGFlash.dump_xci (C := unit) 1025 "game.xci" false None
         (world0 Linux, authenticated_session (demo_medium 4096 0xFA), tt)
       = (Ok (Some true), sf)
    /\ w_fs st.1.1 !! "game.xci" = Some part
    /\ w_fs sf.1.1 !! "game.xci" = Some full
    /\ full = med_bytes (demo_medium 4096 0xFA) XCI_DATA_OFFSET
                (Z.to_nat (cart_size_bytes (header_of (demo_medium 4096 0xFA))))
    /\ part = take (Z.to_nat (valid_data_end (header_of (demo_medium 4096 0xFA)) * 512)) full.
Proof.
  apply (X11_trimmed_is_prefix 1025 "game.xci" None (world0 Linux)
           (authenticated_session (demo_medium 4096 0xFA)) tt
           (demo_medium 4096 0xFA) (header_of (demo_medium 4096 0xFA))).
  - vm_compute. reflexivity.
  - vm_compute. reflexivity.
  - apply medium_of_authenticated.
  - intros off sz. reflexivity.
  - intros f d w c Hf. discriminate Hf.
  - intros f d w c Hf. discriminate Hf.
  - vm_compute. split; discriminate.
  - vm_compute. discriminate.
  - vm_compute. discriminate.
Defined.

(** X12. On a device that ends inside the area to dump, reads come back
    short and then empty, the offset stops growing, and the loop has no
    other exit: with a callback (if any) that returns, [dump_xci] is
    still running when the fuel is spent, however much fuel it gets. *)
Theorem X12_short_device_never_returns {C : Type} (filename : string) (trimmed : bool)
    (cb : option (Z -> Z -> M (World * C) unit))
    (w : World) (m : MIGFlash.t) (c : C) (med : Medium) (h : XCIHeader) :
  MIGFlash.cart_authenticated m = true ->
  MIGFlash._xci_header m = Some h ->
  medium_of m = Some med ->
  no_faults med ->
  harmless (size_to_dump trimmed h) cb ->
  XCI_DATA_OFFSET <= med_size med < XCI_DATA_OFFSET + size_to_dump trimmed h ->
  forall fuel : nat,
    (MIGFlash.dump_xci fuel filename trimmed cb (w, m, c)).1 = Ok None.
Proof.
  intros Hauth Hh Hmed Hnf Hcb Hshort fuel.
  rewrite (dump_xci_authenticated _ _ _ _ _ _ _ h Hauth Hh).
  destruct (dump_loop_stuck med filename (size_to_dump trimmed h) cb (fun _ _ => True)
              (harmless_inv _ _ Hcb) (fun _ _ _ _ => I) Hnf ltac:(lia) fuel 0
              (set_fs <[filename := []]> w) m c)
    as (w' & m' & c' & Hrun & _);
    [exact Hauth|exact Hmed|lia|lia|exact I|].
  rewrite Hrun. reflexivity.
Qed.

Lemma X12_witness :
  (MIGFlash.dump_xci (C := unit) 1000 "game.xci" true None
     (world0 Linux, authenticated_session short_medium, tt)).1 = Ok None.
Proof.
  apply (X12_short_device_never_returns "game.xci" true None (world0 Linux)
           (authenticated_session short_medium) tt short_medium demo_xci).
  - vm_compute. reflexivity.
  - vm_compute. reflexivity.
  - apply medium_of_authenticated.
  - intros off sz. reflexivity.
  - intros f d w c Hf. discriminate Hf.
  - vm_compute. split; [discriminate|reflexivity].
Defined.

(** ** The dump worker left alone *)

(** A progress check when no other thread calls [abort_dump]: it returns,
    leaves the controller and the files alone, and sends at most one
    DUMP_PROGRESS event. *)
Lemma on_progress_quiet (done total : Z) (w : World) (c : MIGController.t)
    (l : MIGController.DumpLocals) :
  quiet w ->
  MIGController._abort_flag c = false ->
  exists w' l',
    MIGController.on_progress done total (w, (c, l)) = (Ok tt, (w', (c, l')))
    /\ quiet w'
    /\ w_fs w' = w_fs w
    /\ (w_events w' = w_events w
        \/ w_events w'
           = (w_events w
              ++ [mkEvent DUMP_PROGRESS (MIGController._state c) (Percent done total)
                    done total None])%list).
Proof.
  intros Hq Hflag.
  assert (Hrest : forall w0, quiet w0 -> w_fs w0 = w_fs w -> w_events w0 = w_events w ->
            exists w' l',
              (let* aborted := gets (fun s : MIGController.WorkerSt =>
                                       MIGController._abort_flag s.2.1) in
               if aborted : bool then raise (InterruptedError "Dump aborted")
               else
                 let* now := zoom (fun s : MIGController.WorkerSt => s.1)
                                  (fun w s => (w, s.2)) MIGController.time_time in
                 let* last := gets (fun s : MIGController.WorkerSt =>
                                      MIGController.last_update s.2.2) in
                 if decide (now - last < 100) then ret tt
                 else
                   modify (fun s : MIGController.WorkerSt =>
                             (s.1, (s.2.1, MIGController.mkDumpLocals
                                             (MIGController.start_time s.2.2) now))) ;;
                   MIGController.in_ctl
                     (MIGController._emit_event DUMP_PROGRESS (Percent done total)
                        done total None)) (w0, (c, l))
              = (Ok tt, (w', (c, l')))
              /\ quiet w'
              /\ w_fs w' = w_fs w
              /\ (w_events w' = w_events w
                  \/ w_events w'
                     = (w_events w
                        ++ [mkEvent DUMP_PROGRESS (MIGController._state c)
                              (Percent done total) done total None])%list)).
  { intros w0 Hq0 Hfs0 Hev0.
    unfold bind at 1, gets at 1. cbn [fst snd]. rewrite Hflag.
    unfold bind at 1, zoom at 1. cbn [fst snd].
    destruct (time_time_frame w0) as (now & w1 & -> & Hfs1 & Hsch1 & Hev1).
    cbn [fst snd].
    unfold bind at 1, gets at 1. cbn [fst snd].
    assert (Hq1 : quiet w1) by (unfold quiet; rewrite Hsch1; exact Hq0).
    destruct (decide (now - MIGController.last_update l < 100)).
    - unfold ret. exists w1, l. split; [reflexivity|].
      split; [exact Hq1|]. split; [congruence|]. left. congruence.
    - unfold bind at 1, modify at 1. cbn [fst snd].
      unfold MIGController.in_ctl, zoom. cbn [fst snd]. rewrite emit_event_eq. cbn [fst snd].
      eexists _, _. split; [reflexivity|].
      destruct (emitted_frame DUMP_PROGRESS (Percent done total) done total None w1 c)
        as [Hfs2 Hsch2].
      split; [unfold quiet; rewrite Hsch2; exact Hq1|].
      split; [congruence|].
      unfold emitted. destruct (MIGController._event_callback c).
      + right. cbn. congruence.
      + left. congruence. }
  unfold MIGController.on_progress.
  unfold bind at 1, MIGController.in_ctl at 1, zoom at 1, MIGController.interference.
  cbn [fst snd]. unfold quiet in Hq.
  destruct (w_sched w) as [|[|] s] eqn:Hs; cbn [fst snd].
  - apply Hrest; [unfold quiet; rewrite Hs; constructor|reflexivity|reflexivity].
  - apply Hrest; [unfold quiet; cbn; now inversion Hq|reflexivity|reflexivity].
  - inversion Hq; discriminate.
Qed.

(** The progress callback of an undisturbed worker keeps [worker_inv]. *)
Lemma on_progress_inv (c0 : MIGController.t) (ev0 : list MIGEventData) (total : Z) :
  MIGController._abort_flag c0 = false ->
  forall f d w cl, Some MIGController.on_progress = Some f ->
    worker_inv c0 ev0 total w cl ->
    exists w' cl', f d total (w, cl) = (Ok tt, (w', cl'))
                   /\ worker_inv c0 ev0 total w' cl' /\ w_fs w' = w_fs w.
Proof.
  intros Hflag f d w [c l] [= <-] (Hc & Hq & evs & Hev & Hall). cbn [fst] in Hc. subst c.
  destruct (on_progress_quiet d total w c0 l Hq Hflag) as (w' & l' & Hrun & Hq' & Hfs' & Hev').
  exists w', (c0, l'). split; [exact Hrun|]. split; [|exact Hfs'].
  split; [reflexivity|]. split; [exact Hq'|].
  destruct Hev' as [Hsame|Hmore].
  - exists evs. split; [congruence|exact Hall].
  - exists (evs ++ [mkEvent DUMP_PROGRESS (MIGController._state c0) (Percent d total)
                      d total None])%list.
    split; [rewrite Hmore, Hev; now rewrite app_assoc|].
    apply Forall_app. split; [exact Hall|]. constructor; [|constructor].
    repeat split.
Qed.

Lemma worker_inv_fs (c0 : MIGController.t) (ev0 : list MIGEventData) (total : Z) :
  forall g w cl, worker_inv c0 ev0 total w cl -> worker_inv c0 ev0 total (set_fs g w) cl.
Proof. intros g w cl H. exact H. Qed.

(** The worker of [dump_xci_async] on an authenticated session, in terms
    of the copy loop. *)
Lemma dump_worker_unfold (fuel : nat) (filename : string) (trimmed : bool)
    (w : World) (c : MIGController.t) (m : MIGFlash.t) (h : XCIHeader) :
  MIGController._mig c = Some m ->
  MIGFlash.cart_authenticated m = true ->
  MIGFlash._xci_header m = Some h ->
  MIGController.dump_worker fuel filename trimmed (w, c)
  = let total := size_to_dump trimmed h in
    let c2 := MIGController.set_mig (Some m)
                (MIGController.set_state ST_DUMPING (MIGController.set_abort_flag false c)) in
    let w1 := emitted DUMP_STARTED (DumpingGB total) 0 total None w c2 in
    match MIGController.time_time w1 with
    | (Raise e, w2) => (Raise e, (w2, c2))
    | (Ok start, w2) =>
        match MIGFlash.dump_loop fuel filename total (Some MIGController.on_progress) 0
                (set_fs <[filename := []]> w2, m,
                 (c2, MIGController.mkDumpLocals start start)) with
        | (Ok (Some _), (w3, m3, (c3, _))) =>
            let c4 := MIGController.set_state ST_AUTHENTICATED
                        (MIGController.set_mig (Some m3) c3) in
            (Ok (Some tt),
             (emitted DUMP_COMPLETE (DumpCompleteMsg filename) total total None w3 c4, c4))
        | (Ok None, (w3, m3, (c3, _))) =>
            (Ok None, (w3, MIGController.set_mig (Some m3) c3))
        | (Raise e, (w3, m3, (c3, _))) =>
            if is_interrupted e then
              let c4 := MIGController.set_state ST_AUTHENTICATED
                          (MIGController.set_mig (Some m3) c3) in
              (Ok (Some tt),
               (emitted DUMP_ERROR (Text "Dump aborted by user") 0 0 None w3 c4, c4))
            else
              let c4 := MIGController.set_state ST_ERROR
                          (MIGController.set_mig (Some m3) c3) in
              (Ok (Some tt),
               (emitted DUMP_ERROR (StrOfExn e) 0 0 (Some e) w3 c4, c4))
        end
    end.
Proof.
  intros Hm Hauth Hh.
  unfold MIGController.dump_worker.
  unfold bind at 1, modify at 1. cbn [fst snd].
  unfold bind at 1, MIGController._set_state at 1, modify at 1. cbn [fst snd].
  set (c1 := MIGController.set_state ST_DUMPING (MIGController.set_abort_flag false c)).
  unfold bind at 1, MIGController.on_mig at 1.
  change (MIGController._mig c1) with (MIGController._mig c). rewrite Hm.
  rewrite (get_xci_size_authenticated w m h Hauth Hh).
  fold (size_to_dump trimmed h). cbv zeta.
  set (total := size_to_dump trimmed h).
  set (c2 := MIGController.set_mig (Some m) c1).
  unfold bind at 1. rewrite emit_event_eq.
  set (w1 := emitted _ _ _ _ _ w c2).
  unfold bind at 1, zoom at 1. cbn [fst snd].
  destruct (MIGController.time_time w1) as [[start|e] w2]; [|reflexivity].
  unfold zoom at 1. cbn [fst snd].
  unfold try_except, bind at 1.
  unfold MIGController.dump_xci. change (MIGController._mig c2) with (Some m).
  cbv iota beta.
  unfold MIGController.WorkerSt.
  erewrite (dump_xci_authenticated _ _ _ _ _ _ _ h Hauth Hh).
  fold total.
  destruct (MIGFlash.dump_loop fuel filename total _ 0 _)
    as [[[[]|]|e] [[w3 m3] [c3 l3]]].
  - unfold bind at 1, MIGController.in_ctl at 1, zoom at 1, MIGController._set_state at 1,
      modify at 1. cbn [fst snd].
    unfold bind at 1, MIGController.in_ctl at 1, zoom at 1. cbn [fst snd].
    rewrite emit_event_eq. reflexivity.
  - reflexivity.
  - destruct (is_interrupted e).
    + unfold bind at 1, MIGController.in_ctl at 1, zoom at 1, MIGController._set_state at 1,
        modify at 1. cbn [fst snd].
      unfold bind at 1, MIGController.in_ctl at 1, zoom at 1. cbn [fst snd].
      rewrite emit_event_eq. reflexivity.
    + unfold bind at 1, MIGController.in_ctl at 1, zoom at 1, MIGController._set_state at 1,
        modify at 1. cbn [fst snd].
      unfold bind at 1, MIGController.in_ctl at 1, zoom at 1. cbn [fst snd].
      rewrite emit_event_eq. reflexivity.
Qed.

Lemma cart_authenticated_same (m m' : MIGFlash.t) :
  same_session m m' -> MIGFlash.cart_authenticated m' = MIGFlash.cart_authenticated m.
Proof. intros (H & _). unfold MIGFlash.cart_authenticated. now rewrite H. Qed.

Lemma emitted_events ev msg done total err w c :
  MIGController._event_callback c = true ->
  w_events (emitted ev msg done total err w c)
  = (w_events w ++ [mkEvent ev (MIGController._state c) msg done total err])%list.
Proof. intros H. unfold emitted. now rewrite H. Qed.

(** X13. A dump worker that no other thread disturbs, on an
    authenticated session whose device holds the dump and does not
    fault, with fuel for every chunk: it returns, the file holds the
    image bytes, the controller is AUTHENTICATED with the abort flag
    down - also when the flag was up before the worker started - and
    the events it sent are DUMP_STARTED, then only DUMP_PROGRESS events
    of the dump size, then DUMP_COMPLETE with done = total. *)
Theorem X13_worker_completes (w : World) (c : MIGController.t) (m : MIGFlash.t)
    (med : Medium) (h : XCIHeader) (filename : string) (trimmed : bool) (fuel : nat) :
  MIGController._mig c = Some m ->
  MIGController._event_callback c = true ->
  MIGFlash.cart_authenticated m = true ->
  MIGFlash._xci_header m = Some h ->
  medium_of m = Some med ->
  no_faults med ->
  quiet w ->
  0 <= size_to_dump trimmed h ->
  XCI_DATA_OFFSET + size_to_dump trimmed h <= med_size med ->
  size_to_dump trimmed h <= (Z.of_nat fuel - 1) * MIGFlash.chunk_size ->
  exists w' c' progress,
    MIGController.dump_worker fuel filename trimmed (w, c) = (Ok (Some tt), (w', c'))
    /\ MIGController._state c' = ST_AUTHENTICATED
    /\ MIGController._abort_flag c' = false
    /\ w_events w'
       = (w_events w ++ dump_started (size_to_dump trimmed h) :: progress
          ++ [dump_complete filename (size_to_dump trimmed h)])%list
    /\ Forall (progress_event ST_DUMPING (size_to_dump trimmed h)) progress
    /\ w_fs w' !! filename
       = Some (med_bytes med XCI_DATA_OFFSET (Z.to_nat (size_to_dump trimmed h))).
Proof.
  intros Hm Hcb Hauth Hh Hmed Hnf Hq Hpos Hfit Hfuel.
  rewrite (dump_worker_unfold fuel filename trimmed w c m h Hm Hauth Hh). cbv zeta.
  set (total := size_to_dump trimmed h) in *.
  set (c2 := MIGController.set_mig (Some m)
               (MIGController.set_state ST_DUMPING (MIGController.set_abort_flag false c))).
  set (w1 := emitted DUMP_STARTED (DumpingGB total) 0 total None w c2).
  assert (Hev1 : w_events w1 = (w_events w ++ [dump_started total])%list).
  { subst w1. now rewrite emitted_events. }
  destruct (emitted_frame DUMP_STARTED (DumpingGB total) 0 total None w c2) as [Hfs1 Hsch1].
  fold w1 in Hfs1, Hsch1.
  destruct (time_time_frame w1) as (start & w2 & -> & Hfs2 & Hsch2 & Hev2).
  destruct (dump_loop_complete med filename total (Some MIGController.on_progress)
              (worker_inv c2 (w_events w1) total)
              (on_progress_inv c2 (w_events w1) total eq_refl)
              (worker_inv_fs c2 (w_events w1) total) Hnf Hfit fuel 0
              (set_fs <[filename := []]> w2) m
              (c2, MIGController.mkDumpLocals start start) [])
    as (w3 & m3 & [c3 l3] & Hrun & Hfile & (Hc3 & _ & evs & Hev3 & Hall) & _).
  { exact Hauth. }
  { exact Hmed. }
  { lia. }
  { cbn. apply lookup_insert_eq. }
  { split; [reflexivity|]. split.
    - unfold quiet. cbn. rewrite Hsch2, Hsch1. exact Hq.
    - exists []. split; [cbn; rewrite Hev2; now rewrite app_nil_r|constructor]. }
  { lia. }
  unfold MIGController.WorkerSt in *. rewrite Hrun. cbn [fst] in Hc3. subst c3.
  eexists _, _, evs. split; [reflexivity|].
  split; [reflexivity|]. split; [reflexivity|]. split; [|split].
  - rewrite emitted_events by exact Hcb. rewrite Hev3, Hev1.
    rewrite <- !app_assoc. reflexivity.
  - exact Hall.
  - match goal with
    | |- w_fs (emitted ?a ?b ?d ?e ?f ?x ?y) !! _ = _ =>
        destruct (emitted_frame a b d e f x y) as [-> _]
    end.
    rewrite Hfile. cbn [app]. do 2 f_equal; lia.
Qed.

Lemma X13_witness :
  exists w' c' progress,
    MIGController.dump_worker 5 "out.xci" true
      (calm_world, stale_abort (authenticated_session (demo_medium 3 0xE2)))
    = (Ok (Some tt), (w', c'))
    /\ MIGController._state c' = ST_AUTHENTICATED
    /\ MIGController._abort_flag c' = false
    /\ w_events w'
       = (w_events calm_world
          ++ dump_started (size_to_dump true (header_of (demo_medium 3 0xE2))) :: progress
          ++ [dump_complete "out.xci" (size_to_dump true (header_of (demo_medium 3 0xE2)))])%list
    /\ Forall (progress_event ST_DUMPING (size_to_dump true (header_of (demo_medium 3 0xE2))))
         progress
    /\ w_fs w' !! "out.xci"
       = Some (med_bytes (demo_medium 3 0xE2) XCI_DATA_OFFSET
                 (Z.to_nat (size_to_dump true (header_of (demo_medium 3 0xE2))))).
Proof.
  apply (X13_worker_completes calm_world
           (stale_abort (authenticated_session (demo_medium 3 0xE2)))
           (authenticated_session (demo_medium 3 0xE2)) (demo_medium 3 0xE2)
           (header_of (demo_medium 3 0xE2)) "out.xci" true 5).
  - reflexivity.
  - reflexivity.
  - vm_compute. reflexivity.
  - vm_compute. reflexivity.
  - apply medium_of_authenticated.
  - intros off sz. reflexivity.
  - constructor.
  - vm_compute. discriminate.
  - vm_compute. discriminate.
  - vm_compute. discriminate.
Defined.

(** X14. The device fails the read of chunk [k] of a dump that no other
    thread disturbs, after [k] good chunks.  The worker returns: the
    controller is in state ERROR while its session is still
    authenticated, the last event is DUMP_ERROR carrying the OSError of
    the device, and the file is left with the [k] chunks copied before. *)
Theorem X14_device_fault_mid_dump (w : World) (c : MIGController.t) (m : MIGFlash.t)
    (med : Medium) (h : XCIHeader) (filename : string) (trimmed : bool) (k fuel : nat) :
  MIGController._mig c = Some m ->
  MIGController._event_callback c = true ->
  MIGFlash.cart_authenticated m = true ->
  MIGFlash._xci_header m = Some h ->
  medium_of m = Some med ->
  quiet w ->
  Z.of_nat k * MIGFlash.chunk_size < size_to_dump trimmed h ->
  XCI_DATA_OFFSET + Z.of_nat k * MIGFlash.chunk_size <= med_size med ->
  (forall j, 0 <= j < Z.of_nat k ->
     med_fault med (XCI_DATA_OFFSET + j * MIGFlash.chunk_size) MIGFlash.chunk_size = false) ->
  med_fault med (XCI_DATA_OFFSET + Z.of_nat k * MIGFlash.chunk_size)
    (Z.min MIGFlash.chunk_size (size_to_dump trimmed h - Z.of_nat k * MIGFlash.chunk_size))
  = true ->
  (k < fuel)%nat ->
  exists w' c' m',
    MIGController.dump_worker fuel filename trimmed (w, c) = (Ok (Some tt), (w', c'))
    /\ MIGController._state c' = ST_ERROR
    /\ MIGController._mig c' = Some m'
    /\ MIGFlash.cart_authenticated m' = true
    /\ last (w_events w') = Some (dump_failed (OSError "Input/output error"))
    /\ w_fs w' !! filename
       = Some (med_bytes med XCI_DATA_OFFSET (Z.to_nat (Z.of_nat k * MIGFlash.chunk_size))).
Proof.
  intros Hm Hcb Hauth Hh Hmed Hq Hmid Hhold Hgood Hbad Hfuel.
  rewrite (dump_worker_unfold fuel filename trimmed w c m h Hm Hauth Hh). cbv zeta.
  set (total := size_to_dump trimmed h) in *.
  set (c2 := MIGController.set_mig (Some m)
               (MIGController.set_state ST_DUMPING (MIGController.set_abort_flag false c))).
  set (w1 := emitted DUMP_STARTED (DumpingGB total) 0 total None w c2).
  destruct (emitted_frame DUMP_STARTED (DumpingGB total) 0 total None w c2) as [Hfs1 Hsch1].
  fold w1 in Hfs1, Hsch1.
  destruct (time_time_frame w1) as (start & w2 & -> & Hfs2 & Hsch2 & Hev2).
  destruct (dump_loop_fault med filename total (Some MIGController.on_progress)
              (worker_inv c2 (w_events w1) total)
              (on_progress_inv c2 (w_events w1) total eq_refl)
              (worker_inv_fs c2 (w_events w1) total) k fuel 0
              (set_fs <[filename := []]> w2) m
              (c2, MIGController.mkDumpLocals start start) [])
    as (w3 & m3 & [c3 l3] & Hrun & Hfile & (Hc3 & _) & Hsame).
  { exact Hauth. }
  { exact Hmed. }
  { lia. }
  { lia. }
  { rewrite Z.add_0_r. exact Hhold. }
  { intros j Hj. rewrite Z.add_0_r. apply Hgood, Hj. }
  { rewrite Z.add_0_r, Z.sub_0_r. exact Hbad. }
  { cbn. apply lookup_insert_eq. }
  { split; [reflexivity|]. split.
    - unfold quiet. cbn. rewrite Hsch2, Hsch1. exact Hq.
    - exists []. split; [cbn; rewrite Hev2; now rewrite app_nil_r|constructor]. }
  { exact Hfuel. }
  unfold MIGController.WorkerSt in *. rewrite Hrun. cbn [fst] in Hc3. subst c3.
  cbn [is_interrupted].
  eexists _, _, m3. split; [reflexivity|].
  split; [reflexivity|]. split; [reflexivity|]. split; [|split].
  - rewrite (cart_authenticated_same m m3 Hsame). exact Hauth.
  - rewrite last_emitted by exact Hcb. reflexivity.
  - match goal with
    | |- w_fs (emitted ?a ?b ?d ?e ?f ?x ?y) !! _ = _ =>
        destruct (emitted_frame a b d e f x y) as [-> _]
    end.
    rewrite Hfile. cbn [app]. do 2 f_equal; lia.
Qed.

Lemma X14_witness :
  exists w' c' m',
    MIGController.dump_worker 3 "game.xci" true
      (calm_world, controller_on (authenticated_session faulty_medium) ST_AUTHENTICATED)
    = (Ok (Some tt), (w', c'))
    /\ MIGController._state c' = ST_ERROR
    /\ MIGController._mig c' = Some m'
    /\ MIGFlash.cart_authenticated m' = true
    /\ last (w_events w') = Some (dump_failed (OSError "Input/output error"))
    /\ w_fs w' !! "game.xci"
       = Some (med_bytes faulty_medium XCI_DATA_OFFSET
                 (Z.to_nat (Z.of_nat 2 * MIGFlash.chunk_size))).
Proof.
  apply (X14_device_fault_mid_dump calm_world
           (controller_on (authenticated_session faulty_medium) ST_AUTHENTICATED)
           (authenticated_session faulty_medium) faulty_medium
           (header_of faulty_medium) "game.xci" true 2 3).
  - reflexivity.
  - reflexivity.
  - vm_compute. reflexivity.
  - vm_compute. reflexivity.
  - apply medium_of_authenticated.
  - constructor.
  - vm_compute. reflexivity.
  - vm_compute. discriminate.
  - intros j Hj. cbn [faulty_medium med_fault]. apply bool_decide_eq_false.
    change MIGFlash.chunk_size with 1048576. lia.
  - vm_compute. reflexivity.
  - lia.
Defined.

(** ** The workers of the controller *)

(** [get_xci_size] leaves the world as it is. *)
Lemma get_xci_size_world (w : World) (m : MIGFlash.t) r w' m' :
  MIGFlash.get_xci_size (w, m) = (r, (w', m')) -> w' = w.
Proof.
  unfold MIGFlash.get_xci_size, MIGFlash.get_xci_header.
  unfold bind at 1 2 3, gets at 1. cbn [snd].
  destruct (MIGFlash.cart_authenticated m); cbn [negb].
  - unfold ret, gets. cbn [snd].
    destruct (MIGFlash._xci_header m); intros [= <- <- <-]; reflexivity.
  - unfold bind at 1.
    destruct (MIGFlash.authenticate (w, m)) as [[[|]|e] [w2 m2]] eqn:E;
      apply authenticate_frame in E as (-> & _); cbn [negb];
      unfold raise, ret, gets; cbn [snd];
      try destruct (MIGFlash._xci_header m2); intros [= <- <- <-]; reflexivity.
Qed.

(** X15. The dump worker asks the session for the sizes before its
    [try]: when that call raises - no session, or a cartridge that does
    not authenticate - the exception leaves the worker, no event is sent,
    nothing is written, and the controller stays in state DUMPING. *)
Theorem X15_worker_escapes (fuel : nat) (filename : string) (trimmed : bool)
    (w : World) (c : MIGController.t) (e : exn) :
  (MIGController.on_mig MIGFlash.get_xci_size (w, c)).1 = Raise e ->
  exists c',
    MIGController.dump_worker fuel filename trimmed (w, c) = (Raise e, (w, c'))
    /\ MIGController._state c' = ST_DUMPING
    /\ MIGController._abort_flag c' = false.
Proof.
  intros Hraise.
  unfold MIGController.dump_worker.
  unfold bind at 1, modify at 1. cbn [fst snd].
  unfold bind at 1, MIGController._set_state at 1, modify at 1. cbn [fst snd].
  set (c1 := MIGController.set_state ST_DUMPING (MIGController.set_abort_flag false c)).
  unfold bind at 1, MIGController.on_mig at 1.
  unfold MIGController.on_mig in Hraise.
  change (MIGController._mig c1) with (MIGController._mig c).
  destruct (MIGController._mig c) as [m|].
  - destruct (MIGFlash.get_xci_size (w, m)) as [[sz|e'] [w' m']] eqn:E.
    + discriminate Hraise.
    + apply get_xci_size_world in E as ->. cbn [fst] in Hraise.
      injection Hraise as ->. eexists. split; [reflexivity|]. split; reflexivity.
  - cbn [fst] in Hraise. injection Hraise as <-.
    eexists. split; [reflexivity|]. split; reflexivity.
Qed.

Lemma X15_witness :
  exists c',
    MIGController.dump_worker 5 "out.xci" true (calm_world, blank_controller)
    = (Raise (RuntimeError "No cartridge inserted"), (calm_world, c'))
    /\ MIGController._state c' = ST_DUMPING
    /\ MIGController._abort_flag c' = false.
Proof.
  apply (X15_worker_escapes 5 "out.xci" true calm_world blank_controller
           (RuntimeError "No cartridge inserted")).
  vm_compute. reflexivity.
Defined.

(** X16. The worker of [authenticate_async] never raises, whatever the
    controller and the device.  It sends AUTH_STARTED and then one more
    event: AUTH_SUCCESS, with the controller AUTHENTICATED, its session
    authenticated and its cached cartridge information and header those
    of the session; or AUTH_FAILED, with the controller in state ERROR
    and its cached cartridge information untouched. *)
Theorem X16_authenticate_worker (w : World) (c : MIGController.t) :
  exists w' c' final,
    MIGController.authenticate_worker (w, c) = (Ok tt, (w', c'))
    /\ (if MIGController._event_callback c
        then w_events w' = (w_events w ++ [auth_started; final])%list
        else w_events w' = w_events w)
    /\ state final = MIGController._state c'
    /\ (event final = AUTH_SUCCESS
        /\ MIGController._state c' = ST_AUTHENTICATED
        /\ (exists m, MIGController._mig c' = Some m
                      /\ MIGFlash.cart_authenticated m = true
                      /\ MIGController._cart_info c' = MIGFlash._cart_info m
                      /\ MIGController._xci_header c' = MIGFlash._xci_header m)
        \/ event final = AUTH_FAILED
           /\ MIGController._state c' = ST_ERROR
           /\ MIGController._cart_info c' = MIGController._cart_info c).
Proof.
  unfold MIGController.authenticate_worker.
  unfold bind at 1, MIGController._set_state at 1, modify at 1. cbn [fst snd].
  set (c1 := MIGController.set_state ST_AUTHENTICATING c).
  unfold bind at 1. rewrite emit_event_eq.
  set (w1 := emitted AUTH_STARTED (Text "Authenticating...") 0 0 None w c1).
  assert (Hw1 : if MIGController._event_callback c
                then w_events w1 = (w_events w ++ [auth_started])%list
                else w_events w1 = w_events w).
  { subst w1. unfold emitted. change (MIGController._event_callback c1)
      with (MIGController._event_callback c).
    destruct (MIGController._event_callback c); reflexivity. }
  clearbody w1.
  unfold try_except, bind at 1.
  destruct (MIGController._mig c) as [m|] eqn:Hm.
  - rewrite (ctl_authenticate_unfold w1 c1 m Hm).
    destruct (MIGFlash.authenticate (w1, m)) as [[[|]|e] [w2 m2]] eqn:E.
    + destruct (authenticate_true_inv w1 m _ E) as (h & Hh & _ & Hci). cbn [snd] in Hh, Hci.
      apply authenticate_frame in E as (-> & _).
      rewrite emit_event_eq.
      eexists _, _, (mkEvent AUTH_SUCCESS ST_AUTHENTICATED
                       (Text "Authentication successful") 0 0 None).
      split; [reflexivity|]. split; [|split; [reflexivity|]].
      * unfold emitted. cbn [MIGController._event_callback MIGController.set_state
          MIGController.set_cart MIGController.set_mig MIGController._state].
        subst c1. cbn [MIGController._event_callback MIGController.set_state].
        destruct (MIGController._event_callback c); [|exact Hw1].
        cbn. rewrite Hw1, <- app_assoc. reflexivity.
      * left. split; [reflexivity|]. split; [reflexivity|].
        exists m2. split; [reflexivity|].
        split; [unfold MIGFlash.cart_authenticated; rewrite Hci; reflexivity|].
        split; reflexivity.
    + apply authenticate_frame in E as (-> & _).
      rewrite emit_event_eq.
      eexists _, _, (mkEvent AUTH_FAILED ST_ERROR (Text "Authentication failed") 0 0 None).
      split; [reflexivity|]. split; [|split; [reflexivity|]].
      * unfold emitted. subst c1.
        cbn [MIGController._event_callback MIGController.set_state MIGController.set_mig
             MIGController._state].
        destruct (MIGController._event_callback c); [|exact Hw1].
        cbn. rewrite Hw1, <- app_assoc. reflexivity.
      * right. split; [reflexivity|]. split; reflexivity.
    + apply authenticate_frame in E as (-> & _).
      unfold bind at 1, MIGController._set_state at 1, modify at 1. cbn [fst snd].
      rewrite emit_event_eq.
      eexists _, _, (mkEvent AUTH_FAILED ST_ERROR (StrOfExn e) 0 0 (Some e)).
      split; [reflexivity|]. split; [|split; [reflexivity|]].
      * unfold emitted. subst c1.
        cbn [MIGController._event_callback MIGController.set_state MIGController.set_mig
             MIGController._state].
        destruct (MIGController._event_callback c); [|exact Hw1].
        cbn. rewrite Hw1, <- app_assoc. reflexivity.
      * right. split; [reflexivity|]. split; reflexivity.
  - unfold MIGController.authenticate. unfold bind at 1, gets at 1. cbn [snd].
    change (MIGController._mig c1) with (MIGController._mig c). rewrite Hm.
    unfold raise.
    unfold bind at 1, MIGController._set_state at 1, modify at 1. cbn [fst snd].
    rewrite emit_event_eq.
    eexists _, _, (mkEvent AUTH_FAILED ST_ERROR (StrOfExn (RuntimeError "Not connected")) 0 0
                     (Some (RuntimeError "Not connected"))).
    split; [reflexivity|]. split; [|split; [reflexivity|]].
    + unfold emitted. subst c1.
      cbn [MIGController._event_callback MIGController.set_state MIGController._state].
      destruct (MIGController._event_callback c); [|exact Hw1].
      cbn. rewrite Hw1, <- app_assoc. reflexivity.
    + right. split; [reflexivity|]. split; reflexivity.
Qed.

(** ** What the device and the session never touch *)

Lemma os_only_refl (w : World) : os_only w w.
Proof. repeat split. exists []. now rewrite app_nil_r. Qed.

Lemma os_only_trans (w1 w2 w3 : World) : os_only w1 w2 -> os_only w2 w3 -> os_only w1 w3.
Proof.
  intros (A1 & A2 & A3 & A4 & A5 & A6 & c1 & A7) (B1 & B2 & B3 & B4 & B5 & B6 & c2 & B7).
  repeat split; try congruence.
  exists (c1 ++ c2)%list. rewrite B7, A7. now rewrite app_assoc.
Qed.

Lemma os_only_log (call : OsCall) (w : World) : os_only w (log_os call w).
Proof. repeat split. now exists [call]. Qed.

Section Keeps.

Context {S : Type} (prj : S -> World).

Lemma keeps_ret {A} (v : A) : keeps prj (ret v).
Proof. intros s. apply os_only_refl. Qed.

Lemma keeps_raise {A} (e : exn) : keeps prj (raise (A := A) e).
Proof. intros s. apply os_only_refl. Qed.

Lemma keeps_gets {A} (f : S -> A) : keeps prj (gets f).
Proof. intros s. apply os_only_refl. Qed.

Lemma keeps_modify (f : S -> S) : (forall s, prj (f s) = prj s) -> keeps prj (modify f).
Proof. intros H s. cbn. rewrite H. apply os_only_refl. Qed.

Lemma keeps_bind {A B} (c : M S A) (k : A -> M S B) :
  keeps prj c -> (forall x, keeps prj (k x)) -> keeps prj (bind c k).
Proof.
  intros Hc Hk s. unfold bind. specialize (Hc s).
  destruct (c s) as [[x|e] s1]; cbn [snd] in Hc; [|exact Hc].
  eapply os_only_trans; [exact Hc|apply Hk].
Qed.

Lemma keeps_try_except {A} (c : M S A) (h : exn -> M S A) :
  keeps prj c -> (forall e, keeps prj (h e)) -> keeps prj (try_except c h).
Proof.
  intros Hc Hh s. unfold try_except. specialize (Hc s).
  destruct (c s) as [[x|e] s1]; cbn [snd] in Hc; [exact Hc|].
  eapply os_only_trans; [exact Hc|apply Hh].
Qed.

Lemma keeps_finally {A} (c : M S A) (f : M S unit) :
  keeps prj c -> keeps prj f -> keeps prj (finally c f).
Proof.
  intros Hc Hf s. unfold finally. specialize (Hc s).
  destruct (c s) as [r s1]. cbn [snd] in Hc. specialize (Hf s1).
  destruct (f s1) as [[[]|e] s2]; cbn [snd] in *; eapply os_only_trans; eassumption.
Qed.

End Keeps.

Lemma keeps_on_device {A} (c : M BlockDevice.St A) :
  keeps fst c -> keeps fst (MIGFlash.on_device c).
Proof.
  intros Hc [w m]. unfold MIGFlash.on_device.
  destruct (MIGFlash.device m) as [bd|]; [|apply os_only_refl].
  specialize (Hc (w, bd)). destruct (c (w, bd)) as [r [w' bd']]. exact Hc.
Qed.

Lemma keeps_on_mig {A} (c : M MIGFlash.St A) :
  keeps fst c -> keeps fst (MIGController.on_mig c).
Proof.
  intros Hc [w ctl]. unfold MIGController.on_mig.
  destruct (MIGController._mig ctl) as [m|]; [|apply os_only_refl].
  specialize (Hc (w, m)). destruct (c (w, m)) as [r [w' m']]. exact Hc.
Qed.

Lemma keeps_lift_res {A} (r : Res A) : keeps fst (MIGFlash.lift_res r).
Proof. intros s. apply os_only_refl. Qed.

Create HintDb keeps.

(** Goals [keeps fst c] follow the shape of [c]. *)
Ltac keeps_tac :=
  repeat (first [ progress intros
                | assumption
                | solve [auto with keeps]
                | apply keeps_ret | apply keeps_raise | apply keeps_gets
                | apply keeps_lift_res
                | apply keeps_modify; intros [? ?]; reflexivity
                | apply keeps_bind | apply keeps_try_except | apply keeps_finally
                | apply keeps_on_device | apply keeps_on_mig
                | match goal with
                  | |- keeps _ (if ?b then _ else _) => destruct b
                  | |- keeps _ (match ?x with _ => _ end) => destruct x
                  end ]).

Lemma keeps_seek (offset : Z) : keeps fst (BlockDevice.seek offset).
Proof.
  intros [w bd]. unfold BlockDevice.seek.
  destruct (BlockDevice.handle bd); [destruct (decide _)|]; apply os_only_refl.
Qed.

#[local] Hint Resolve keeps_seek : keeps.

Lemma keeps_read (size : Z) : keeps fst (BlockDevice.read size).
Proof.
  intros [w bd]. unfold BlockDevice.read.
  destruct (BlockDevice.handle bd) as [h|]; [|apply os_only_refl].
  cbv zeta. destruct (med_fault _ _ _); apply os_only_refl.
Qed.

#[local] Hint Resolve keeps_read : keeps.

Lemma keeps_write (data : bytes) : keeps fst (BlockDeviceRW.write data).
Proof.
  intros [w bd]. unfold BlockDeviceRW.write.
  destruct (BlockDevice.handle bd) as [h|]; [|apply os_only_refl].
  cbv zeta. destruct (med_fault _ _ _); [apply os_only_refl|].
  destruct (decide _); apply os_only_refl.
Qed.

#[local] Hint Resolve keeps_write : keeps.

Lemma keeps_read_at (offset size : Z) : keeps fst (BlockDevice.read_at offset size).
Proof. unfold BlockDevice.read_at. keeps_tac. Qed.

#[local] Hint Resolve keeps_read_at : keeps.

Lemma keeps_close : keeps fst BlockDevice.close.
Proof.
  assert (Hrel : forall call, keeps fst (BlockDevice.release_handle call)).
  { intros call [w bd]. unfold BlockDevice.release_handle.
    destruct (BlockDevice.handle bd) as [h|]; [|apply os_only_refl].
    cbv zeta. destruct (med_close_fault _); apply os_only_log. }
  assert (Hun : keeps fst BlockDevice.unlock_volume).
  { intros [w bd]. unfold BlockDevice.unlock_volume.
    destruct (BlockDevice.handle bd) as [h|]; [apply os_only_log|apply os_only_refl]. }
  unfold BlockDevice.close. keeps_tac.
Qed.

#[local] Hint Resolve keeps_close : keeps.

Lemma keeps_open (devices : gmap string Medium) : keeps fst (BlockDeviceRW.open devices).
Proof.
  assert (Hos : keeps fst (BlockDeviceRW.os_open devices)).
  { intros [w bd]. unfold BlockDeviceRW.os_open.
    destruct (devices !! _); apply os_only_refl. }
  unfold BlockDeviceRW.open. keeps_tac.
Qed.

#[local] Hint Resolve keeps_open : keeps.

Lemma keeps_disconnect : keeps fst MIGFlash.disconnect.
Proof. unfold MIGFlash.disconnect. keeps_tac. Qed.

#[local] Hint Resolve keeps_disconnect : keeps.

Lemma keeps_cart_inserted : keeps fst MIGFlash.cart_inserted.
Proof. unfold MIGFlash.cart_inserted. keeps_tac. Qed.

#[local] Hint Resolve keeps_cart_inserted : keeps.

Lemma keeps_authenticate : keeps fst MIGFlash.authenticate.
Proof.
  unfold MIGFlash.authenticate.
  keeps_tac.
Qed.

#[local] Hint Resolve keeps_authenticate : keeps.

Lemma keeps_get_xci_size : keeps fst MIGFlash.get_xci_size.
Proof.
  unfold MIGFlash.get_xci_size, MIGFlash.get_xci_header.
  keeps_tac.
Qed.

#[local] Hint Resolve keeps_get_xci_size : keeps.

Lemma keeps_connect (devices : gmap string Medium) (found : list MIGDeviceInfo)
    (device_path : option string) :
  keeps fst (MIGFlashConnect.connect devices found device_path).
Proof.
  unfold MIGFlashConnect.connect, MIGFlashConnect._verify_device,
    MIGFlashConnect._read_firmware_version.
  keeps_tac.
Qed.

#[local] Hint Resolve keeps_connect : keeps.


(** ** Connecting and disconnecting the controller *)

(** X18. [disconnect] of the controller always returns.  It drops the
    session, clears the cached device, cartridge and header, leaves the
    controller DISCONNECTED and sends one DEVICE_DISCONNECTED event; the
    world is otherwise touched by the release of the handle only.  Called
    again, it releases nothing and changes nothing in the controller, but
    sends the event once more. *)
Theorem X18_controller_disconnect (w : World) (c : MIGController.t) :
  exists w' c',
    MIGControllerConnect.disconnect (w, c) = (Ok tt, (w', c'))
    /\ MIGController._mig c' = None
    /\ MIGController._state c' = ST_DISCONNECTED
    /\ MIGController._device_info c' = None
    /\ MIGController._cart_info c' = None
    /\ MIGController._xci_header c' = None
    /\ w_events w'
       = (w_events w ++ if MIGController._event_callback c then [disconnected_event] else [])%list
    /\ w_fs w' = w_fs w
    /\ MIGControllerConnect.disconnect (w', c')
       = (Ok tt, (emitted DEVICE_DISCONNECTED (Text "Disconnected") 0 0 None w' c', c')).
Proof.
  unfold MIGControllerConnect.disconnect at 1.
  unfold bind at 1, gets at 1. cbn [snd].
  destruct (MIGController._mig c) as [m|] eqn:Hm.
  - unfold bind at 1 2, MIGController.on_mig at 1. rewrite Hm.
    pose proof (keeps_disconnect (w, m)) as Hk.
    destruct (disconnect_result w m) as [w0 Hd]. rewrite Hd in *. cbn [fst snd] in Hk.
    destruct Hk as (_ & Hfs & Hev & _).
    unfold modify at 1. cbn [fst snd].
    unfold bind at 1, modify at 1. cbn [fst snd].
    rewrite emit_event_eq.
    eexists _, _. split; [reflexivity|].
    split; [reflexivity|]. split; [reflexivity|]. split; [reflexivity|].
    split; [reflexivity|]. split; [reflexivity|]. split; [|split].
    + unfold emitted. cbn. destruct (MIGController._event_callback c); cbn; rewrite Hev.
      * reflexivity.
      * now rewrite app_nil_r.
    + unfold emitted. cbn. destruct (MIGController._event_callback c); exact Hfs.
    + unfold MIGControllerConnect.disconnect, bind, gets, modify, ret. cbn [fst snd].
      cbn [MIGController._mig MIGController.set_state MIGController.set_cart
           MIGControllerConnect.set_device_info MIGController.set_mig].
      rewrite emit_event_eq. reflexivity.
  - unfold bind at 1 2, ret at 1, modify at 1. cbn [fst snd].
    rewrite emit_event_eq.
    eexists _, _. split; [reflexivity|].
    split; [exact Hm|]. split; [reflexivity|]. split; [reflexivity|].
    split; [reflexivity|]. split; [reflexivity|]. split; [|split].
    + unfold emitted. cbn. destruct (MIGController._event_callback c); cbn.
      * reflexivity.
      * now rewrite app_nil_r.
    + unfold emitted. cbn. destruct (MIGController._event_callback c); reflexivity.
    + unfold MIGControllerConnect.disconnect, bind, gets, modify, ret. cbn [fst snd].
      cbn [MIGController._mig MIGController.set_state MIGController.set_cart
           MIGControllerConnect.set_device_info MIGController.set_mig].
      rewrite Hm, emit_event_eq. reflexivity.
Qed.

(** [connect] of the session has two outcomes. *)
Lemma connect_cases (devices : gmap string Medium) (found : list MIGDeviceInfo)
    (device_path : option string) (w : World) (m : MIGFlash.t) :
  (exists w' m',
     MIGFlashConnect.connect devices found device_path (w, m) = (Ok true, (w', m'))
     /\ MIGFlash._connected m' = true
     /\ MIGFlashConnect.firmware_version m' <> "")
  \/ (exists msg w' m',
        MIGFlashConnect.connect devices found device_path (w, m)
        = (Raise (ConnectionError msg), (w', m'))
        /\ MIGFlash._connected m' = false).
Proof.
  rewrite connect_unfold. cbv zeta.
  set (s0 := if MIGFlash._connected m then _ else _).
  assert (H0 : MIGFlash._connected s0.2 = false).
  { subst s0. destruct (MIGFlash._connected m) eqn:Hc; [|exact Hc].
    destruct (disconnect_result w m) as [w0 ->]. reflexivity. }
  destruct s0 as [w0 m0]. cbn [fst snd] in *.
  destruct (chosen found device_path) as [d|]; [|right; eauto].
  destruct (MIGFlash.on_device (BlockDeviceRW.open devices) _) as [[[]|e] [w2 m2]] eqn:E2;
    apply on_device_connected in E2; cbn in E2.
  2:{ destruct (bail_out_frame e w2 m2) as (w' & m' & -> & Hc).
      right. eexists _, w', m'. split; [reflexivity|congruence]. }
  destruct (verify_device_frame w2 m2) as (b & w3 & m3 & -> & Hc3).
  destruct b; cbn [fst snd].
  - destruct (read_firmware_version_frame w3 (MIGFlashConnect.set_connected true m3))
      as (w4 & m4 & v & -> & Hc4 & Hv). cbn [fst snd].
    left. exists w4, m4. split; [reflexivity|]. split; [exact Hc4|].
    unfold MIGFlashConnect.firmware_version. rewrite Hv.
    destruct (decide (v = "")); [discriminate|assumption].
  - destruct (MIGFlash.on_device BlockDevice.close (w3, m3)) as [[[]|e] [w4 m4]] eqn:E4;
      apply on_device_connected in E4;
      match goal with
      | |- context [bail_out ?x _] =>
          destruct (bail_out_frame x w4 m4) as (w' & m' & -> & Hc)
      end; right; eexists _, w', m'; (split; [reflexivity|congruence]).
Qed.

(** The presence check does not depend on the file position. *)
Lemma sample_at_pos (p : Z) (m : MIGFlash.t) : sample (at_pos p m) = sample m.
Proof.
  unfold sample. rewrite !cart_inserted_unfold, connected_at_pos.
  destruct (MIGFlash._connected m); [|reflexivity].
  unfold at_pos. destruct (MIGFlash.device m) as [bd|] eqn:Hd; [|reflexivity].
  destruct (BlockDevice.handle bd) as [h|] eqn:Hh; [|reflexivity].
  unfold MIGFlash.on_device. cbn [MIGFlash.device MIGFlash.set_device]. rewrite Hd.
  unfold BlockDevice.read_at, bind, BlockDevice.seek. cbn [BlockDevice.handle]. rewrite Hh.
  destruct (decide (XCI_HEADER_OFFSET < 0)); [reflexivity|].
  unfold BlockDevice.read. cbn [BlockDevice.handle h_medium h_pos].
  destruct (med_fault _ _ _); reflexivity.
Qed.

Lemma device_info_at_pos (p : Z) (m : MIGFlash.t) :
  MIGFlash.device_info (at_pos p m) = MIGFlash.device_info m.
Proof.
  unfold at_pos. destruct (MIGFlash.device m) as [bd|]; [|reflexivity].
  destruct (BlockDevice.handle bd); reflexivity.
Qed.

(** [connect] of the controller, by outcome. *)
Lemma ctl_connect_cases (devices : gmap string Medium) (found : list MIGDeviceInfo)
    (device_path : option string) (w : World) (c : MIGController.t) :
  (exists w' c' m,
     MIGControllerConnect.connect devices found device_path (w, c) = (Ok true, (w', c'))
     /\ os_only w w'
     /\ MIGController._mig c' = Some m
     /\ MIGFlash._connected m = true
     /\ MIGController._device_info c' = MIGFlash.device_info m
     /\ MIGController._state c' = (if sample m then ST_CART_DETECTED else ST_NO_CART)
     /\ MIGController._event_callback c' = MIGController._event_callback c
     /\ MIGController._cart_info c' = MIGController._cart_info c
     /\ MIGController._xci_header c' = MIGController._xci_header c)
  \/ (exists msg w' c' m,
        MIGControllerConnect.connect devices found device_path (w, c)
        = (Raise (ConnectionError msg), (w', c'))
        /\ os_only w w'
        /\ MIGController._mig c' = Some m
        /\ MIGFlash._connected m = false
        /\ MIGController._state c' = ST_ERROR
        /\ MIGController._event_callback c' = MIGController._event_callback c
        /\ MIGController._cart_info c' = MIGController._cart_info c
        /\ MIGController._xci_header c' = MIGController._xci_header c).
Proof.
  destruct (MIGControllerConnect.connect devices found device_path (w, c))
    as [r [w' c']] eqn:Erun.
  revert Erun.
  unfold MIGControllerConnect.connect.
  unfold bind at 1, gets at 1. cbn [snd].
  assert (Hfirst : exists w0 c0,
            (match MIGController._mig c with
             | Some _ => MIGController.on_mig MIGFlash.disconnect
             | None => ret tt
             end) (w, c) = (Ok tt, (w0, c0))
            /\ os_only w w0
            /\ MIGController._event_callback c0 = MIGController._event_callback c
            /\ MIGController._cart_info c0 = MIGController._cart_info c
            /\ MIGController._xci_header c0 = MIGController._xci_header c).
  { destruct (MIGController._mig c) as [m|] eqn:Hm.
    - unfold MIGController.on_mig. rewrite Hm.
      pose proof (keeps_disconnect (w, m)) as Hk.
      destruct (disconnect_result w m) as [w0 Hd]. rewrite Hd in *.
      eexists _, _. split; [reflexivity|]. split; [exact Hk|]. auto.
    - exists w, c. split; [reflexivity|]. split; [apply os_only_refl|]. auto. }
  destruct Hfirst as (w0 & c0 & Hrun0 & Hw0 & Hcb0 & Hci0 & Hh0).
  unfold bind at 1. rewrite Hrun0.
  unfold bind at 1, modify at 1. cbn [fst snd].
  set (c1 := MIGController.set_mig (Some MIGFlashConnect.new) c0).
  unfold try_except.
  unfold bind at 1, MIGController.on_mig at 1.
  change (MIGController._mig c1) with (Some MIGFlashConnect.new).
  pose proof (keeps_connect devices found device_path (w0, MIGFlashConnect.new)) as Hk.
  destruct (connect_cases devices found device_path w0 MIGFlashConnect.new)
    as [(w2 & m2 & Hrun & Hc2 & _)|(msg & w2 & m2 & Hrun & Hc2)];
    rewrite Hrun in *; cbn [fst snd] in Hk.
  - unfold bind at 1, modify at 1. cbn [fst snd].
    unfold bind at 1, MIGController._set_state at 1, modify at 1. cbn [fst snd].
    unfold bind at 1, MIGController.on_mig at 1.
    cbn [MIGController._mig MIGController.set_mig MIGController.set_state
         MIGControllerConnect.set_device_info].
    destruct (cart_inserted_sample w2 m2) as [m3 Hs].
    assert (Hm3 : m3 = m2 \/ exists p, m3 = at_pos p m2).
    { pose proof Hs as Hs'. rewrite cart_inserted_unfold, Hc2 in Hs'.
      destruct (MIGFlash.on_device _ (w2, m2)) as [[data|e] [w4 m4]] eqn:E;
        apply on_device_read_at_frame in E as [_ H];
        injection Hs' as _ _ <-; exact H. }
    assert (Hfacts : sample m3 = sample m2
                     /\ MIGFlash._connected m3 = true
                     /\ MIGFlash.device_info m3 = MIGFlash.device_info m2).
    { destruct Hm3 as [->|[p ->]]; [auto|].
      rewrite sample_at_pos, connected_at_pos, device_info_at_pos. auto. }
    destruct Hfacts as (Hsm & Hcon & Hdi).
    rewrite Hs.
    destruct (sample m2) eqn:Hs2;
      unfold bind, MIGController._set_state, modify, ret; cbn [fst snd];
      intros [= <- <- <-]; left; eexists _, _, m3;
      (split; [reflexivity|]);
      (split; [eapply os_only_trans; eassumption|]);
      (split; [reflexivity|]); (split; [exact Hcon|]);
      (split; [cbn; now rewrite Hdi|]);
      (split; [cbn; now rewrite Hsm|]);
      (split; [exact Hcb0|]); (split; [exact Hci0|exact Hh0]).
  - unfold bind at 1, MIGController._set_state at 1, modify at 1. cbn [fst snd].
    unfold raise. intros [= <- <- <-]. right.
    eexists msg, w2, _, m2. split; [reflexivity|].
    split; [eapply os_only_trans; eassumption|].
    split; [reflexivity|]. split; [exact Hc2|]. split; [reflexivity|].
    split; [exact Hcb0|]. split; [exact Hci0|exact Hh0].
Qed.

(** X19. [connect] of the controller returns [True] or raises a
    [ConnectionError].  When it returns, the controller holds a connected
    session and its device information, and its state is CART_DETECTED or
    NO_CART as the presence check on that session says - never CONNECTED.
    When it raises, the state is ERROR and the controller is left with a
    session that is not connected.  Either way no event is sent, no file is
    touched, and the cartridge information and header cached from an
    earlier session stay as they were. *)
Theorem X19_controller_connect (devices : gmap string Medium) (found : list MIGDeviceInfo)
    (device_path : option string) (w : World) (c : MIGController.t) :
  match MIGControllerConnect.connect devices found device_path (w, c) with
  | (Ok b, (w', c')) =>
      b = true
      /\ os_only w w'
      /\ (exists m, MIGController._mig c' = Some m
                    /\ MIGFlash._connected m = true
                    /\ MIGController._device_info c' = MIGFlash.device_info m
                    /\ MIGController._state c'
                       = (if sample m then ST_CART_DETECTED else ST_NO_CART))
      /\ MIGController._cart_info c' = MIGController._cart_info c
      /\ MIGController._xci_header c' = MIGController._xci_header c
  | (Raise e, (w', c')) =>
      (exists msg, e = ConnectionError msg)
      /\ os_only w w'
      /\ MIGController._state c' = ST_ERROR
      /\ (exists m, MIGController._mig c' = Some m /\ MIGFlash._connected m = false)
      /\ MIGController._cart_info c' = MIGController._cart_info c
      /\ MIGController._xci_header c' = MIGController._xci_header c
  end.
Proof.
  destruct (ctl_connect_cases devices found device_path w c)
    as [(w' & c' & m & -> & Hw & Hm & Hc & Hdi & Hst & _ & Hci & Hh)
       |(msg & w' & c' & m & -> & Hw & Hm & Hc & Hst & _ & Hci & Hh)].
  - split; [reflexivity|]. split; [exact Hw|]. split; [eauto|]. auto.
  - split; [eauto|]. split; [exact Hw|]. split; [exact Hst|]. split; [eauto|]. auto.
Qed.



(** ** Monitoring *)

(** X21. [start_monitoring] never raises and leaves the monitoring flag
    up.  Called while the flag is up it does nothing, so calling it twice
    starts one monitor.  [stop_monitoring] then [start_monitoring] always
    starts one more thread. *)
Theorem X21_start_monitoring_once (w : World) (c : MIGController.t) :
  (MIGController.start_monitoring ;; MIGController.start_monitoring) (w, c)
  = MIGController.start_monitoring (w, c)
  /\ (MIGController.start_monitoring (w, c)).1 = Ok tt
  /\ MIGController._monitoring (MIGController.start_monitoring (w, c)).2.2 = true
  /\ w_threads (MIGController.start_monitoring (w, c)).2.1
     = (if MIGController._monitoring c then w_threads w else JobMonitor :: w_threads w)
  /\ w_threads ((MIGControllerConnect.stop_monitoring ;; MIGController.start_monitoring)
                  (w, c)).2.1
     = JobMonitor :: w_threads w.
Proof.
  unfold MIGController.start_monitoring, MIGControllerConnect.stop_monitoring,
    bind, gets, modify, ret.
  cbn [fst snd]. destruct (MIGController._monitoring c) eqn:Hmon; cbn; rewrite ?Hmon; auto.
Qed.

Lemma is_connected_gone (snapshot : option MIGFlash.t) (c : MIGController.t) :
  gone snapshot ->
  MIGController.is_connected (MIGController.set_mig snapshot c) = false.
Proof.
  unfold MIGController.is_connected, gone. cbn. destruct snapshot as [m|]; auto.
Qed.

(** One poll that finds the device gone. *)
Lemma monitor_poll_gone (w : World) (c : MIGController.t)
    (l : MIGController.MonitorLocals) (snapshot : option MIGFlash.t) :
  gone snapshot ->
  MIGController.monitor_poll snapshot l (w, c)
  = if MIGController.was_connected l
    then
      let c1 := MIGController.set_state ST_DISCONNECTED
                  (MIGController.set_mig snapshot c) in
      (Ok (MIGController.mkMonitorLocals false false),
       (emitted DEVICE_DISCONNECTED (Text "Device disconnected") 0 0 None w c1, c1))
    else (Ok l, (w, MIGController.set_mig snapshot c)).
Proof.
  intros Hgone. unfold MIGController.monitor_poll.
  unfold bind at 1, modify at 1. cbn [fst snd].
  unfold try_except, bind at 1, gets at 1. cbn [fst snd].
  rewrite (is_connected_gone snapshot c Hgone).
  destruct (MIGController.was_connected l); cbn [andb negb].
  - unfold bind at 1, MIGController._set_state at 1, modify at 1. cbn [fst snd].
    unfold bind at 1. rewrite emit_event_eq. reflexivity.
  - reflexivity.
Qed.

(** Polls of a monitor that already knows the device is gone. *)
Lemma monitor_loop_gone (polls : list (option MIGFlash.t)) :
  forall (w : World) (c : MIGController.t) (l : MIGController.MonitorLocals),
    Forall gone polls ->
    MIGController.was_connected l = false ->
    exists c',
      MIGController.monitor_loop polls l (w, c) = (Ok tt, (w, c'))
      /\ MIGController._state c' = MIGController._state c
      /\ MIGController._cart_info c' = MIGController._cart_info c
      /\ MIGController._xci_header c' = MIGController._xci_header c.
Proof.
  induction polls as [|snapshot polls IH]; intros w c l Hall Hwas.
  - exists c. auto.
  - inversion Hall as [|? ? Hg Hrest]; subst.
    cbn [MIGController.monitor_loop]. unfold bind at 1.
    rewrite (monitor_poll_gone w c l snapshot Hg), Hwas.
    destruct (IH w (MIGController.set_mig snapshot c) l Hrest Hwas)
      as (c' & Hrun & Hst & Hci & Hh).
    exists c'. auto.
Qed.

(** X22. A monitor that saw the device connected and then finds it
    gone, poll after poll: it tells the subscriber once, with
    DEVICE_DISCONNECTED, and leaves the controller DISCONNECTED; whatever
    the number of polls, nothing more is sent.  The cartridge
    information and the header the controller has cached stay in place. *)
Theorem X22_monitor_lost_connection (w : World) (c : MIGController.t)
    (l : MIGController.MonitorLocals) (snapshot : option MIGFlash.t)
    (polls : list (option MIGFlash.t)) :
  MIGController._event_callback c = true ->
  MIGController.was_connected l = true ->
  gone snapshot ->
  Forall gone polls ->
  exists w' c',
    MIGController.monitor_loop (snapshot :: polls) l (w, c) = (Ok tt, (w', c'))
    /\ w_events w' = (w_events w ++ [device_lost_event])%list
    /\ MIGController._state c' = ST_DISCONNECTED
    /\ MIGController._cart_info c' = MIGController._cart_info c
    /\ MIGController._xci_header c' = MIGController._xci_header c.
Proof.
  intros Hcb Hwas Hg Hall.
  cbn [MIGController.monitor_loop]. unfold bind at 1.
  rewrite (monitor_poll_gone w c l snapshot Hg), Hwas. cbv zeta.
  set (c1 := MIGController.set_state ST_DISCONNECTED (MIGController.set_mig snapshot c)).
  destruct (monitor_loop_gone polls
              (emitted DEVICE_DISCONNECTED (Text "Device disconnected") 0 0 None w c1) c1
              (MIGController.mkMonitorLocals false false) Hall eq_refl)
    as (c' & Hrun & Hst & Hci & Hh).
  eexists _, c'. split; [exact Hrun|]. split.
  - rewrite emitted_events by exact Hcb. reflexivity.
  - rewrite Hst, Hci, Hh. auto.
Qed.

Lemma X22_witness :
  exists w' c',
    MIGController.monitor_loop [None; None; Some MIGFlashConnect.new]
      (MIGController.mkMonitorLocals true true) (world0 Linux, dumping_controller)
    = (Ok tt, (w', c'))
    /\ w_events w' = (w_events (world0 Linux) ++ [device_lost_event])%list
    /\ MIGController._state c' = ST_DISCONNECTED
    /\ MIGController._cart_info c' = MIGController._cart_info dumping_controller
    /\ MIGController._xci_header c' = MIGController._xci_header dumping_controller.
Proof.
  apply (X22_monitor_lost_connection (world0 Linux) dumping_controller
           (MIGController.mkMonitorLocals true true) None [None; Some MIGFlashConnect.new]).
  - reflexivity.
  - reflexivity.
  - exact I.
  - repeat constructor.
Defined.

(** ** After the end of a device *)



(** ** After the end of a session *)

(** X24. A session [disconnect] has run on answers every call the same
    way until it is connected again: [cart_inserted] is [False];
    [authenticate], [read_uid], [get_xci_size] and [dump_xci] raise
    ConnectionError "Not connected" - the last without creating the
    destination file - and [read_xci] asks for authentication.  None of
    them changes the session or the world. *)
Theorem X24_after_disconnect {C : Type} (w : World) (m : MIGFlash.t) :
  let s := (MIGFlash.disconnect (w, m)).2 in
  MIGFlash.cart_inserted s = (Ok false, s)
  /\ MIGFlash.authenticate s = (Raise (ConnectionError "Not connected"), s)
  /\ MIGFlashConnect.read_uid s = (Raise (ConnectionError "Not connected"), s)
  /\ MIGFlash.get_xci_size s = (Raise (ConnectionError "Not connected"), s)
  /\ (forall offset length,
        MIGFlash.read_xci offset length s = (Raise MIGFlash.authentication_required, s))
  /\ (forall fuel filename trimmed (cb : option (Z -> Z -> M (World * C) unit)) (c : C),
        MIGFlash.dump_xci fuel filename trimmed cb (s, c)
        = (Raise (ConnectionError "Not connected"), (s, c))).
Proof.
  destruct (disconnect_result w m) as [w' ->]. cbn [snd]. cbv zeta.
  repeat apply conj; intros; reflexivity.
Qed.

(** ** The command line *)

Lemma in_session_eq {C A : Type} (c : M MIGFlash.St A) (w : World) (m : MIGFlash.t) (x : C) :
  MIGFlash.in_session c (w, m, x)
  = let '(r, (w', m')) := c (w, m) in (r, (w', m', x)).
Proof.
  unfold MIGFlash.in_session, zoom. cbn [fst snd].
  destruct (c (w, m)) as [r [w' m']]. reflexivity.
Qed.

Lemma cli_connect_mig (devices : gmap string Medium) (found : list MIGDeviceInfo)
    (device : option string) (w : World) (m : MIGFlash.t) (out : list CLI.Line) :
  CLI.connect_mig devices found device (w, m, out)
  = match MIGFlashConnect.connect devices found device (w, MIGFlashConnect.new) with
    | (Ok _, (w', m')) => (Ok tt, (w', m', out))
    | (Raise e, (w', m')) => (Raise e, (w', m', out))
    end.
Proof.
  unfold CLI.connect_mig. unfold bind at 1, modify at 1. cbn [fst snd].
  unfold bind at 1. rewrite in_session_eq.
  destruct (MIGFlashConnect.connect _ _ _ _) as [[b|e] [w' m']]; reflexivity.
Qed.

Lemma cli_disconnect (w : World) (m : MIGFlash.t) (out : list CLI.Line) :
  exists w',
    MIGFlash.in_session MIGFlash.disconnect (w, m, out)
    = (Ok tt, (w', MIGFlash.mk None (MIGFlash.device_info m) false None None None, out))
    /\ os_only w w'.
Proof.
  rewrite in_session_eq. pose proof (keeps_disconnect (w, m)) as Hk.
  destruct (disconnect_result w m) as [w' Hd]. rewrite Hd in *.
  exists w'. split; [reflexivity|exact Hk].
Qed.


(** The end of the [dump] command once its body has left. *)
Ltac cli_leave :=
  match goal with
  | |- context [MIGFlash.in_session MIGFlash.disconnect (?a, ?b, ?c)] =>
      let wd := fresh "wd" in
      let Hwd := fresh "Hwd" in
      destruct (cli_disconnect a b c) as (wd & -> & Hwd)
  end.

(** X26. The [dump] command never lets an exception out either.  When
    it returns, the session is not connected and the last line printed is
    "Done!", "No cartridge inserted!", "Authentication failed!" or an
    error; when that line is one of the two refusals, no file was
    touched. *)
Theorem X26_cli_dump_never_raises (devices : gmap string Medium)
    (found : list MIGDeviceInfo) (device : option string) (output : string)
    (full : bool) (fuel : nat) (w : World) (m : MIGFlash.t) (out : list CLI.Line) :
  exists r w' m' out',
    CLI.dump devices found device output full fuel (w, m, out) = (Ok r, (w', m', out'))
    /\ (r = None
        \/ r = Some tt
           /\ MIGFlash._connected m' = false
           /\ exists final,
                last out' = Some final
                /\ closing_line final
                /\ (final = CLI.NoCartridge \/ final = CLI.AuthenticationFailed ->
                    w_fs w' = w_fs w)).
Proof.
  unfold CLI.dump, try_except.
  unfold bind at 1. rewrite cli_connect_mig.
  pose proof (keeps_connect devices found device (w, MIGFlashConnect.new)) as Hk.
  destruct (connect_cases devices found device w MIGFlashConnect.new)
    as [(w1 & m1 & Hrun & Hc1 & Hfw)|(msg & w1 & m1 & Hrun & Hc1)];
    rewrite Hrun in *; cbn [fst snd] in Hk.
  2:{ unfold bind, CLI.print, modify, ret. cbn [fst snd].
      eexists _, _, _, _. split; [reflexivity|]. right.
      split; [reflexivity|]. split; [exact Hc1|].
      eexists. split; [apply last_snoc|]. split.
      - right. right. right. eauto.
      - intros [H|H]; discriminate H. }
  destruct Hk as (_ & Hfs1 & _).
  unfold finally_running.
  unfold bind at 1, gets at 1. cbn [fst snd].
  unfold bind at 1, CLI.print at 1, modify at 1. cbn [fst snd].
  unfold bind at 1. rewrite in_session_eq.
  destruct (cart_inserted_sample w1 m1) as [m2 Hs]. rewrite Hs.
  destruct (sample m1); cbn [negb].
  2:{ unfold bind, CLI.print, modify, ret. cbn [fst snd]. cli_leave.
      destruct Hwd as (_ & Hfs2 & _).
      eexists _, _, _, _. split; [reflexivity|]. right.
      split; [reflexivity|]. split; [reflexivity|].
      eexists. split; [apply last_snoc|]. split.
      - right. left. reflexivity.
      - intros _. congruence. }
  unfold bind at 1, CLI.print at 1, modify at 1. cbn [fst snd].
  unfold bind at 1. rewrite in_session_eq.
  destruct (MIGFlash.authenticate (w1, m2)) as [[[|]|e] [w3 m3]] eqn:Ea;
    apply authenticate_frame in Ea as (-> & _); cbn [negb].
  - unfold bind at 1, CLI.print at 1, modify at 1. cbn [fst snd].
    unfold bind at 1.
    destruct (MIGFlash.dump_xci fuel output (negb full) (Some CLI.on_progress) _)
      as [[[b|]|e] [[w4 m4] out4]].
    + unfold bind, CLI.print, modify, ret. cbn [fst snd]. cli_leave.
      eexists _, _, _, _. split; [reflexivity|]. right.
      split; [reflexivity|]. split; [reflexivity|].
      eexists. split; [apply last_snoc|]. split.
      * left. reflexivity.
      * intros [H|H]; discriminate H.
    + unfold ret. eexists _, _, _, _. split; [reflexivity|]. left. reflexivity.
    + cli_leave. unfold bind, CLI.print, modify, ret. cbn [fst snd].
      eexists _, _, _, _. split; [reflexivity|]. right.
      split; [reflexivity|]. split; [reflexivity|].
      eexists. split; [apply last_snoc|]. split.
      * right. right. right. eauto.
      * intros [H|H]; discriminate H.
  - unfold bind, CLI.print, modify, ret. cbn [fst snd]. cli_leave.
    destruct Hwd as (_ & Hfs2 & _).
    eexists _, _, _, _. split; [reflexivity|]. right.
    split; [reflexivity|]. split; [reflexivity|].
    eexists. split; [apply last_snoc|]. split.
    + right. right. left. reflexivity.
    + intros _. congruence.
  - cli_leave. unfold bind, CLI.print, modify, ret. cbn [fst snd].
    eexists _, _, _, _. split; [reflexivity|]. right.
    split; [reflexivity|]. split; [reflexivity|].
    eexists. split; [apply last_snoc|]. split.
    + right. right. right. eauto.
    + intros [H|H]; discriminate H.
Qed.
